(** * docsearch: range filters, the read engine and the grep engine

    A shallow embedding of [src/docsearch/server.py]: the range
    sublanguage ([parse_numeric_range]), the section filter
    ([filter_sections], [extract_section_number]), the read engine
    ([docread]) and the grep engine ([docgrep]).

    Conventions of the embedding.
    - A Python [str] is a list of characters.  Characters are the 8-bit
      code points of [ascii] (Latin-1); in that range the decimal digits
      of [int()] and of the regex class [\d] are exactly [0-9].
    - A Python [int] is a [Z]; [set[int]] is a [gset Z].
    - A function that may raise [ValueError] from [int()], [min()] or
      [max()] returns an [option]; [None] is the raised exception.
    - The format decoders, the file system and the compiled regular
      expression are collaborators of the module: they are the fields of
      the record [world].  What [docgrep] does to them (extracting a file,
      logging an error, searching a line) is recorded in a trace next to
      the results.
    - [int()] refuses a literal of more than 4300 digits, the default
      of the interpreter's limit, which the module does not change.
    - The calls into the file system ([resolve], [is_file], [is_dir],
      [rglob]) are taken to return, and [re.compile] to return or to
      raise [re.error]; what the tools do when one of them raises
      something else is outside the model. *)

From Stdlib Require Import ZArith NArith Ascii String DecimalString DecimalZ.
From Stdlib Require DecimalFacts DecimalPos.
From stdpp Require Import base option list list_numbers sorting gmap strings.

Abbreviation str := (list ascii).

(** A Python string literal. *)
Definition py (s : string) : str := list_ascii_of_string s.

Module PyStr.

Definition nl : ascii := "010"%char.

(** [str.isspace] on one character, restricted to code points below 256:
    TAB..CR, FS..US, space, NEL and NBSP. *)
Definition is_space (c : ascii) : bool :=
  let n := N_of_ascii c in
  ((9 <=? n) && (n <=? 13) || (28 <=? n) && (n <=? 32)
   || (n =? 133) || (n =? 160))%N.

Definition is_digit (c : ascii) : bool :=
  let n := N_of_ascii c in ((48 <=? n) && (n <=? 57))%N.

Definition digit_val (c : ascii) : Z := Z.of_N (N_of_ascii c) - 48.

Fixpoint take_while (p : ascii → bool) (s : str) : str :=
  match s with
  | c :: s' => if p c then c :: take_while p s' else []
  | [] => []
  end.

Fixpoint drop_while (p : ascii → bool) (s : str) : str :=
  match s with
  | c :: s' => if p c then drop_while p s' else s
  | [] => []
  end.

(** [s.lstrip(chars)], [s.rstrip(chars)], [s.strip(chars)], with the set
    of characters given as a predicate. *)
Definition lstrip_of (p : ascii → bool) (s : str) : str := drop_while p s.
Definition rstrip_of (p : ascii → bool) (s : str) : str :=
  reverse (drop_while p (reverse s)).
Definition strip_of (p : ascii → bool) (s : str) : str :=
  rstrip_of p (lstrip_of p s).

(** [s.strip()] *)
Definition strip (s : str) : str := strip_of is_space s.

(** [c in s] for a one-character string [c]. *)
Definition contains (c : ascii) (s : str) : bool :=
  existsb (Ascii.eqb c) s.

(** [s.split(sep)] for a one-character separator. *)
Fixpoint split (sep : ascii) (s : str) : list str :=
  match s with
  | [] => [[]]
  | c :: s' =>
      if Ascii.eqb c sep then [] :: split sep s'
      else match split sep s' with
           | w :: ws => (c :: w) :: ws
           | [] => [[c]]
           end
  end.

(** [a, b = s.split(sep, 1)] for a one-character separator that occurs
    in [s] (the callers test [sep in s] first). *)
Definition split1 (sep : ascii) (s : str) : str * str :=
  (take_while (λ c, negb (Ascii.eqb c sep)) s,
   drop 1 (drop_while (λ c, negb (Ascii.eqb c sep)) s)).

(** [sep.join(parts)] *)
Fixpoint join (sep : str) (parts : list str) : str :=
  match parts with
  | [] => []
  | [p] => p
  | p :: ps => p ++ sep ++ join sep ps
  end.

(** [s.startswith(prefix)] *)
Fixpoint startswith (prefix s : str) : bool :=
  match prefix, s with
  | [], _ => true
  | a :: prefix', b :: s' => Ascii.eqb a b && startswith prefix' s'
  | _ :: _, [] => false
  end.

(** [s.removeprefix(prefix)] and [s.removesuffix(suffix)] *)
Definition removeprefix (prefix s : str) : str :=
  if startswith prefix s then drop (length prefix) s else s.
Definition removesuffix (suffix s : str) : str :=
  if startswith (reverse suffix) (reverse s)
  then take (length s - length suffix) s else s.

(** [s.lower()]: on code points below 256 the cased letters are A-Z and
    the Latin-1 capitals 192..222 except the multiplication sign 215. *)
Definition lower_char (c : ascii) : ascii :=
  let n := N_of_ascii c in
  if ((65 <=? n) && (n <=? 90)
      || (192 <=? n) && (n <=? 222) && negb (n =? 215))%N
  then ascii_of_N (n + 32) else c.
Definition lower (s : str) : str := map lower_char s.

(** [str(n)] for an integer.  The integers that the module formats are
    positions and members of parsed ranges, which lie between two numbers
    that [int] has read, so the limit of 4300 digits that [str] shares
    with [int] is not reached. *)
Definition of_int (n : Z) : str :=
  py (NilZero.string_of_int (Z.to_int n)).

(** ** [int(s)]

    Surrounding white space is dropped, one sign is allowed, and the
    digits may be grouped by single underscores that stand between two
    digits.  The white space of [int] is narrower than that of
    [str.strip]: of the code points below 128 only TAB..CR and the space
    count, so FS..US are rejected; NEL and NBSP count.  A literal of
    more than [sys.get_int_max_str_digits()] digits, 4300 as the module
    leaves the limit alone, is refused with a [ValueError] like any other
    malformed literal; the limit counts the digits, leading zeros too,
    not the sign, the underscores or the white space. *)
Definition int_max_str_digits : Z := 4300.

Definition digit_count (s : str) : Z :=
  Z.of_nat (length (filter (λ c, is_digit c = true) s)).

Definition is_int_space (c : ascii) : bool :=
  let n := N_of_ascii c in
  ((9 <=? n) && (n <=? 13) || (n =? 32) || (n =? 133) || (n =? 160))%N.

Inductive int_state := IntStart | IntDigit | IntUnderscore.

Fixpoint int_digits (st : int_state) (acc : Z) (s : str) : option Z :=
  match s with
  | [] => match st with IntDigit => Some acc | _ => None end
  | c :: s' =>
      if is_digit c then int_digits IntDigit (10 * acc + digit_val c) s'
      else if Ascii.eqb c "_" then
        match st with
        | IntDigit => int_digits IntUnderscore acc s'
        | _ => None
        end
      else None
  end.

(** The digits of a literal, without its sign. *)
Definition int_literal (ds : str) : option Z :=
  if bool_decide (digit_count ds ≤ int_max_str_digits)%Z
  then int_digits IntStart 0 ds
  else None.

Definition int (s : str) : option Z :=
  match strip_of is_int_space s with
  | "+"%char :: ds => int_literal ds
  | "-"%char :: ds => Z.opp <$> int_literal ds
  | ds => int_literal ds
  end.

(** [range(a, b)] as the list it runs through. *)
Definition range (a b : Z) : list Z := seqZ a (b - a).

End PyStr.

(** ** Range parsing *)

(** The body of the loop of [parse_numeric_range]: the numbers that one
    comma-separated part adds to [nums]. *)
Definition numeric_part (part : str) : option (gset Z) :=
  let part := PyStr.strip part in
  if PyStr.contains "-" part then
    let '(start, end_) := PyStr.split1 "-" part in
    a ← PyStr.int start;
    b ← PyStr.int end_;
    Some (list_to_set (PyStr.range a (b + 1)))
  else
    n ← PyStr.int part;
    Some {[ n ]}.

Fixpoint parse_numeric_parts (nums : gset Z) (parts : list str)
  : option (gset Z) :=
  match parts with
  | [] => Some nums
  | part :: parts' =>
      added ← numeric_part part;
      parse_numeric_parts (nums ∪ added) parts'
  end.

Definition parse_numeric_range (s : str) : option (gset Z) :=
  parse_numeric_parts ∅ (PyStr.split "," s).

(** ** Integer sets: [sorted], [min] and [max] *)

Definition py_sorted (nums : gset Z) : list Z :=
  merge_sort Z.le (elements nums).

(** [min(nums)] and [max(nums)] raise [ValueError] on the empty set. *)
Definition py_min (nums : gset Z) : option Z :=
  match elements nums with
  | [] => None
  | x :: l => Some (foldl Z.min x l)
  end.

Definition py_max (nums : gset Z) : option Z :=
  match elements nums with
  | [] => None
  | x :: l => Some (foldl Z.max x l)
  end.

(** ** Section labels *)

Definition section : Type := str * str.

Module LabelRegex.
Import PyStr.

(** [$] matches at the end of the string and just before a newline that
    ends the string. *)
Definition at_end (s : str) : bool :=
  match s with
  | [] => true
  | [c] => Ascii.eqb c nl
  | _ => false
  end.

(** [(\d+)$] matched at the head of [s]: the greedy [\d+] first tries to
    take one more digit and gives it back when the rest fails.  The
    result is the text of group 1. *)
Fixpoint digits_end (s : str) : option str :=
  match s with
  | c :: s' =>
      if is_digit c then
        match digits_end s' with
        | Some g => Some (c :: g)
        | None => if at_end s' then Some [c] else None
        end
      else None
  | [] => None
  end.

(** [re.match(r".*?(\d+)$", s)]: the lazy [.*?] first tries to take
    nothing, then one more character, and never takes a newline. *)
Fixpoint search (s : str) : option str :=
  match digits_end s with
  | Some g => Some g
  | None =>
      match s with
      | c :: s' => if Ascii.eqb c nl then None else search s'
      | [] => None
      end
  end.

End LabelRegex.

(** [extract_section_number]: the inner option is the returned
    [int | None]. *)
Definition extract_section_number (label : str) : option (option Z) :=
  match LabelRegex.search label with
  | Some g => n ← PyStr.int g; Some (Some n)
  | None => Some None
  end.

(** ** The section filter *)

(** [[lines[j - 1] for j in sorted(nums) if 1 <= j <= len(lines)]] *)
Definition select_lines (nums : gset Z) (lines : list str) : list str :=
  omap (λ j : Z,
          if bool_decide (1 ≤ j ≤ Z.of_nat (length lines))%Z
          then lines !! Z.to_nat (j - 1) else None)
       (py_sorted nums).

Definition relabel (label : str) (unit_ : string) (lo hi : Z) : str :=
  label ++ py " " ++ py unit_ ++ py " "
        ++ PyStr.of_int lo ++ py "-" ++ PyStr.of_int hi.

Fixpoint filter_lines (line_range : gset Z) (sections : list section)
  : option (list section) :=
  match sections with
  | [] => Some []
  | (label, text) :: rest =>
      let lines := PyStr.split PyStr.nl text in
      let selected := select_lines line_range lines in
      match selected with
      | _ :: _ =>
          lo ← py_min line_range;
          hi ← py_max line_range;
          filtered ← filter_lines line_range rest;
          Some ((relabel label "lines" lo hi, PyStr.join [PyStr.nl] selected)
                  :: filtered)
      | [] => filter_lines line_range rest
      end
  end.

Record sheet_selector := SheetSelector {
  names : gset str;
  indices : gset Z;
  row_range : option (gset Z)
}.

Definition is_quote (c : ascii) : bool :=
  Ascii.eqb c "'" || Ascii.eqb c "034".

(** One turn of the loop over [range_str.split(",")] of the sheet branch. *)
Definition sheet_part (sel : sheet_selector) (part : str)
  : option sheet_selector :=
  let part := PyStr.strip_of is_quote (PyStr.strip part) in
  '(part, rows) ←
    (if PyStr.contains ":" part then
       let '(sheet, row_part) := PyStr.split1 ":" part in
       rows ← parse_numeric_range row_part;
       Some (sheet, Some rows)
     else Some (part, row_range sel));
  match PyStr.int part with
  | Some n => Some (SheetSelector (names sel) (indices sel ∪ {[ n ]}) rows)
  | None =>
      if negb (PyStr.contains "-" part)
      then Some (SheetSelector (names sel ∪ {[ part ]}) (indices sel) rows)
      else match parse_numeric_range part with
           | Some nums =>
               Some (SheetSelector (names sel) (indices sel ∪ nums) rows)
           | None =>
               Some (SheetSelector (names sel ∪ {[ part ]}) (indices sel) rows)
           end
  end.

Fixpoint parse_sheet_parts (sel : sheet_selector) (parts : list str)
  : option sheet_selector :=
  match parts with
  | [] => Some sel
  | part :: parts' => sel' ← sheet_part sel part; parse_sheet_parts sel' parts'
  end.

Definition parse_sheet_selector (range_str : str) : option sheet_selector :=
  parse_sheet_parts (SheetSelector ∅ ∅ None) (PyStr.split "," range_str).

Definition sheet_name (label : str) : str :=
  PyStr.removesuffix (py "'") (PyStr.removeprefix (py "sheet '") label).

Definition sheet_selected (sel : sheet_selector) (i : Z) (label : str) : bool :=
  bool_decide (i ∈ indices sel) || bool_decide (sheet_name label ∈ names sel).

(** The loop over [enumerate(sections, 1)]; [i] is the running index. *)
Fixpoint filter_sheets (sel : sheet_selector) (i : Z) (sections : list section)
  : option (list section) :=
  match sections with
  | [] => Some []
  | (label, text) :: rest =>
      if sheet_selected sel i label then
        match row_range sel with
        | Some rows =>
            let lines := PyStr.split PyStr.nl text in
            let selected := select_lines rows lines in
            lo ← py_min rows;
            hi ← py_max rows;
            filtered ← filter_sheets sel (i + 1) rest;
            Some ((relabel label "rows" lo hi, PyStr.join [PyStr.nl] selected)
                    :: filtered)
        | None =>
            filtered ← filter_sheets sel (i + 1) rest;
            Some ((label, text) :: filtered)
        end
      else filter_sheets sel (i + 1) rest
  end.

Fixpoint filter_numbered (nums : gset Z) (sections : list section)
  : option (list section) :=
  match sections with
  | [] => Some []
  | (label, text) :: rest =>
      number ← extract_section_number label;
      filtered ← filter_numbered nums rest;
      Some (match number with
            | Some n => if bool_decide (n ∈ nums)
                        then (label, text) :: filtered else filtered
            | None => filtered
            end)
  end.

Definition line_addressed (ext : str) : bool :=
  bool_decide (ext ∈ [py ".docx"; py ".odt"; py ".rtf"]).

Definition sheet_addressed (ext : str) : bool :=
  bool_decide (ext ∈ [py ".xlsx"; py ".ods"]).

(** [filter_sections]: the returned pair is (warning, sections); the
    warning is always [None]. *)
Definition filter_sections (sections : list section) (range_str ext : str)
  : option (option str * list section) :=
  if line_addressed ext then
    line_range ← parse_numeric_range range_str;
    filtered ← filter_lines line_range sections;
    Some (None, filtered)
  else if sheet_addressed ext then
    sel ← parse_sheet_selector range_str;
    filtered ← filter_sheets sel 1 sections;
    Some (None, filtered)
  else
    nums ← parse_numeric_range range_str;
    filtered ← filter_numbered nums sections;
    Some (None, filtered).

(** ** Paths, formats and the world outside the module *)

(** A path is the list of its components. *)
Definition path : Type := list str.

(** [str(p)] for a relative path. *)
Definition path_str (p : path) : str := PyStr.join (py "/") p.

(** [s.rfind(".")] as an index, [None] for -1. *)
Fixpoint rfind_dot (s : str) : option nat :=
  match s with
  | [] => None
  | c :: s' =>
      match rfind_dot s' with
      | Some i => Some (S i)
      | None => if Ascii.eqb c "." then Some 0 else None
      end
  end.

(** [PurePath.suffix]: the part of the last component from its last dot,
    when that dot is neither the first nor the last character. *)
Definition path_suffix (p : path) : str :=
  match last p with
  | Some name =>
      match rfind_dot name with
      | Some i => if bool_decide (0 < i ∧ i + 1 < length name)
                  then drop i name else []
      | None => []
      end
  | None => []
  end.

Inductive format := Pdf | Docx | Pptx | Xlsx | Odt | Ods | Odp | Rtf | Epub.

(** The dispatch table of [extract_text]. *)
Definition extractors : list (str * format) :=
  [ (py ".pdf", Pdf); (py ".docx", Docx); (py ".pptx", Pptx);
    (py ".xlsx", Xlsx); (py ".odt", Odt); (py ".ods", Ods);
    (py ".odp", Odp); (py ".rtf", Rtf); (py ".epub", Epub) ].

Fixpoint assoc (ext : str) (table : list (str * format)) : option format :=
  match table with
  | [] => None
  | (key, f) :: table' => if decide (key = ext) then Some f else assoc ext table'
  end.

Definition extractor_of (ext : str) : option format := assoc ext extractors.

Definition SUPPORTED_EXTENSIONS : gset str :=
  list_to_set [ py ".pdf"; py ".docx"; py ".pptx"; py ".xlsx"; py ".odt";
                py ".ods"; py ".odp"; py ".rtf"; py ".epub" ].

Definition MAX_OUTPUT_CHARS : Z := 40000.

(** What the module asks of its surroundings.  An exception of a decoder
    and the [re.error] of [re.compile] are given by their message
    [str(e)].  The calls are taken to return; [re.compile] returns or
    raises [re.error]. *)
Record world := World {
  resolve : str → path;                      (* Path(s).resolve() *)
  is_file : path → bool;                     (* p.is_file() *)
  is_dir : path → bool;                      (* p.is_dir() *)
  sorted_rglob : path → list path;           (* sorted(root.rglob("*")),
                                                each entry relative to root *)
  decode : format → path → str + list section;           (* extract_pdf, ... *)
  re_compile : str → bool → str + (str → bool)           (* re.compile(p, flags)
                                                and the [search] of the result;
                                                the flag is IGNORECASE *)
}.

(** The outcome of a tool call.  [Raised None] is a [ValueError] of
    [int()], [min()] or [max()], whose message is not modelled. *)
Inductive result (A : Type) :=
| Ok (a : A)
| Raised (message : option str).
Arguments Ok {A} a.
Arguments Raised {A} message.

Section Engines.
Variable w : world.

Definition extract_text (p : path) : str + list section :=
  let ext := PyStr.lower (path_suffix p) in
  match extractor_of ext with
  | None => inl (py "Unsupported file type: " ++ ext)
  | Some f => decode w f p
  end.

(** ** docread *)

(** [", ".join(sorted(SUPPORTED_EXTENSIONS))] *)
Definition supported_list : str :=
  PyStr.join (py ", ")
    [ py ".docx"; py ".epub"; py ".odp"; py ".ods"; py ".odt";
      py ".pdf"; py ".pptx"; py ".rtf"; py ".xlsx" ].

(** The first half of [docread]: the checks, the extraction and the
    range filter.  The value is the pair (warning, sections) that the
    rendering starts from. *)
Definition docread_sections (filepath : str) (range : option str)
  : result (option str * list section) :=
  let p := resolve w filepath in
  if negb (is_file w p) then
    Raised (Some (py "File not found: " ++ filepath))
  else if negb (bool_decide (PyStr.lower (path_suffix p) ∈ SUPPORTED_EXTENSIONS))
  then
    Raised (Some (py "Unsupported file type: " ++ path_suffix p
                     ++ py ". Supported: " ++ supported_list))
  else
    match extract_text p with
    | inl message => Raised (Some message)
    | inr sections =>
        match range with
        | Some (c :: r) =>
            match filter_sections sections (c :: r)
                    (PyStr.lower (path_suffix p)) with
            | Some filtered => Ok filtered
            | None => Raised None
            end
        | _ => Ok (None, sections)
        end
    end.

(** The list [output] joined by newlines. *)
Definition render (warning : option str) (sections : list section) : str :=
  PyStr.join [PyStr.nl]
    (match warning with
     | Some (c :: wn) => [(c :: wn) ++ [PyStr.nl]]
     | _ => []
     end
     ++ map (λ s : section,
               py "=== " ++ s.1 ++ py " ===" ++ [PyStr.nl] ++ s.2 ++ [PyStr.nl])
            sections).

Definition truncation_notice : str :=
  [PyStr.nl; PyStr.nl] ++ py "... output truncated at "
    ++ PyStr.of_int MAX_OUTPUT_CHARS
    ++ py " chars. Use range to narrow results.".

Definition truncate_output (result : str) : str :=
  if bool_decide (MAX_OUTPUT_CHARS < Z.of_nat (length result))%Z
  then take (Z.to_nat MAX_OUTPUT_CHARS) result ++ truncation_notice
  else result.

Definition docread (filepath : str) (range : option str) : result str :=
  match docread_sections filepath range with
  | Raised message => Raised message
  | Ok (warning, sections) =>
      match sections with
      | [] => Ok (py "No text content found.")
      | _ :: _ => Ok (truncate_output (render warning sections))
      end
  end.

(** ** docgrep *)

(** [s.splitlines()]: the line boundaries among the code points below
    256 are LF, VT, FF, CR (CR LF counts once), FS, GS, RS and NEL; a
    boundary that ends the string opens no further line. *)
Definition is_linebreak (c : ascii) : bool :=
  let n := N_of_ascii c in
  ((10 <=? n) && (n <=? 13) || (28 <=? n) && (n <=? 30) || (n =? 133))%N.

Fixpoint splitlines_from (cur : str) (s : str) : list str :=
  match s with
  | [] => match cur with [] => [] | _ => [reverse cur] end
  | c :: s' =>
      if is_linebreak c then
        reverse cur ::
          match s' with
          | d :: s'' =>
              if Ascii.eqb c "013" && Ascii.eqb d "010"
              then splitlines_from [] s''
              else splitlines_from [] s'
          | [] => []
          end
      else splitlines_from (c :: cur) s'
  end.

Definition splitlines (s : str) : list str := splitlines_from [] s.

(** [any(part.startswith(".") for part in rel.parts)] *)
Definition hidden (rel : path) : bool :=
  existsb (PyStr.startswith (py ".")) rel.

(** The set comprehension over [file_types], met with the supported set. *)
Definition allowed_extensions (file_types : option (list str)) : gset str :=
  match file_types with
  | Some (t :: ts) =>
      list_to_set
        (map (λ ext, if PyStr.startswith (py ".") ext then ext
                     else py "." ++ ext) (t :: ts))
        ∩ SUPPORTED_EXTENSIONS
  | _ => SUPPORTED_EXTENSIONS
  end.

(** What the walk does to a file besides growing [results]. *)
Inductive event :=
| Extract (rel : path)                       (* extract_text(filepath) *)
| LogError (rel : path) (message : str)      (* logger.error(...) *)
| Search (rel : path) (label line : str).    (* regex.search(line) *)

Global Instance event_eq_dec : EqDecision event.
Proof. solve_decision. Defined.

Record grep_state := GrepState {
  results : list str;
  trace : list event
}.

Definition emit (r : str) (st : grep_state) : grep_state :=
  GrepState (results st ++ [r]) (trace st).
Definition record (e : event) (st : grep_state) : grep_state :=
  GrepState (results st) (trace st ++ [e]).

Section Walk.
Variable root : path.
Variable regex_search : str → bool.
Variable allowed_exts : gset str.
Variable max_results : Z.

(** [len(results) >= max_results] *)
Definition cap_reached (st : grep_state) : bool :=
  bool_decide (max_results ≤ Z.of_nat (length (results st)))%Z.

Definition match_line (rel : path) (label line : str) : str :=
  path_str rel ++ py ":" ++ label ++ py ":" ++ PyStr.strip line.

Definition error_line (rel : path) (message : str) : str :=
  path_str rel ++ py ":error:" ++ message.

(** [for line in text.splitlines()] *)
Fixpoint scan_lines (rel : path) (label : str) (st : grep_state)
    (lines : list str) : grep_state :=
  match lines with
  | [] => st
  | line :: lines' =>
      if cap_reached st then st
      else
        let st := record (Search rel label line) st in
        if regex_search line
        then scan_lines rel label (emit (match_line rel label line) st) lines'
        else scan_lines rel label st lines'
  end.

(** [for section_label, text in sections] *)
Fixpoint scan_sections (rel : path) (st : grep_state)
    (sections : list section) : grep_state :=
  match sections with
  | [] => st
  | (label, text) :: sections' =>
      if cap_reached st then st
      else scan_sections rel (scan_lines rel label st (splitlines text))
             sections'
  end.

(** The three [continue] tests at the head of the loop body. *)
Definition eligible (rel : path) : bool :=
  is_file w (root ++ rel)
  && bool_decide (PyStr.lower (path_suffix (root ++ rel)) ∈ allowed_exts)
  && negb (hidden rel).

(** [for filepath in sorted(root.rglob("*"))] *)
Fixpoint walk (st : grep_state) (entries : list path) : grep_state :=
  match entries with
  | [] => st
  | rel :: entries' =>
      if cap_reached st then st
      else if negb (is_file w (root ++ rel)) then walk st entries'
      else if negb (bool_decide
                      (PyStr.lower (path_suffix (root ++ rel)) ∈ allowed_exts))
      then walk st entries'
      else if hidden rel then walk st entries'
      else
        match extract_text (root ++ rel) with
        | inl message =>
            walk (emit (error_line rel message)
                    (record (LogError rel message)
                       (record (Extract rel) st)))
                 entries'
        | inr sections =>
            walk (scan_sections rel (record (Extract rel) st) sections)
                 entries'
        end
  end.

End Walk.

Definition docgrep_walk (directory : str) (regex_search : str → bool)
    (file_types : option (list str)) (max_results : Z) : grep_state :=
  let root := resolve w directory in
  walk root regex_search (allowed_extensions file_types) max_results
    (GrepState [] []) (sorted_rglob w root).

Definition docgrep (directory pattern : str) (case_sensitive : bool)
    (file_types : option (list str)) (max_results : Z) : result str :=
  let root := resolve w directory in
  if negb (is_dir w root) then
    Raised (Some (py "Not a directory: " ++ directory))
  else
    match re_compile w pattern (negb case_sensitive) with
    | inl message => Raised (Some (py "Invalid regex pattern: " ++ message))
    | inr regex_search =>
        match results (docgrep_walk directory regex_search
                         file_types max_results) with
        | [] => Ok (py "No matches found.")
        | r :: rs => Ok (PyStr.join [PyStr.nl] (r :: rs))
        end
    end.

End Engines.

(** ** Reference definitions

    The selections in the words of the specification; the theorems below
    compare the code with them. *)

(** The lines whose 1-based index is in [nums], in line order. *)
Definition lines_in_range (nums : gset Z) (lines : list str) : list str :=
  (filter (λ p : Z * str, p.1 ∈ nums)
     (zip (seqZ 1 (Z.of_nat (length lines))) lines)).*2.

(** The least and the greatest requested number (0 when none is
    requested). *)
Definition requested_min (nums : gset Z) : Z := default 0%Z (py_min nums).
Definition requested_max (nums : gset Z) : Z := default 0%Z (py_max nums).

(** What the line-addressed policy makes of one section: nothing when no
    requested line exists, else the requested lines under the label
    "{label} lines {min}-{max}". *)
Definition line_section (nums : gset Z) (s : section) : option section :=
  match lines_in_range nums (PyStr.split PyStr.nl s.2) with
  | [] => None
  | kept =>
      Some (relabel s.1 "lines" (requested_min nums) (requested_max nums),
            PyStr.join [PyStr.nl] kept)
  end.

(** The sheets that a selector chooses: those whose 1-based position is in
    [indices] or whose name is in [names], in document order. *)
Definition chosen_sheets (sel : sheet_selector) (sections : list section)
  : list section :=
  (filter (λ p : Z * section,
             p.1 ∈ indices sel ∨ sheet_name p.2.1 ∈ names sel)
     (zip (seqZ 1 (Z.of_nat (length sections))) sections)).*2.

(** A chosen sheet under a row range: the requested rows that exist, under
    the label "{label} rows {min}-{max}". *)
Definition row_section (rows : gset Z) (s : section) : section :=
  (relabel s.1 "rows" (requested_min rows) (requested_max rows),
   PyStr.join [PyStr.nl] (lines_in_range rows (PyStr.split PyStr.nl s.2))).

(** The run of decimal digits that ends a label. *)
Definition trailing_digits (label : str) : str :=
  reverse (PyStr.take_while PyStr.is_digit (reverse label)).

(** A string of digits read as a decimal number. *)
Definition decimal_value (ds : str) : Z :=
  foldl (λ acc c, 10 * acc + PyStr.digit_val c)%Z 0%Z ds.

(** The number that ends a label; none when no digit ends it. *)
Definition label_number (label : str) : option Z :=
  match trailing_digits label with
  | [] => None
  | ds => Some (decimal_value ds)
  end.

(** A label is selected by a number set when a number ends it and that
    number is in the set. *)
Definition label_selected (nums : gset Z) (label : str) : bool :=
  match label_number label with
  | Some n => bool_decide (n ∈ nums)
  | None => false
  end.

Definition numbered_label (ext : str) : bool :=
  bool_decide (ext ∈ [py ".pdf"; py ".pptx"; py ".odp"; py ".epub"]).

(** The walk without its cap: what one section, one file and one entry
    of the listing contribute to the results and to the trace. *)
Definition section_matches (regex_search : str → bool) (rel : path)
    (s : section) : list str :=
  match_line rel s.1 <$> filter (λ line, regex_search line = true) (splitlines s.2).

Definition file_matches (regex_search : str → bool) (rel : path)
    (sections : list section) : list str :=
  sections ≫= section_matches regex_search rel.

Definition entry_output (w : world) (root : path) (regex_search : str → bool)
    (allowed_exts : gset str) (rel : path) : list str :=
  if eligible w root allowed_exts rel then
    match extract_text w (root ++ rel) with
    | inl message => [error_line rel message]
    | inr sections => file_matches regex_search rel sections
    end
  else [].

Definition section_events (rel : path) (s : section) : list event :=
  Search rel s.1 <$> splitlines s.2.

Definition file_events (rel : path) (sections : list section) : list event :=
  sections ≫= section_events rel.

Definition entry_events (w : world) (root : path) (allowed_exts : gset str)
    (rel : path) : list event :=
  if eligible w root allowed_exts rel then
    Extract rel ::
      match extract_text w (root ++ rel) with
      | inl message => [LogError rel message]
      | inr sections => file_events rel sections
      end
  else [].

(** The entry that an event is about. *)
Definition event_path (e : event) : path :=
  match e with
  | Extract rel | LogError rel _ | Search rel _ _ => rel
  end.

(** A result line that reports on the entry [rel]. *)
Definition result_of (rel : path) (r : str) : Prop :=
  (∃ message, r = path_str rel ++ py ":error:" ++ message)
  ∨ (∃ label line,
       r = path_str rel ++ py ":" ++ label ++ py ":" ++ PyStr.strip line).

(** The entries whose extraction the trace records, in order. *)
Definition extracted (tr : list event) : list path :=
  omap (λ ev, match ev with Extract rel => Some rel | _ => None end) tr.

(** An entry that the walk takes up and whose decoder succeeds. *)
Definition scannable (w : world) (root : path) (allowed_exts : gset str)
    (rel : path) : bool :=
  eligible w root allowed_exts rel
  && match extract_text w (root ++ rel) with
     | inr _ => true
     | inl _ => false
     end.

(** How many more results the cap admits. *)
Definition room (max_results : Z) (st : grep_state) : nat :=
  Z.to_nat max_results - length (results st).

(** The number of decimal digits of an integer, its sign apart. *)
Definition decimal_digits (n : Z) : Z :=
  Z.of_nat (length (PyStr.of_int (Z.abs n))).

(** The digits of a decimal numeral of the standard library. *)
Definition uint_digits (d : Decimal.uint) : str :=
  py (NilEmpty.string_of_uint d).

(** A label in which the digits that the regular expression captures, if
    any, are few enough for [int]. *)
Definition readable_number (label : str) : Prop :=
  match LabelRegex.search label with
  | Some g => (Z.of_nat (length g) ≤ PyStr.int_max_str_digits)%Z
  | None => True
  end.

Global Instance readable_number_dec label : Decision (readable_number label).
Proof.
  unfold readable_number. destruct (LabelRegex.search label); apply _.
Defined.

(** What the comprehension of the numbered policy tests on a label:
    [extract_section_number(label) in nums]. *)
Definition number_selected (nums : gset Z) (label : str) : bool :=
  match extract_section_number label with
  | Some (Some n) => bool_decide (n ∈ nums)
  | _ => false
  end.

(** A name without a comma and without a colon. *)
Definition plain_name (name : str) : Prop :=
  PyStr.contains "," name = false ∧ PyStr.contains ":" name = false.

(** ** The decoders

    Each decoder is given what its library reads from the file: the page
    texts of a PDF, the paragraphs and the tables of a DOCX, the slides
    of a PPTX, the sheets of a workbook, and so on.  What is modelled is
    what the decoder makes of them. *)

Definition tab : ascii := "009"%char.

(** [if s.strip()] *)
Definition has_text (s : str) : bool :=
  match PyStr.strip s with
  | [] => false
  | _ :: _ => true
  end.

(** [f"page {i}"], [f"slide {i}"], [f"chapter {i}"] *)
Definition numbered (word : string) (i : Z) : str :=
  py word ++ py " " ++ PyStr.of_int i.

(** [f"sheet '{sheet_name}'"] *)
Definition sheet_label (name : str) : str := py "sheet '" ++ name ++ py "'".

(** [for para in paragraphs: if para.text.strip(): parts.append(para.text)] *)
Definition text_lines (paragraphs : list str) : list str :=
  filter (λ text, has_text text = true) paragraphs.

(** The loop over the rows of a table: the stripped cell texts joined by
    tabs, a line without text left out. *)
Definition row_line (cells : list str) : str :=
  PyStr.join [tab] (PyStr.strip <$> cells).

Definition table_lines (rows : list (list str)) : list str :=
  filter (λ line, has_text line = true) (row_line <$> rows).

(** [[("document", "\n".join(parts))] if parts else []] *)
Definition whole_document (parts : list str) : list section :=
  match parts with
  | [] => []
  | _ :: _ => [(py "document", PyStr.join [PyStr.nl] parts)]
  end.

(** [extract_pdf], from the texts [page.get_text("text")] of the pages. *)
Fixpoint pdf_pages (i : Z) (pages : list str) : list section :=
  match pages with
  | [] => []
  | page :: pages' =>
      match PyStr.strip page with
      | [] => pdf_pages (i + 1) pages'
      | c :: text => (numbered "page" i, c :: text) :: pdf_pages (i + 1) pages'
      end
  end.

Definition extract_pdf (pages : list str) : list section := pdf_pages 1 pages.

(** [extract_docx], from the paragraph texts and the tables (rows of cell
    texts) of the document. *)
Record docx_document := DocxDocument {
  docx_paragraphs : list str;
  docx_tables : list (list (list str))
}.

Definition extract_docx (doc : docx_document) : list section :=
  whole_document
    (text_lines (docx_paragraphs doc) ++ (docx_tables doc ≫= table_lines)).

(** [extract_pptx], from the shapes of the slides: the paragraphs of the
    text frame when the shape has one, the rows of the table when it has
    one. *)
Record pptx_shape := PptxShape {
  text_frame : option (list str);
  shape_table : option (list (list str))
}.

Definition shape_lines (shape : pptx_shape) : list str :=
  match text_frame shape with
  | Some paragraphs => text_lines paragraphs
  | None => []
  end
  ++ match shape_table shape with
     | Some rows => table_lines rows
     | None => []
     end.

Fixpoint pptx_slides (i : Z) (slides : list (list pptx_shape))
  : list section :=
  match slides with
  | [] => []
  | shapes :: slides' =>
      match shapes ≫= shape_lines with
      | [] => pptx_slides (i + 1) slides'
      | part :: parts =>
          (numbered "slide" i, PyStr.join [PyStr.nl] (part :: parts))
            :: pptx_slides (i + 1) slides'
      end
  end.

Definition extract_pptx (slides : list (list pptx_shape)) : list section :=
  pptx_slides 1 slides.

(** [extract_xlsx], from the sheets in the order of [wb.sheetnames]: the
    name and the rows of cell values, a cell being [None] or a value
    given by its [str(c)]. *)
Definition xlsx_sheet : Type := str * list (list (option str)).

Definition xlsx_row_line (row : list (option str)) : str :=
  PyStr.join [tab] (default [] <$> row).

Definition xlsx_section (sheet : xlsx_sheet) : option section :=
  match filter (λ line, has_text line = true) (xlsx_row_line <$> sheet.2) with
  | [] => None
  | line :: lines =>
      Some (sheet_label sheet.1, PyStr.join [PyStr.nl] (line :: lines))
  end.

Definition extract_xlsx (workbook : list xlsx_sheet) : list section :=
  omap xlsx_section workbook.

(** [extract_odt], from the texts of the paragraph elements. *)
Definition extract_odt (paragraphs : list str) : list section :=
  whole_document (text_lines paragraphs).







(** [extract_odp], from the paragraph texts of the pages. *)
Fixpoint odp_pages (i : Z) (pages : list (list str)) : list section :=
  match pages with
  | [] => []
  | paragraphs :: pages' =>
      match text_lines paragraphs with
      | [] => odp_pages (i + 1) pages'
      | part :: parts =>
          (numbered "slide" i, PyStr.join [PyStr.nl] (part :: parts))
            :: odp_pages (i + 1) pages'
      end
  end.

Definition extract_odp (pages : list (list str)) : list section :=
  odp_pages 1 pages.

(** [extract_rtf], from the text [rtf_to_text(raw)]. *)
Definition extract_rtf (converted : str) : list section :=
  match PyStr.join [PyStr.nl]
          (filter (λ line, has_text line = true) (splitlines converted)) with
  | [] => []
  | c :: text => [(py "document", c :: text)]
  end.

(** [tag_re.sub] with the empty replacement, for the pattern
    [<[^>]+>], read from left to right.  After a
    ['<'] the characters up to the next ['>'] are held back ([pending],
    last one first): they are dropped with the two brackets when there is
    at least one of them, and they stay, with the ['<'], when the ['>']
    follows at once or never comes. *)
Fixpoint strip_tags_from (pending : option str) (s : str) : str :=
  match s with
  | [] =>
      match pending with
      | Some held => "<"%char :: reverse held
      | None => []
      end
  | c :: s' =>
      match pending with
      | None =>
          if Ascii.eqb c "<" then strip_tags_from (Some []) s'
          else c :: strip_tags_from None s'
      | Some held =>
          if Ascii.eqb c ">" then
            match held with
            | [] => "<"%char :: ">"%char :: strip_tags_from None s'
            | _ :: _ => strip_tags_from None s'
            end
          else strip_tags_from (Some (c :: held)) s'
      end
  end.

Definition strip_tags (s : str) : str := strip_tags_from None s.

(** [extract_epub], from what it reads of the archive: the path of the
    OPF file, the items of the manifest (id and href), the idrefs of the
    spine, and the decoded members of the archive ([None]: no member of
    that name, the [KeyError] of [zf.read]). *)
Record epub_package := EpubPackage {
  opf_path : str;
  manifest_items : list (option str * option str);
  spine_ids : list (option str);
  archive : str → option str
}.

(** [opf_path.rsplit("/", 1)[0] + "/"] if ["/" in opf_path], else the
    empty string. *)
Definition opf_dir (opf_path : str) : str :=
  if PyStr.contains "/" opf_path
  then reverse (drop 1 (PyStr.drop_while (λ c, negb (Ascii.eqb c "/"))
                          (reverse opf_path))) ++ py "/"
  else [].

(** [manifest.get(idref)] for the dict built from the items, in which a
    later item replaces an earlier one of the same id. *)
Definition manifest_get (items : list (option str * option str))
    (idref : option str) : option str :=
  foldl (λ href item, if decide (item.1 = idref) then item.2 else href)
    None items.

(** [opf_dir + href if not href.startswith("/") else href.lstrip("/")] *)
Definition member_path (dir href : str) : str :=
  if PyStr.startswith (py "/") href
  then PyStr.lstrip_of (Ascii.eqb "/") href
  else dir ++ href.

(** [[l.strip() for l in text.splitlines() if l.strip()]] for [text] the
    page without its tags. *)
Definition chapter_lines (html : str) : list str :=
  PyStr.strip <$>
    filter (λ line, has_text line = true) (splitlines (strip_tags html)).

Fixpoint epub_chapters (package : epub_package) (i : Z)
    (ids : list (option str)) : list section :=
  match ids with
  | [] => []
  | idref :: ids' =>
      match manifest_get (manifest_items package) idref with
      | Some (c :: href) =>
          match archive package
                  (member_path (opf_dir (opf_path package)) (c :: href)) with
          | Some html =>
              match chapter_lines html with
              | [] => epub_chapters package (i + 1) ids'
              | line :: lines =>
                  (numbered "chapter" i,
                   PyStr.join [PyStr.nl] (line :: lines))
                    :: epub_chapters package (i + 1) ids'
              end
          | None => epub_chapters package (i + 1) ids'
          end
      | _ => epub_chapters package (i + 1) ids'
      end
  end.

Definition extract_epub (package : epub_package) : list section :=
  epub_chapters package 1 (spine_ids package).

(** ** Reference definitions for the decoders *)

(** The items that have a text, each under its word and its 1-based
    position among all items. *)
Definition by_position {A} (word : string) (text : A → option str)
    (items : list A) : list section :=
  omap (λ p : Z * A, (λ t, (numbered word p.1, t)) <$> text p.2)
    (zip (seqZ 1 (Z.of_nat (length items))) items).

(** The section of the item at position [k], if that item is there and
    has a text. *)
Definition at_position {A} (word : string) (text : A → option str)
    (items : list A) (k : Z) : list section :=
  match items !! Z.to_nat (k - 1) with
  | Some item =>
      match text item with
      | Some t => [(numbered word k, t)]
      | None => []
      end
  | None => []
  end.

(** Lines joined by newlines; nothing for no line. *)
Definition lines_text (lines : list str) : option str :=
  match lines with
  | [] => None
  | _ :: _ => Some (PyStr.join [PyStr.nl] lines)
  end.

(** The text of a PDF page, of a PPTX slide, of an ODP page and of the
    chapter that a spine entry names. *)
Definition page_text (page : str) : option str :=
  match PyStr.strip page with
  | [] => None
  | c :: text => Some (c :: text)
  end.

Definition slide_text (shapes : list pptx_shape) : option str :=
  lines_text (shapes ≫= shape_lines).

Definition odp_text (paragraphs : list str) : option str :=
  lines_text (text_lines paragraphs).

Definition chapter_text (package : epub_package) (idref : option str)
  : option str :=
  match manifest_get (manifest_items package) idref with
  | Some (c :: href) =>
      html ← archive package
                (member_path (opf_dir (opf_path package)) (c :: href));
      lines_text (chapter_lines html)
  | _ => None
  end.

(** The lines of a DOCX document: the paragraphs with text, then the
    rows with text of the tables. *)
Definition docx_lines (doc : docx_document) : list str :=
  text_lines (docx_paragraphs doc) ++ (docx_tables doc ≫= table_lines).

(** The lines with text of the rows of a worksheet. *)
Definition xlsx_lines (rows : list (list (option str))) : list str :=
  filter (λ line, has_text line = true) (xlsx_row_line <$> rows).

(** ** Sample worlds *)

(** A document of one section of 40001 characters. *)
Definition long_text : str := repeat "a"%char (Z.to_nat 40001).

Definition long_document_world : world := {|
  resolve := λ s, [s];
  is_file := λ _, true;
  is_dir := λ _, false;
  sorted_rglob := λ _, [];
  decode := λ _ _, inr [(py "document", long_text)];
  re_compile := λ _ _, inl []
|}.

(** A text document of four lines and a workbook of two sheets. *)
Definition office_world : world := {|
  resolve := λ s, [py "home"; s];
  is_file := λ _, true;
  is_dir := λ _, false;
  sorted_rglob := λ _, [];
  decode := λ f _,
    match f with
    | Docx =>
        inr [(py "document",
              PyStr.join [PyStr.nl] [py "one"; py "two"; py "three"; py "four"])]
    | Xlsx =>
        inr [(py "sheet 'Sales'", PyStr.join [PyStr.nl] [py "s1"; py "s2"]);
             (py "sheet 'Costs'", PyStr.join [PyStr.nl] [py "c1"; py "c2"])]
    | _ => inl (py "cannot open")
    end;
  re_compile := λ _ _, inl []
|}.

(** A directory of ten documents, [f3.pdf] of which cannot be decoded,
    next to a hidden directory; every document has one page of three
    lines, two of which contain an "m". *)
Definition ten_files : list path :=
  (λ i : Z, [py "f" ++ PyStr.of_int i ++ py ".pdf"]) <$> seqZ 0 10.

Definition sample_page : list section :=
  [(py "page 1",
    PyStr.join [PyStr.nl] [py "alpha match"; py "beta"; py "gamma match"])].

Definition sample_world : world := {|
  resolve := λ _, [py "srv"];
  is_file := λ _, true;
  is_dir := λ _, true;
  sorted_rglob := λ _, [py ".cache"; py "f0.pdf"] :: ten_files;
  decode := λ _ p,
    if bool_decide (last p = Some (py "f3.pdf")) then inl (py "cannot open")
    else inr sample_page;
  re_compile := λ _ _, inr (PyStr.contains "m")
|}.

(** * Properties *)

(** ** Strings *)

Section StringFacts.
Import PyStr.

Lemma drop_while_head_false p s :
  (∀ c, head s = Some c → p c = false) → drop_while p s = s.
Proof.
  destruct s as [|c s]; [done|]. intros H. simpl.
  by rewrite (H c eq_refl).
Qed.

Lemma strip_of_id p s :
  (∀ c, head s = Some c → p c = false) →
  (∀ c, last s = Some c → p c = false) →
  strip_of p s = s.
Proof.
  intros Hh Hl. unfold strip_of, lstrip_of, rstrip_of.
  rewrite (drop_while_head_false p s Hh).
  rewrite drop_while_head_false; [apply reverse_involutive|].
  intros c. rewrite head_reverse. apply Hl.
Qed.

Lemma split_no_sep sep s :
  contains sep s = false → split sep s = [s].
Proof.
  induction s as [|c s IH]; [done|]. simpl.
  rewrite (Ascii.eqb_sym sep c).
  destruct (Ascii.eqb c sep); [done|]. simpl. intros H.
  by rewrite (IH H).
Qed.

Lemma contains_app c s t :
  contains c (s ++ t) = contains c s || contains c t.
Proof. apply existsb_app. Qed.

Lemma contains_false_Forall c s :
  contains c s = false ↔ Forall (λ a, a ≠ c) s.
Proof.
  induction s as [|a s IH]; simpl.
  - split; [constructor|done].
  - rewrite orb_false_iff, IH, Forall_cons.
    destruct (Ascii.eqb_spec c a); split; intros [??]; split;
      try done; congruence.
Qed.

Lemma split1_app sep s t :
  contains sep s = false → split1 sep (s ++ sep :: t) = (s, t).
Proof.
  intros H. unfold split1.
  induction s as [|c s IH]; simpl in *.
  - by rewrite Ascii.eqb_refl.
  - rewrite (Ascii.eqb_sym sep c) in H.
    destruct (Ascii.eqb c sep); [done|]. simpl in *.
    specialize (IH H). injection IH as E1 E2. by rewrite E1, E2.
Qed.

End StringFacts.

(** ** Decimal numerals: [int(str(n)) = n] *)

Section DecimalFacts.
Import PyStr.

Lemma uint_digits_Forall d : Forall (λ c, is_digit c = true) (uint_digits d).
Proof. induction d; constructor; done. Qed.

Lemma int_digits_uint_acc d acc :
  int_digits IntDigit (Z.pos acc) (uint_digits d)
  = Some (Z.pos (Pos.of_uint_acc d acc)).
Proof.
  revert acc. induction d; intros acc; [done|..];
    cbn -[Z.mul Z.add]; rewrite <- IHd; f_equal; unfold digit_val; simpl; lia.
Qed.

Lemma int_digits_uint st d :
  st = IntDigit ∨ d ≠ Decimal.Nil →
  int_digits st 0 (uint_digits d) = Some (Z.of_N (Pos.of_uint d)).
Proof.
  revert st. induction d; intros st Hst;
    [by destruct Hst as [->|?] | apply (IHd IntDigit); by left | ..];
    apply (int_digits_uint_acc d).
Qed.

Lemma numeral_digits d :
  let s := py (NilZero.string_of_uint d) in
  s ≠ [] ∧ Forall (λ c, is_digit c = true) s
  ∧ int_digits IntStart 0 s = Some (Z.of_uint d).
Proof.
  destruct d as [|d'|d'|d'|d'|d'|d'|d'|d'|d'|d'].
  1: by repeat split; repeat constructor.
  all: split; [done|]; split;
    [apply (uint_digits_Forall (_ d'))
    |apply (int_digits_uint IntStart (_ d')); by right].
Qed.

Lemma is_digit_cases c :
  is_digit c = true →
  is_space c = false ∧ is_int_space c = false ∧ c ≠ "-"%char
  ∧ c ≠ "+"%char ∧ c ≠ ","%char ∧ c ≠ nl ∧ c ≠ "_"%char.
Proof. by destruct c as [[] [] [] [] [] [] [] []]. Qed.

Lemma of_int_shape z :
  ∃ ds, of_int z = (if bool_decide (z < 0)%Z then py "-" else []) ++ ds
        ∧ ds ≠ [] ∧ Forall (λ c, is_digit c = true) ds
        ∧ int_digits IntStart 0 ds = Some (Z.abs z).
Proof.
  unfold of_int. destruct z as [|p|p]; simpl.
  - exists (py "0"). by repeat split; repeat constructor.
  - destruct (numeral_digits (Pos.to_uint p)) as (Hne & Hd & Hv).
    eexists; repeat split; eauto.
    rewrite Hv. f_equal. apply (DecimalZ.of_to (Z.pos p)).
  - destruct (numeral_digits (Pos.to_uint p)) as (Hne & Hd & Hv).
    eexists; repeat split; eauto.
    rewrite Hv. f_equal.
    pose proof (DecimalZ.of_to (Z.neg p)) as E. simpl in E. lia.
Qed.

(** The digits of [str(z)] are those of [str(abs(z))]. *)
Lemma of_int_abs z :
  of_int z = (if bool_decide (z < 0)%Z then py "-" else []) ++ of_int (Z.abs z).
Proof. by destruct z. Qed.

Lemma digit_count_digits ds :
  Forall (λ c, is_digit c = true) ds → digit_count ds = Z.of_nat (length ds).
Proof.
  intros Hd. unfold digit_count. f_equal. f_equal.
  induction Hd as [|c ds Hc _ IH]; [done|].
  rewrite filter_cons, decide_True by done. by rewrite IH.
Qed.

Lemma int_literal_digits ds :
  Forall (λ c, is_digit c = true) ds →
  (Z.of_nat (length ds) ≤ int_max_str_digits)%Z →
  int_literal ds = int_digits IntStart 0 ds.
Proof.
  intros Hd Hlen. unfold int_literal.
  by rewrite (digit_count_digits _ Hd), bool_decide_eq_true_2.
Qed.

Lemma int_literal_long ds :
  Forall (λ c, is_digit c = true) ds →
  (int_max_str_digits < Z.of_nat (length ds))%Z →
  int_literal ds = None.
Proof.
  intros Hd Hlen. unfold int_literal.
  rewrite (digit_count_digits _ Hd), bool_decide_eq_false_2; [done|lia].
Qed.

(** The digits of [str(z)], counted by [decimal_digits]. *)
Lemma of_int_shape_digits z :
  ∃ ds, of_int z = (if bool_decide (z < 0)%Z then py "-" else []) ++ ds
        ∧ ds ≠ [] ∧ Forall (λ c, is_digit c = true) ds
        ∧ int_digits IntStart 0 ds = Some (Z.abs z)
        ∧ decimal_digits z = Z.of_nat (length ds).
Proof.
  destruct (of_int_shape z) as (ds & E & Hne & Hd & Hv).
  exists ds. split; [done|]. split; [done|]. split; [done|]. split; [done|].
  unfold decimal_digits. rewrite (of_int_abs z) in E.
  apply app_inv_head in E. by rewrite E.
Qed.

Lemma digits_head_last ds c :
  Forall (λ c, is_digit c = true) ds →
  head ds = Some c ∨ last ds = Some c → is_digit c = true.
Proof.
  intros Hd Hc. rewrite Forall_forall in Hd. apply Hd.
  destruct Hc as [H|H].
  - destruct ds; simplify_eq/=. left.
  - by apply last_Some_elem_of.
Qed.

Lemma int_digit_string ds :
  ds ≠ [] → Forall (λ c, is_digit c = true) ds →
  int ds = int_literal ds.
Proof.
  intros Hne Hd. unfold int.
  rewrite strip_of_id.
  - destruct ds as [|c ds]; [done|].
    apply Forall_cons in Hd as [Hc _].
    by destruct c as [[] [] [] [] [] [] [] []].
  - intros c Hc. apply is_digit_cases. eapply digits_head_last; eauto.
  - intros c Hc. apply is_digit_cases. eapply digits_head_last; eauto.
Qed.

(** [int(str(n)) = n] *)
Lemma int_of_int z :
  (decimal_digits z ≤ int_max_str_digits)%Z → int (of_int z) = Some z.
Proof.
  destruct (of_int_shape_digits z) as (ds & -> & Hne & Hd & Hv & ->).
  intros Hlen. pose proof (int_literal_digits ds Hd Hlen) as Hlit.
  case_bool_decide as Hz; simpl.
  - unfold int. rewrite strip_of_id.
    + rewrite Hlit, Hv. simpl. f_equal. lia.
    + by intros c [= <-].
    + intros c Hc. apply is_digit_cases. eapply digits_head_last; [done|].
      right. destruct ds; [done|]. by rewrite last_cons_cons in Hc.
  - rewrite int_digit_string, Hlit, Hv by done. f_equal. lia.
Qed.

(** [int(str(n))] raises for a number of more than 4300 digits. *)
Lemma int_of_int_long z :
  (int_max_str_digits < decimal_digits z)%Z → int (of_int z) = None.
Proof.
  destruct (of_int_shape_digits z) as (ds & -> & Hne & Hd & Hv & ->).
  intros Hlen. pose proof (int_literal_long ds Hd Hlen) as Hlit.
  case_bool_decide as Hz; simpl.
  - unfold int. rewrite strip_of_id.
    + by rewrite Hlit.
    + by intros c [= <-].
    + intros c Hc. apply is_digit_cases. eapply digits_head_last; [done|].
      right. destruct ds; [done|]. by rewrite last_cons_cons in Hc.
  - by rewrite int_digit_string, Hlit.
Qed.

Lemma uint_digits_length d : length (uint_digits d) = Decimal.nb_digits d.
Proof. induction d; simpl; [done|..]; by rewrite <- IHd. Qed.

Lemma of_uint_acc_lower d acc :
  (Z.pos acc * 10 ^ Z.of_nat (Decimal.nb_digits d)
   ≤ Z.pos (Pos.of_uint_acc d acc))%Z.
Proof.
  revert acc. induction d; intros acc; cbn [Pos.of_uint_acc Decimal.nb_digits];
    [rewrite Z.pow_0_r; lia|..];
    (etrans; [|apply IHd]);
    rewrite Nat2Z.inj_succ, Z.pow_succ_r by lia;
    assert (0 < 10 ^ Z.of_nat (Decimal.nb_digits d))%Z
      by (apply Z.pow_pos_nonneg; lia);
    nia.
Qed.

(** The numeral of a positive number has no leading zero, so a numeral of
    [n] digits stands for at least [10^(n-1)]. *)
Lemma to_uint_lower p :
  (10 ^ (Z.of_nat (Decimal.nb_digits (Pos.to_uint p)) - 1) ≤ Z.pos p)%Z.
Proof.
  pose proof (DecimalPos.Unsigned.to_of (Pos.to_uint p)) as H.
  pose proof (DecimalPos.Unsigned.of_to p) as Hp.
  rewrite Hp in H. cbn [N.to_uint] in H.
  set (d := Pos.to_uint p) in *.
  assert (Decimal.nzhead d = d) as Hd.
  { destruct (Decimal.nzhead d) eqn:E;
      [apply DecimalFacts.unorm_0 in E; rewrite E in H; by rewrite H in Hp|..];
      rewrite <- E, <- DecimalFacts.unorm_nzhead; (done || by rewrite E). }
  pose proof (DecimalFacts.nb_digits_nzhead d) as Hn.
  clearbody d. clear H.
  destruct d as [|d|d|d|d|d|d|d|d|d|d]; cbn [Pos.of_uint] in Hp;
    [done| |injection Hp as <-; cbn [Decimal.nb_digits]..].
  { exfalso. cbn [Decimal.nzhead] in Hd.
    pose proof (DecimalFacts.nb_digits_nzhead d) as Hn'. rewrite Hd in Hn'.
    simpl in Hn'. lia. }
  all: replace (Z.of_nat (S (Decimal.nb_digits d)) - 1)%Z
         with (Z.of_nat (Decimal.nb_digits d)) by lia;
       (etrans; [|apply of_uint_acc_lower]);
       assert (0 < 10 ^ Z.of_nat (Decimal.nb_digits d))%Z
         by (apply Z.pow_pos_nonneg; lia); nia.
Qed.

(** A number below [10^k] is written with at most [k] digits. *)
Lemma decimal_digits_bound n k :
  (0 < k)%Z → (Z.abs n < 10 ^ k)%Z → (decimal_digits n ≤ k)%Z.
Proof.
  intros Hk Hn. unfold decimal_digits, of_int.
  destruct (Z.abs n) as [|p|p] eqn:E; [| |lia].
  - cbn. lia.
  - pose proof (to_uint_lower p) as Hl.
    assert (Z.of_nat (length (py (NilZero.string_of_uint (Pos.to_uint p))))
            ≤ Z.max 1 (Z.of_nat (Decimal.nb_digits (Pos.to_uint p))))%Z as Hlen.
    { destruct (Pos.to_uint p) as [|d|d|d|d|d|d|d|d|d|d]; [simpl; lia|..];
        change (py (NilZero.string_of_uint ?u)) with (uint_digits u);
        rewrite uint_digits_length; lia. }
    change (Z.of_nat (length (py (NilZero.string_of_uint (Pos.to_uint p))))
            ≤ k)%Z.
    destruct (decide (Z.of_nat (Decimal.nb_digits (Pos.to_uint p)) ≤ k)%Z)
      as [?|Hgt]; [lia|].
    exfalso.
    assert (10 ^ k ≤ 10 ^ (Z.of_nat (Decimal.nb_digits (Pos.to_uint p)) - 1))%Z
      by (apply Z.pow_le_mono_r; lia).
    lia.
Qed.

(** The numbers that [int] reads back from their numeral. *)
Lemma decimal_digits_limit n :
  (Z.abs n < 10 ^ int_max_str_digits)%Z →
  (decimal_digits n ≤ int_max_str_digits)%Z.
Proof. by apply decimal_digits_bound. Qed.

End DecimalFacts.

Lemma of_int_digits n :
  (0 ≤ n)%Z →
  PyStr.of_int n ≠ [] ∧ Forall (λ c, PyStr.is_digit c = true) (PyStr.of_int n).
Proof.
  intros Hn. destruct (of_int_shape n) as (ds & -> & Hne & Hd & _).
  by rewrite bool_decide_eq_false_2 by lia.
Qed.

Lemma digits_contains ds c :
  Forall (λ c, PyStr.is_digit c = true) ds → PyStr.is_digit c = false →
  PyStr.contains c ds = false.
Proof.
  intros Hd Hc. apply contains_false_Forall.
  eapply Forall_impl; [exact Hd|]. intros a Ha ->. congruence.
Qed.

(** ** Range parsing *)

Lemma parse_numeric_parts_union nums parts :
  parse_numeric_parts nums parts
  = (λ added, nums ∪ ⋃ added) <$> mapM numeric_part parts.
Proof.
  revert nums. induction parts as [|part parts IH]; intros nums; simpl.
  - by rewrite (right_id_L ∅ (∪)).
  - destruct (numeric_part part) as [added|]; simpl; [|done].
    rewrite IH. destruct (mapM numeric_part parts); simpl; [|done].
    by rewrite (assoc_L (∪)).
Qed.

Lemma mapM_union_Permutation (parts parts' : list str) :
  parts ≡ₚ parts' →
  (union_list <$> mapM numeric_part parts : option (gset Z))
  = union_list <$> mapM numeric_part parts'.
Proof.
  induction 1 as [|x l l' _ IH|x y l|l l' l'' _ IH1 _ IH2]; simpl.
  - done.
  - destruct (numeric_part x); simpl; [|done].
    destruct (mapM numeric_part l), (mapM numeric_part l');
      simpl in *; try done.
    injection IH as IH. by rewrite IH.
  - destruct (numeric_part x) as [gx|], (numeric_part y) as [gy|];
      simpl; try done.
    destruct (mapM numeric_part l); simpl; [|done].
    by rewrite !(assoc_L (∪)), (comm_L (∪) gy).
  - congruence.
Qed.

Lemma parse_numeric_range_union s :
  parse_numeric_range s = union_list <$> mapM numeric_part (PyStr.split "," s).
Proof.
  unfold parse_numeric_range. rewrite parse_numeric_parts_union.
  destruct (mapM _ _); simpl; [|done]. by rewrite (left_id_L ∅ (∪)).
Qed.

(** C9.  The set parsed from a numeric range is the union of what its
    comma-separated tokens contribute, so it does not depend on the order
    of the tokens: two range strings whose token lists are permutations of
    each other parse alike, and both ["3-5,8"] and ["8,3-5"] parse to
    {3, 4, 5, 8}. *)
Theorem parse_numeric_range_order_independent :
  (∀ s, parse_numeric_range s
        = union_list <$> mapM numeric_part (PyStr.split "," s))
  ∧ (∀ s s', PyStr.split "," s ≡ₚ PyStr.split "," s' →
             parse_numeric_range s = parse_numeric_range s')
  ∧ parse_numeric_range (py "3-5,8") = Some ({[ 3; 4; 5; 8 ]} : gset Z)%Z
  ∧ parse_numeric_range (py "8,3-5") = Some ({[ 3; 4; 5; 8 ]} : gset Z)%Z.
Proof.
  split; [exact parse_numeric_range_union|].
  split; [|split; by vm_compute].
  intros s s' Hperm. rewrite !parse_numeric_range_union.
  by apply mapM_union_Permutation.
Qed.

Lemma parse_numeric_range_order_independent_witness :
  PyStr.split "," (py "3-5,8") ≡ₚ PyStr.split "," (py "8,3-5")
  ∧ parse_numeric_range (py "3-5,8") = parse_numeric_range (py "8,3-5").
Proof.
  assert (PyStr.split "," (py "3-5,8") ≡ₚ PyStr.split "," (py "8,3-5")) as H.
  { simpl. apply perm_swap. }
  split; [exact H|].
  exact (proj1 (proj2 parse_numeric_range_order_independent) _ _ H).
Defined.

(** A token [a-b] written with decimal numerals, [a] not negative. *)
Lemma parse_numeric_range_token a b :
  (0 ≤ a)%Z →
  (decimal_digits a ≤ PyStr.int_max_str_digits)%Z →
  (decimal_digits b ≤ PyStr.int_max_str_digits)%Z →
  parse_numeric_range (PyStr.of_int a ++ py "-" ++ PyStr.of_int b)
  = Some (list_to_set (PyStr.range a (b + 1))).
Proof.
  intros Ha Hda' Hdb'.
  pose proof (int_of_int a Hda') as Ia. pose proof (int_of_int b Hdb') as Ib.
  destruct (of_int_shape a) as (da & Ea & Hna & Hda & _).
  rewrite bool_decide_eq_false_2 in Ea by lia. simpl in Ea.
  destruct (of_int_shape b) as (db & Eb & Hnb & Hdb & _).
  set (sb := PyStr.of_int b) in *. set (sa := PyStr.of_int a) in *.
  assert (Forall (λ c, PyStr.is_digit c = true ∨ c = "-"%char) sb) as Hsb.
  { rewrite Eb. apply Forall_app. split.
    - case_bool_decide; [apply Forall_singleton; by right|constructor].
    - eapply Forall_impl; [exact Hdb|]. by left. }
  assert (∀ c, last sb = Some c → PyStr.is_digit c = true) as Hlast.
  { intros c. rewrite Eb, last_app.
    destruct (last db) eqn:El; [|by apply last_None in El].
    intros [= <-]. eapply digits_head_last; eauto. }
  assert (PyStr.contains "-" sa = false) as Hdash.
  { apply contains_false_Forall. rewrite Ea.
    eapply Forall_impl; [exact Hda|]. intros c Hc. by apply is_digit_cases. }
  unfold parse_numeric_range. rewrite split_no_sep.
  2:{ apply contains_false_Forall, Forall_app. split.
      - rewrite Ea. eapply Forall_impl; [exact Hda|].
        intros c Hc. by apply is_digit_cases.
      - constructor; [done|]. eapply Forall_impl; [exact Hsb|].
        intros c [Hc| ->]; [by apply is_digit_cases|done]. }
  simpl. unfold numeric_part, PyStr.strip.
  rewrite strip_of_id.
  - rewrite contains_app. simpl. rewrite orb_true_r.
    pose proof (split1_app "-" sa sb Hdash) as E. unfold PyStr.split1 in E.
    injection E as E1 E2. rewrite E1, E2, Ia. simpl. rewrite Ib. simpl.
    by rewrite (left_id_L ∅ (∪)).
  - intros c Hc. apply is_digit_cases. eapply digits_head_last; [exact Hda|].
    left. rewrite Ea in Hc. destruct da; [done|]. exact Hc.
  - intros c. rewrite last_app. simpl. clearbody sb.
    destruct sb as [|c0 sb'].
    { exfalso. destruct (bool_decide (b < 0)%Z), db; simplify_eq/=. }
    rewrite last_cons_cons. specialize (Hlast c).
    destruct (last (c0 :: sb')) eqn:El; [|by apply last_None in El].
    intros [= ->]. by apply is_digit_cases, Hlast.
Qed.

(** A window [a-b] of positions below [10^4300]. *)
Lemma parse_window a b :
  (1 ≤ a ≤ b)%Z → (b < 10 ^ PyStr.int_max_str_digits)%Z →
  parse_numeric_range (PyStr.of_int a ++ py "-" ++ PyStr.of_int b)
  = Some (list_to_set (PyStr.range a (b + 1))).
Proof.
  intros Hab Hb.
  apply parse_numeric_range_token;
    [lia|apply decimal_digits_limit; lia|apply decimal_digits_limit; lia].
Qed.

(** C6, as stated, does not hold: the token ["5-3"] is accepted but selects
    nothing, while ["3-5"] selects {3, 4, 5}; the bounds are not put in
    order. *)
Lemma reversed_range_not_normalized :
  parse_numeric_range (py "5-3") = Some ∅
  ∧ parse_numeric_range (py "3-5") = Some ({[ 3; 4; 5 ]} : gset Z)%Z
  ∧ parse_numeric_range (py "5-3") ≠ parse_numeric_range (py "3-5").
Proof.
  assert (parse_numeric_range (py "5-3") = Some ∅) as H1 by by vm_compute.
  assert (parse_numeric_range (py "3-5") = Some ({[ 3; 4; 5 ]} : gset Z)%Z)
    as H2 by by vm_compute.
  split; [exact H1|]. split; [exact H2|]. rewrite H1, H2. intros E.
  apply (inj Some) in E.
  apply (not_elem_of_empty (C:=gset Z) 3%Z). rewrite E. set_solver.
Qed.

(** C6, amended.  A range token [a-b] written in decimal, [a] not
    negative and neither number of more than 4300 digits (the most that
    [int] reads), is never an error: it selects the integers [j] with
    [a <= j <= b].  With reversed bounds, [b < a], that is the empty set:
    the token selects nothing, and the bounds are not exchanged. *)
Theorem reversed_range_selects_nothing a b :
  (0 ≤ a < 10 ^ PyStr.int_max_str_digits)%Z →
  (Z.abs b < 10 ^ PyStr.int_max_str_digits)%Z →
  ∃ nums,
    parse_numeric_range (PyStr.of_int a ++ py "-" ++ PyStr.of_int b) = Some nums
    ∧ (∀ j, j ∈ nums ↔ (a ≤ j ≤ b)%Z)
    ∧ ((b < a)%Z → nums = ∅).
Proof.
  intros Ha Hb. eexists. split.
  { apply parse_numeric_range_token; [lia|apply decimal_digits_limit; lia|].
    by apply decimal_digits_limit. }
  assert (∀ j : Z, j ∈ (list_to_set (PyStr.range a (b + 1)) : gset Z)
                   ↔ (a ≤ j ≤ b)%Z) as Hin.
  { intros j. rewrite elem_of_list_to_set. unfold PyStr.range.
    rewrite elem_of_seqZ. lia. }
  split; [exact Hin|].
  intros Hlt. apply set_eq. intros j. rewrite Hin.
  split; [lia|]. intros H. by apply not_elem_of_empty in H.
Qed.

Lemma reversed_range_selects_nothing_witness :
  (0 ≤ 5 < 10 ^ PyStr.int_max_str_digits)%Z
  ∧ (Z.abs 3 < 10 ^ PyStr.int_max_str_digits)%Z
  ∧ ∃ nums, parse_numeric_range (py "5-3") = Some nums
            ∧ (∀ j, j ∈ nums ↔ (5 ≤ j ≤ 3)%Z)
            ∧ ((3 < 5)%Z → nums = ∅).
Proof.
  assert (0 ≤ 5 < 10 ^ PyStr.int_max_str_digits)%Z as H5
    by (split; [lia|by vm_compute]).
  assert (Z.abs 3 < 10 ^ PyStr.int_max_str_digits)%Z as H3 by by vm_compute.
  split; [exact H5|]. split; [exact H3|].
  exact (reversed_range_selects_nothing 5 3 H5 H3).
Defined.

(** ** Integer sets *)

Lemma py_sorted_Permutation nums : py_sorted nums ≡ₚ elements nums.
Proof. apply merge_sort_Permutation. Qed.

Lemma elem_of_py_sorted nums j : j ∈ py_sorted nums ↔ j ∈ nums.
Proof. by rewrite py_sorted_Permutation, elem_of_elements. Qed.

Lemma py_sorted_NoDup nums : NoDup (py_sorted nums).
Proof. rewrite py_sorted_Permutation. apply NoDup_elements. Qed.

Lemma py_sorted_Sorted nums : Sorted Z.le (py_sorted nums).
Proof. apply (Sorted_merge_sort Z.le). Qed.

Lemma foldl_min_spec x l :
  foldl Z.min x l ∈ x :: l ∧ ∀ y, y ∈ x :: l → (foldl Z.min x l ≤ y)%Z.
Proof.
  revert x. induction l as [|z l IH]; intros x; simpl.
  - split; [left|]. intros y ->%list_elem_of_singleton. lia.
  - destruct (IH (Z.min x z)) as [Hin Hle]. split.
    + apply elem_of_cons in Hin as [->|Hin]; [|by do 2 right].
      destruct (Z.min_spec x z) as [[_ ->]|[_ ->]]; [left|right; left].
    + intros y Hy. rewrite !elem_of_cons in Hy.
      assert (foldl Z.min (Z.min x z) l ≤ Z.min x z)%Z by (apply Hle; left).
      destruct Hy as [E|[E|Hy]]; [lia..|]. apply Hle. by right.
Qed.

Lemma foldl_max_spec x l :
  foldl Z.max x l ∈ x :: l ∧ ∀ y, y ∈ x :: l → (y ≤ foldl Z.max x l)%Z.
Proof.
  revert x. induction l as [|z l IH]; intros x; simpl.
  - split; [left|]. intros y ->%list_elem_of_singleton. lia.
  - destruct (IH (Z.max x z)) as [Hin Hle]. split.
    + apply elem_of_cons in Hin as [->|Hin]; [|by do 2 right].
      destruct (Z.max_spec x z) as [[_ ->]|[_ ->]]; [right; left|left].
    + intros y Hy. rewrite !elem_of_cons in Hy.
      assert (Z.max x z ≤ foldl Z.max (Z.max x z) l)%Z by (apply Hle; left).
      destruct Hy as [E|[E|Hy]]; [lia..|]. apply Hle. by right.
Qed.

(** [min] and [max] of a set that is not empty are its least and its
    greatest element. *)
Lemma py_min_max_spec (nums : gset Z) :
  nums ≠ ∅ →
  ∃ lo hi, py_min nums = Some lo ∧ py_max nums = Some hi
           ∧ lo ∈ nums ∧ hi ∈ nums ∧ ∀ j, j ∈ nums → (lo ≤ j ≤ hi)%Z.
Proof.
  intros Hne. unfold py_min, py_max.
  destruct (elements nums) as [|x l] eqn:E.
  { by apply elements_empty_inv, leibniz_equiv in E. }
  destruct (foldl_min_spec x l) as [Hmin Hle].
  destruct (foldl_max_spec x l) as [Hmax Hge].
  rewrite <- E in Hmin, Hmax, Hle, Hge.
  setoid_rewrite elem_of_elements in Hle.
  setoid_rewrite elem_of_elements in Hge.
  rewrite elem_of_elements in Hmin, Hmax.
  eexists _, _. repeat split; eauto.
Qed.

(** ** Line selection *)

Lemma StronglySorted_seqZ m n : StronglySorted Z.le (seqZ m n).
Proof.
  remember (Z.to_nat n) as k eqn:Hk. revert m n Hk.
  induction k as [|k IH]; intros m n Hk.
  - rewrite seqZ_nil by lia. constructor.
  - rewrite seqZ_cons by lia. constructor; [apply IH; lia|].
    apply Forall_seqZ. intros j Hj. lia.
Qed.

Lemma StronglySorted_filter {A} (R : relation A) (P : A → Prop)
    `{∀ x, Decision (P x)} (l : list A) :
  StronglySorted R l → StronglySorted R (filter P l).
Proof.
  induction 1 as [|x l Hl IH Hx]; [constructor|].
  rewrite filter_cons. case_decide; [|done].
  constructor; [done|]. rewrite Forall_forall in Hx |- *.
  intros y [_ Hy]%list_elem_of_filter. by apply Hx.
Qed.

Lemma sorted_window_eq (nums : gset Z) (n : Z) :
  filter (λ j, 1 ≤ j ≤ n)%Z (py_sorted nums)
  = filter (λ j, j ∈ nums) (seqZ 1 n).
Proof.
  apply (StronglySorted_unique Z.le).
  - apply StronglySorted_filter, Sorted_StronglySorted;
      [apply _|apply py_sorted_Sorted].
  - apply StronglySorted_filter, StronglySorted_seqZ.
  - apply NoDup_Permutation.
    + apply NoDup_filter, py_sorted_NoDup.
    + apply NoDup_filter, NoDup_seqZ.
    + intros j. rewrite !list_elem_of_filter, elem_of_py_sorted, elem_of_seqZ.
      intuition lia.
Qed.

Lemma omap_filter_None {A B} (f : A → option B) (P : A → Prop)
    `{∀ x, Decision (P x)} (l : list A) :
  (∀ x, ¬ P x → f x = None) → omap f l = omap f (filter P l).
Proof.
  intros Hf. induction l as [|x l IH]; [done|].
  rewrite filter_cons. case_decide as Hx; simpl.
  - destruct (f x); [f_equal|]; apply IH.
  - rewrite (Hf x Hx). apply IH.
Qed.

Lemma omap_ext_in {A B} (f g : A → option B) (l : list A) :
  (∀ x, x ∈ l → f x = g x) → omap f l = omap g l.
Proof.
  induction l as [|x l IH]; intros Hfg; [done|]. simpl.
  rewrite (Hfg x) by left.
  assert (omap f l = omap g l) as E.
  { apply IH. intros y Hy. apply Hfg. by right. }
  destruct (g x); [f_equal|]; exact E.
Qed.

Lemma omap_window_zip (nums : gset Z) (lines : list str) (k : Z) :
  omap (λ j : Z, lines !! Z.to_nat (j - k))
       (filter (λ j, j ∈ nums) (seqZ k (Z.of_nat (length lines))))
  = (filter (λ p : Z * str, p.1 ∈ nums)
       (zip (seqZ k (Z.of_nat (length lines))) lines)).*2.
Proof.
  revert k. induction lines as [|line lines IH]; intros k; [done|].
  rewrite seqZ_cons by (simpl; lia).
  replace (Z.pred (Z.of_nat (length (line :: lines))))
    with (Z.of_nat (length lines)) by (simpl; lia).
  assert (omap (λ j : Z, (line :: lines) !! Z.to_nat (j - k))
            (filter (λ j, j ∈ nums) (seqZ (Z.succ k) (Z.of_nat (length lines))))
          = (filter (λ p : Z * str, p.1 ∈ nums)
               (zip (seqZ (Z.succ k) (Z.of_nat (length lines))) lines)).*2)
    as E.
  { rewrite <- IH. apply omap_ext_in.
    intros j [_ Hj%elem_of_seqZ]%list_elem_of_filter.
    replace (Z.to_nat (j - k)) with (S (Z.to_nat (j - Z.succ k))) by lia.
    done. }
  simpl zip. rewrite !filter_cons. simpl fst.
  case_decide; [|exact E].
  simpl. rewrite Z.sub_diag. simpl. f_equal. exact E.
Qed.

(** The comprehension over [sorted(nums)] picks the lines whose 1-based
    index is in [nums], in line order. *)
Lemma select_lines_spec nums lines :
  select_lines nums lines = lines_in_range nums lines.
Proof.
  unfold select_lines, lines_in_range.
  rewrite (omap_filter_None _ (λ j, 1 ≤ j ≤ Z.of_nat (length lines))%Z).
  2:{ intros j Hj. by rewrite bool_decide_eq_false_2. }
  rewrite sorted_window_eq, <- omap_window_zip.
  apply omap_ext_in. intros j [_ Hj%elem_of_seqZ]%list_elem_of_filter.
  rewrite bool_decide_eq_true_2 by lia. done.
Qed.

Lemma split_app_sep sep s rest :
  PyStr.contains sep s = false →
  PyStr.split sep (s ++ sep :: rest) = s :: PyStr.split sep rest.
Proof.
  induction s as [|c s IH]; simpl.
  - by rewrite Ascii.eqb_refl.
  - rewrite (Ascii.eqb_sym sep c). destruct (Ascii.eqb c sep); [done|].
    simpl. intros H. by rewrite (IH H).
Qed.

(** Splitting what was joined gives the parts back. *)
Lemma split_join sep (parts : list str) :
  parts ≠ [] → Forall (λ s, PyStr.contains sep s = false) parts →
  PyStr.split sep (PyStr.join [sep] parts) = parts.
Proof.
  induction parts as [|s parts IH]; [done|]. intros _ Hall.
  apply Forall_cons in Hall as [Hs Hall].
  destruct parts as [|s' parts]; [by apply split_no_sep|].
  change (PyStr.join [sep] (s :: s' :: parts))
    with (s ++ sep :: PyStr.join [sep] (s' :: parts)).
  rewrite split_app_sep by done. f_equal. by apply IH.
Qed.

Lemma lines_in_range_nonempty nums lines :
  lines_in_range nums lines ≠ [] → nums ≠ ∅.
Proof.
  unfold lines_in_range. intros Hne ->. apply Hne. clear Hne.
  induction (zip _ _) as [|p l IH]; [done|].
  rewrite filter_cons. case_decide as Hp; [|exact IH].
  by apply not_elem_of_empty in Hp.
Qed.

(** ** The line-addressed policy *)

Lemma filter_lines_spec nums sections :
  filter_lines nums sections = Some (omap (line_section nums) sections).
Proof.
  induction sections as [|[label text] sections IH]; [done|].
  simpl. unfold line_section at 1. simpl. rewrite select_lines_spec.
  destruct (lines_in_range nums (PyStr.split PyStr.nl text)) as [|l kept] eqn:E;
    [exact IH|].
  destruct (py_min_max_spec nums) as (lo & hi & Hlo & Hhi & _).
  { apply (lines_in_range_nonempty nums (PyStr.split PyStr.nl text)).
    by rewrite E. }
  unfold requested_min, requested_max. rewrite Hlo, Hhi, IH. done.
Qed.

Lemma filter_sections_line_addressed sections range_str ext nums :
  line_addressed ext = true →
  parse_numeric_range range_str = Some nums →
  filter_sections sections range_str ext
  = Some (None, omap (line_section nums) sections).
Proof.
  intros Hext Hparse. unfold filter_sections.
  by rewrite Hext, Hparse; simpl; rewrite filter_lines_spec.
Qed.

(** C4.  For a line-addressed extension and a range that parses to [nums],
    [filter_sections] keeps of every section exactly the lines whose
    1-based index is in [nums], in line order, drops the sections in which
    no requested line exists, and labels the others
    "{label} lines {min}-{max}" with the least and the greatest requested
    number.  On a document of five lines the range ["2-4"] gives lines 2
    to 4 in order under the label ["document lines 2-4"]. *)
Theorem filter_sections_lines :
  (∀ sections range_str ext nums,
     line_addressed ext = true →
     parse_numeric_range range_str = Some nums →
     filter_sections sections range_str ext
     = Some (None, omap (line_section nums) sections))
  ∧ (∀ nums : gset Z,
       nums ≠ ∅ →
       requested_min nums ∈ nums ∧ requested_max nums ∈ nums
       ∧ ∀ j, j ∈ nums → (requested_min nums ≤ j ≤ requested_max nums)%Z)
  ∧ (∀ l1 l2 l3 l4 l5 : str,
       Forall (λ l, PyStr.contains PyStr.nl l = false) [l1; l2; l3; l4; l5] →
       filter_sections
         [(py "document", PyStr.join [PyStr.nl] [l1; l2; l3; l4; l5])]
         (py "2-4") (py ".docx")
       = Some (None, [(py "document lines 2-4",
                       PyStr.join [PyStr.nl] [l2; l3; l4])])).
Proof.
  split; [exact filter_sections_line_addressed|]. split.
  - intros nums Hne.
    destruct (py_min_max_spec nums Hne) as (lo & hi & Hlo & Hhi & H).
    unfold requested_min, requested_max. by rewrite Hlo, Hhi.
  - intros l1 l2 l3 l4 l5 Hnl.
    pose proof (split_join PyStr.nl [l1; l2; l3; l4; l5] ltac:(done) Hnl)
      as Hsplit.
    set (text := PyStr.join [PyStr.nl] [l1; l2; l3; l4; l5]) in *.
    rewrite (filter_sections_line_addressed _ _ _ ({[ 2; 3; 4 ]})%Z);
      [|by vm_compute..].
    simpl. unfold line_section. simpl. rewrite Hsplit.
    by vm_compute.
Qed.

Lemma filter_sections_lines_witness :
  line_addressed (py ".odt") = true
  ∧ parse_numeric_range (py "3,1") = Some ({[ 1; 3 ]} : gset Z)%Z
  ∧ filter_sections [(py "document", py "a")] (py "3,1") (py ".odt")
    = Some (None, omap (line_section {[ 1; 3 ]}%Z) [(py "document", py "a")])
  ∧ Forall (λ l, PyStr.contains PyStr.nl l = false)
      [py "a"; py "b"; py "c"; py "d"; py "e"]
  ∧ filter_sections
      [(py "document",
        PyStr.join [PyStr.nl] [py "a"; py "b"; py "c"; py "d"; py "e"])]
      (py "2-4") (py ".docx")
    = Some (None, [(py "document lines 2-4",
                    PyStr.join [PyStr.nl] [py "b"; py "c"; py "d"])]).
Proof.
  assert (line_addressed (py ".odt") = true) as H1 by by vm_compute.
  assert (parse_numeric_range (py "3,1") = Some ({[ 1; 3 ]} : gset Z)%Z)
    as H2 by by vm_compute.
  assert (Forall (λ l, PyStr.contains PyStr.nl l = false)
            [py "a"; py "b"; py "c"; py "d"; py "e"]) as H3
    by by repeat constructor.
  split; [exact H1|]. split; [exact H2|].
  split; [exact (proj1 filter_sections_lines _ _ _ _ H1 H2)|].
  split; [exact H3|].
  exact (proj2 (proj2 filter_sections_lines) _ _ _ _ _ H3).
Defined.

(** ** The sheet-addressed policy *)

Lemma sheet_selected_iff sel i label :
  sheet_selected sel i label = true
  ↔ i ∈ indices sel ∨ sheet_name label ∈ names sel.
Proof.
  unfold sheet_selected.
  by rewrite orb_true_iff, !bool_decide_eq_true.
Qed.

Lemma sheet_name_decorated name :
  sheet_name (py "sheet '" ++ name ++ py "'") = name.
Proof.
  unfold sheet_name. change (PyStr.removeprefix _ _) with (name ++ py "'").
  unfold PyStr.removesuffix. rewrite reverse_app. simpl.
  rewrite length_app. simpl.
  replace (length name + 1 - 1) with (length name) by lia.
  by rewrite take_app_length.
Qed.

Lemma filter_sheets_spec sel i sections :
  let chosen :=
    (filter (λ p : Z * section,
               p.1 ∈ indices sel ∨ sheet_name p.2.1 ∈ names sel)
       (zip (seqZ i (Z.of_nat (length sections))) sections)).*2 in
  filter_sheets sel i sections
  = match row_range sel with
    | None => Some chosen
    | Some rows =>
        if decide (rows = ∅ ∧ chosen ≠ []) then None
        else Some (row_section rows <$> chosen)
    end.
Proof.
  revert i. induction sections as [|[label text] sections IH]; intros i.
  { simpl. destruct (row_range sel); [|done].
    by rewrite decide_False by (by intros [_ ?]). }
  cbn zeta in *. rewrite length_cons, Nat2Z.inj_succ.
  rewrite seqZ_cons, Z.pred_succ by lia.
  simpl zip. rewrite filter_cons. simpl fst. simpl snd.
  cbn [filter_sheets]. replace (i + 1)%Z with (Z.succ i) by lia.
  rewrite IH. clear IH.
  set (rest := (filter _ (zip (seqZ (Z.succ i) _) sections)).*2).
  destruct (sheet_selected sel i label) eqn:Hsel.
  - apply sheet_selected_iff in Hsel. rewrite decide_True by done.
    rewrite fmap_cons. fold rest. simpl snd.
    destruct (row_range sel) as [rows|]; [|done].
    destruct (decide (rows = ∅)) as [->|Hne].
    + rewrite (decide_True (P:=_ ∧ (_ :: _ ≠ []))) by done. done.
    + rewrite !decide_False by (by intros [? _]).
      destruct (py_min_max_spec rows Hne) as (lo & hi & Hlo & Hhi & _).
      rewrite Hlo, Hhi. simpl. unfold row_section, requested_min, requested_max.
      rewrite Hlo, Hhi. simpl. by rewrite select_lines_spec.
  - assert (¬ (i ∈ indices sel ∨ sheet_name label ∈ names sel)) as Hn.
    { rewrite <- sheet_selected_iff. by rewrite Hsel. }
    rewrite decide_False by done. done.
Qed.

Lemma sheet_not_line ext :
  sheet_addressed ext = true → line_addressed ext = false.
Proof.
  unfold sheet_addressed, line_addressed.
  rewrite bool_decide_eq_true, bool_decide_eq_false, !elem_of_cons.
  intros [->|[->|[]%elem_of_nil]] [?|[?|[?|[]%elem_of_nil]]]; done.
Qed.

Lemma filter_sections_sheet_addressed sections range_str ext sel :
  sheet_addressed ext = true →
  parse_sheet_selector range_str = Some sel →
  filter_sections sections range_str ext
  = match row_range sel with
    | None => Some (None, chosen_sheets sel sections)
    | Some rows =>
        if decide (rows = ∅ ∧ chosen_sheets sel sections ≠ []) then None
        else Some (None, row_section rows <$> chosen_sheets sel sections)
    end.
Proof.
  intros Hext Hparse. unfold filter_sections.
  rewrite (sheet_not_line ext Hext), Hext, Hparse. simpl.
  rewrite filter_sheets_spec. fold (chosen_sheets sel sections).
  destruct (row_range sel) as [rows|]; [|done].
  by case_decide.
Qed.

Lemma lines_in_range_first_two lines :
  lines_in_range {[ 1; 2 ]}%Z lines = take 2 lines.
Proof.
  rewrite <- select_lines_spec. unfold select_lines.
  assert (py_sorted {[ 1; 2 ]}%Z = [1; 2]%Z) as -> by by vm_compute.
  destruct lines as [|a [|b l]]; simpl;
    repeat (case_bool_decide; simpl in *; try lia); done.
Qed.

(** C5.  For a sheet-addressed extension and a selector that parses to
    [sel], [filter_sections] chooses the sheet at 1-based position [i] iff
    [i] is in the index set or the name of the sheet, its label without the
    prefix ["sheet '"] and the suffix ["'"], is in the name set.  Without a
    row range the chosen sheets are returned as they are; with one, each
    is cut to the requested rows (a row range that is empty raises as soon
    as a sheet is chosen).  On the sheets A and B the range ["B"] chooses
    B alone, ["1"] chooses A alone, and ["B:1-2"] chooses B cut to its
    first two rows. *)
Theorem filter_sections_sheets :
  (∀ sections range_str ext sel,
     sheet_addressed ext = true →
     parse_sheet_selector range_str = Some sel →
     filter_sections sections range_str ext
     = match row_range sel with
       | None => Some (None, chosen_sheets sel sections)
       | Some rows =>
           if decide (rows = ∅ ∧ chosen_sheets sel sections ≠ []) then None
           else Some (None, row_section rows <$> chosen_sheets sel sections)
       end)
  ∧ (∀ name, sheet_name (py "sheet '" ++ name ++ py "'") = name)
  ∧ (∀ ta tb : str,
       let sheets := [(py "sheet 'A'", ta); (py "sheet 'B'", tb)] in
       filter_sections sheets (py "B") (py ".xlsx")
       = Some (None, [(py "sheet 'B'", tb)])
       ∧ filter_sections sheets (py "1") (py ".xlsx")
         = Some (None, [(py "sheet 'A'", ta)])
       ∧ filter_sections sheets (py "B:1-2") (py ".xlsx")
         = Some (None, [(py "sheet 'B' rows 1-2",
                         PyStr.join [PyStr.nl]
                           (take 2 (PyStr.split PyStr.nl tb)))])).
Proof.
  split; [exact filter_sections_sheet_addressed|].
  split; [exact sheet_name_decorated|].
  intros ta tb sheets. subst sheets. split; [|split].
  - rewrite (filter_sections_sheet_addressed _ _ _
               (SheetSelector {[ py "B" ]} ∅ None)); [|by vm_compute..].
    by vm_compute.
  - rewrite (filter_sections_sheet_addressed _ _ _
               (SheetSelector ∅ {[ 1%Z ]} None)); [|by vm_compute..].
    by vm_compute.
  - rewrite (filter_sections_sheet_addressed _ _ _
               (SheetSelector {[ py "B" ]} ∅ (Some {[ 1; 2 ]}%Z)));
      [|by vm_compute..].
    cbn [row_range]. case_decide as Hrows; [by destruct Hrows as [? _]|].
    assert (chosen_sheets (SheetSelector {[ py "B" ]} ∅ (Some {[ 1; 2 ]}%Z))
              [(py "sheet 'A'", ta); (py "sheet 'B'", tb)]
            = [(py "sheet 'B'", tb)]) as -> by by vm_compute.
    rewrite fmap_cons, fmap_nil. unfold row_section. simpl fst. simpl snd.
    rewrite lines_in_range_first_two. by vm_compute.
Qed.

Lemma filter_sections_sheets_witness :
  sheet_addressed (py ".ods") = true
  ∧ parse_sheet_selector (py "2,A")
    = Some (SheetSelector {[ py "A" ]} {[ 2%Z ]} None)
  ∧ filter_sections [(py "sheet 'A'", py "a1"); (py "sheet 'B'", py "b1")]
      (py "2,A") (py ".ods")
    = Some (None,
            chosen_sheets (SheetSelector {[ py "A" ]} {[ 2%Z ]} None)
              [(py "sheet 'A'", py "a1"); (py "sheet 'B'", py "b1")]).
Proof.
  assert (sheet_addressed (py ".ods") = true) as H1 by by vm_compute.
  assert (parse_sheet_selector (py "2,A")
          = Some (SheetSelector {[ py "A" ]} {[ 2%Z ]} None)) as H2
    by by vm_compute.
  split; [exact H1|]. split; [exact H2|].
  exact (proj1 filter_sections_sheets _ _ _ _ H1 H2).
Defined.

(** No line is selected exactly when no requested index exists. *)
Lemma lines_in_range_nil nums lines :
  lines_in_range nums lines = []
  ↔ ∀ j, j ∈ nums → ¬ (1 ≤ j ≤ Z.of_nat (length lines))%Z.
Proof.
  unfold lines_in_range. set (n := Z.of_nat (length lines)). split.
  - intros Hnil%fmap_nil_inv j Hj Hrange.
    destruct (lookup_lt_is_Some_2 lines (Z.to_nat (j - 1))) as [line Hline];
      [lia|].
    apply (filter_nil_not_elem_of _ _ (j, line)) in Hnil; [|done].
    apply Hnil, list_elem_of_lookup. exists (Z.to_nat (j - 1)).
    apply lookup_zip_with_Some. exists j, line. split; [done|].
    split; [|done]. apply lookup_seqZ. lia.
  - intros Hnone.
    destruct (filter _ _) as [|p l] eqn:E; [done|]. exfalso.
    assert (p ∈ filter (λ p : Z * str, p.1 ∈ nums) (zip (seqZ 1 n) lines))
      as [Hp Hin]%list_elem_of_filter by (rewrite E; left).
    destruct p as [j line]. apply elem_of_zip_l, elem_of_seqZ in Hin.
    apply (Hnone j Hp). lia.
Qed.

(** C10.  Under a sheet selector with a row range that is not empty,
    every chosen sheet is emitted, relabeled "{label} rows {min}-{max}";
    a chosen sheet in which none of the requested rows exists is emitted
    with empty text.  The line-addressed policy drops a section in which
    none of the requested lines exists. *)
Theorem sheet_rows_keep_empty_sheets :
  (∀ sections range_str ext sel rows,
     sheet_addressed ext = true →
     parse_sheet_selector range_str = Some sel →
     row_range sel = Some rows → rows ≠ ∅ →
     filter_sections sections range_str ext
     = Some (None, row_section rows <$> chosen_sheets sel sections))
  ∧ (∀ rows label text,
       (∀ j, j ∈ rows →
             ¬ (1 ≤ j ≤ Z.of_nat (length (PyStr.split PyStr.nl text)))%Z) →
       row_section rows (label, text)
       = (relabel label "rows" (requested_min rows) (requested_max rows), []))
  ∧ (∀ nums label text,
       (∀ j, j ∈ nums →
             ¬ (1 ≤ j ≤ Z.of_nat (length (PyStr.split PyStr.nl text)))%Z) →
       line_section nums (label, text) = None)
  ∧ (∀ text : str,
       length (PyStr.split PyStr.nl text) < 7 →
       filter_sections [(py "sheet 'B'", text)] (py "B:7-9") (py ".xlsx")
       = Some (None, [(py "sheet 'B' rows 7-9", [])])
       ∧ filter_sections [(py "document", text)] (py "7-9") (py ".docx")
         = Some (None, [])).
Proof.
  assert (∀ text : str, length (PyStr.split PyStr.nl text) < 7 →
            lines_in_range {[ 7; 8; 9 ]}%Z (PyStr.split PyStr.nl text) = [])
    as Hnone.
  { intros text Hlen. apply lines_in_range_nil. intros j Hj. 
    rewrite !elem_of_union, !elem_of_singleton in Hj. lia. }
  split; [|split; [|split]].
  - intros sections range_str ext sel rows Hext Hparse Hrows Hne.
    rewrite (filter_sections_sheet_addressed _ _ _ sel Hext Hparse), Hrows.
    by rewrite decide_False by (by intros [? _]).
  - intros rows label text Hnone'. unfold row_section. simpl.
    by rewrite (proj2 (lines_in_range_nil _ _) Hnone').
  - intros nums label text Hnone'. unfold line_section. simpl.
    by rewrite (proj2 (lines_in_range_nil _ _) Hnone').
  - intros text Hlen. split.
    + rewrite (filter_sections_sheet_addressed _ _ _
                 (SheetSelector {[ py "B" ]} ∅ (Some {[ 7; 8; 9 ]}%Z)));
        [|by vm_compute..].
      cbn [row_range]. case_decide as Hrows; [by destruct Hrows as [? _]|].
      assert (chosen_sheets (SheetSelector {[ py "B" ]} ∅ (Some {[ 7; 8; 9 ]}%Z))
                [(py "sheet 'B'", text)] = [(py "sheet 'B'", text)])
        as -> by by vm_compute.
      rewrite fmap_cons, fmap_nil. unfold row_section. simpl fst. simpl snd.
      rewrite (Hnone text Hlen). by vm_compute.
    + rewrite (filter_sections_line_addressed _ _ _ {[ 7; 8; 9 ]}%Z);
        [|by vm_compute..].
      simpl. unfold line_section. simpl. by rewrite (Hnone text Hlen).
Qed.

Lemma sheet_rows_keep_empty_sheets_witness :
  length (PyStr.split PyStr.nl (py "b1")) < 7
  ∧ filter_sections [(py "sheet 'B'", py "b1")] (py "B:7-9") (py ".xlsx")
    = Some (None, [(py "sheet 'B' rows 7-9", [])])
  ∧ filter_sections [(py "document", py "b1")] (py "7-9") (py ".docx")
    = Some (None, [])
  ∧ sheet_addressed (py ".ods") = true
  ∧ parse_sheet_selector (py "1:2-3")
    = Some (SheetSelector ∅ {[ 1%Z ]} (Some {[ 2; 3 ]}%Z))
  ∧ ({[ 2; 3 ]} : gset Z)%Z ≠ ∅
  ∧ filter_sections [(py "sheet 'B'", py "b1")] (py "1:2-3") (py ".ods")
    = Some (None,
            row_section {[ 2; 3 ]}%Z
              <$> chosen_sheets (SheetSelector ∅ {[ 1%Z ]} (Some {[ 2; 3 ]}%Z))
                    [(py "sheet 'B'", py "b1")]).
Proof.
  assert (length (PyStr.split PyStr.nl (py "b1")) < 7) as H by (simpl; lia).
  assert (sheet_addressed (py ".ods") = true) as H1 by by vm_compute.
  assert (parse_sheet_selector (py "1:2-3")
          = Some (SheetSelector ∅ {[ 1%Z ]} (Some {[ 2; 3 ]}%Z))) as H2
    by by vm_compute.
  assert (({[ 2; 3 ]} : gset Z)%Z ≠ ∅) as H3 by by vm_compute.
  split; [exact H|].
  destruct (proj2 (proj2 (proj2 sheet_rows_keep_empty_sheets)) (py "b1") H)
    as [Hsheet Hdoc].
  split; [exact Hsheet|]. split; [exact Hdoc|].
  split; [exact H1|]. split; [exact H2|]. split; [exact H3|].
  exact (proj1 sheet_rows_keep_empty_sheets _ _ _ _ _ H1 H2 eq_refl H3).
Defined.

(** ** Numbered labels *)

Section LabelFacts.
Import PyStr LabelRegex.

Lemma take_while_all p s : forallb p s = true → take_while p s = s.
Proof.
  induction s as [|c s IH]; [done|]. simpl.
  destruct (p c); [|done]. simpl. intros H. by rewrite IH.
Qed.

Lemma take_while_snoc p s c :
  take_while p (s ++ [c])
  = if forallb p s then s ++ (if p c then [c] else []) else take_while p s.
Proof.
  induction s as [|a s IH]; simpl.
  - by destruct (p c).
  - destruct (p a); [|done]. simpl. rewrite IH. by destruct (forallb p s).
Qed.

Lemma forallb_reverse p (s : str) : forallb p (reverse s) = forallb p s.
Proof.
  induction s as [|c s IH]; [done|].
  rewrite reverse_cons, forallb_app, IH. simpl.
  by rewrite andb_true_r, andb_comm.
Qed.

Lemma trailing_digits_cons c s :
  trailing_digits (c :: s)
  = if forallb is_digit (c :: s) then c :: s else trailing_digits s.
Proof.
  unfold trailing_digits. rewrite reverse_cons, take_while_snoc.
  rewrite forallb_reverse. simpl.
  destruct (forallb is_digit s) eqn:Hs.
  - destruct (is_digit c); simpl.
    + by rewrite reverse_app, reverse_involutive.
    + rewrite app_nil_r, reverse_involutive.
      by rewrite take_while_all, reverse_involutive
        by by rewrite forallb_reverse.
  - by rewrite andb_false_r.
Qed.

Lemma contains_cons c a s :
  contains c (a :: s) = false → a ≠ c ∧ contains c s = false.
Proof.
  unfold contains. cbn [existsb]. intros [Ha Hs]%orb_false_iff.
  split; [|done]. intros ->. by rewrite Ascii.eqb_refl in Ha.
Qed.

Lemma at_end_no_nl s :
  contains nl s = false → at_end s = bool_decide (s = []).
Proof.
  destruct s as [|d [|e s]]; [done| |done].
  intros [Hd _]%contains_cons. unfold at_end.
  by apply Ascii.eqb_neq.
Qed.

Lemma digits_end_spec s :
  contains nl s = false →
  digits_end s
  = if forallb is_digit s && negb (bool_decide (s = [])) then Some s else None.
Proof.
  induction s as [|c s IH]; [done|].
  intros [Hc Hs]%contains_cons.
  cbn [digits_end forallb]. rewrite (IH Hs), (at_end_no_nl _ Hs).
  destruct (is_digit c); [|done].
  rewrite (bool_decide_eq_false_2 (c :: s = [])) by done.
  destruct s as [|d s]; [done|].
  rewrite (bool_decide_eq_false_2 (d :: s = [])) by done.
  by destruct (forallb is_digit (d :: s)).
Qed.

(** Without a newline in the label, the regular expression captures
    the digits that end it. *)
Lemma search_spec s :
  contains nl s = false →
  search s = match trailing_digits s with [] => None | ds => Some ds end.
Proof.
  induction s as [|c s IH]; [done|]. intros Hnl.
  rewrite trailing_digits_cons.
  cbn [search]. rewrite (digits_end_spec _ Hnl).
  rewrite (bool_decide_eq_false_2 (c :: s = [])) by done.
  rewrite andb_true_r.
  destruct (forallb is_digit (c :: s)); [done|].
  apply contains_cons in Hnl as [Hc Hs].
  apply Ascii.eqb_neq in Hc. rewrite Hc. by apply IH.
Qed.

Lemma trailing_digits_Forall s :
  Forall (λ c, is_digit c = true) (trailing_digits s).
Proof.
  unfold trailing_digits. apply Forall_reverse.
  induction (reverse s) as [|c r IH]; simpl; [constructor|].
  destruct (is_digit c) eqn:Hc; by constructor.
Qed.

Lemma int_digits_value st acc ds :
  Forall (λ c, is_digit c = true) ds →
  st = IntDigit ∨ ds ≠ [] →
  int_digits st acc ds
  = Some (foldl (λ acc c, 10 * acc + digit_val c)%Z acc ds).
Proof.
  intros Hd. revert st acc.
  induction Hd as [|c ds Hc _ IH]; intros st acc Hst.
  - by destruct Hst as [->|?].
  - cbn [int_digits foldl]. rewrite Hc. apply IH. by left.
Qed.

Lemma extract_section_number_spec label :
  contains nl label = false → readable_number label →
  extract_section_number label = Some (label_number label).
Proof.
  intros Hnl. unfold extract_section_number, label_number, readable_number.
  rewrite (search_spec _ Hnl).
  pose proof (trailing_digits_Forall label) as Hd.
  destruct (trailing_digits label) as [|c ds]; [done|]. intros Hlen.
  rewrite int_digit_string, (int_literal_digits _ Hd Hlen),
    (int_digits_value IntStart) by (done || by right).
  done.
Qed.

End LabelFacts.

Lemma filter_numbered_spec nums sections :
  Forall (λ s : section, PyStr.contains PyStr.nl s.1 = false) sections →
  Forall (λ s : section, readable_number s.1) sections →
  filter_numbered nums sections
  = Some (filter (λ s : section, label_selected nums s.1 = true) sections).
Proof.
  induction 1 as [|[label text] sections Hnl _ IH]; [done|].
  intros [Hshort Hall]%Forall_cons.
  cbn [filter_numbered]. simpl in Hnl, Hshort.
  rewrite (extract_section_number_spec _ Hnl Hshort), (IH Hall). simpl.
  rewrite filter_cons. simpl. f_equal.
  case_decide as Hs; unfold label_selected in Hs;
    destruct (label_number label) as [n|]; try done;
    by destruct (bool_decide (n ∈ nums)).
Qed.

Lemma numbered_not_line_nor_sheet ext :
  numbered_label ext = true →
  line_addressed ext = false ∧ sheet_addressed ext = false.
Proof.
  unfold numbered_label, sheet_addressed, line_addressed.
  rewrite bool_decide_eq_true, !bool_decide_eq_false, !elem_of_cons.
  intros [->|[->|[->|[->|[]%elem_of_nil]]]]; split;
    intros H; repeat (destruct H as [H|H]; [done|]); by apply elem_of_nil in H.
Qed.

Lemma filter_sections_numbered_label sections range_str ext nums :
  numbered_label ext = true →
  parse_numeric_range range_str = Some nums →
  Forall (λ s : section, PyStr.contains PyStr.nl s.1 = false) sections →
  Forall (λ s : section, readable_number s.1) sections →
  filter_sections sections range_str ext
  = Some (None, filter (λ s : section, label_selected nums s.1 = true) sections).
Proof.
  intros [Hline Hsheet]%numbered_not_line_nor_sheet Hparse Hnl Hshort.
  unfold filter_sections. rewrite Hline, Hsheet, Hparse. simpl.
  by rewrite filter_numbered_spec.
Qed.

Lemma take_while_app_all p s r :
  Forall (λ c, p c = true) s →
  PyStr.take_while p (s ++ r) = s ++ PyStr.take_while p r.
Proof.
  induction 1 as [|c s Hc _ IH]; [done|]. simpl. by rewrite Hc, IH.
Qed.

(** The labels of the decoders, a word, a space and a position written in
    decimal, end in that position. *)
Lemma label_number_position (word : str) (i : Z) :
  (0 ≤ i)%Z → label_number (word ++ py " " ++ PyStr.of_int i) = Some i.
Proof.
  intros Hi. destruct (of_int_shape i) as (ds & -> & Hne & Hd & Hv).
  rewrite bool_decide_eq_false_2 by lia.
  replace (word ++ py " " ++ [] ++ ds) with ((word ++ py " ") ++ ds)
    by by rewrite <- (assoc_L (++)).
  rewrite (int_digits_value _ _ _ Hd) in Hv by by right.
  unfold label_number, trailing_digits.
  rewrite reverse_app, take_while_app_all by by apply Forall_reverse.
  rewrite reverse_app, (reverse_app word).
  change (PyStr.take_while PyStr.is_digit (reverse (py " ") ++ reverse word))
    with (@nil ascii).
  rewrite reverse_nil, app_nil_l, reverse_involutive.
  destruct ds as [|c ds]; [done|].
  f_equal. injection Hv as Hv. etrans; [exact Hv|lia].
Qed.

(** The digits that end a label of the decoders are those of its
    position, so [int] reads the label of a position below [10^4300]. *)
Lemma trailing_digits_position (word : str) (i : Z) :
  (0 ≤ i)%Z →
  trailing_digits (word ++ py " " ++ PyStr.of_int i) = PyStr.of_int i.
Proof.
  intros Hi. destruct (of_int_shape i) as (ds & -> & Hne & Hd & Hv).
  rewrite bool_decide_eq_false_2 by lia.
  replace (word ++ py " " ++ [] ++ ds) with ((word ++ py " ") ++ ds)
    by by rewrite <- (assoc_L (++)).
  unfold trailing_digits.
  rewrite reverse_app, take_while_app_all by by apply Forall_reverse.
  rewrite reverse_app, (reverse_app word).
  change (PyStr.take_while PyStr.is_digit (reverse (py " ") ++ reverse word))
    with (@nil ascii).
  by rewrite reverse_nil, app_nil_l, reverse_involutive.
Qed.

Lemma readable_position (word : str) (i : Z) :
  PyStr.contains PyStr.nl word = false →
  (0 ≤ i < 10 ^ PyStr.int_max_str_digits)%Z →
  readable_number (word ++ py " " ++ PyStr.of_int i).
Proof.
  intros Hword Hi. unfold readable_number.
  destruct (of_int_digits i ltac:(lia)) as [Hne Hd].
  rewrite search_spec.
  2:{ rewrite !contains_app, Hword. by rewrite (digits_contains _ _ Hd). }
  rewrite trailing_digits_position by lia.
  destruct (PyStr.of_int i) as [|c ds] eqn:E; [done|]. rewrite <- E.
  pose proof (decimal_digits_limit i ltac:(lia)) as Hlen.
  unfold decimal_digits in Hlen. by rewrite Z.abs_eq in Hlen by lia.
Qed.

(** C8.  For a numbered-label extension, a range that parses to [nums]
    and labels without a newline whose final digits are at most 4300 (as
    the decoders write them; [int] reads no more), [filter_sections]
    keeps exactly the sections whose label ends in a run of digits that,
    read as a decimal number, is in [nums]; a label that no digit ends is
    never kept; the kept sections are returned as they are.  A label of
    the decoders, "{word} {position}", ends in its position, and [int]
    reads it for every position below [10^4300].  On the labels page 1,
    page 2 and page 10 the range ["2,10"] keeps page 2 and page 10. *)
Theorem filter_sections_numbered :
  (∀ sections range_str ext nums,
     numbered_label ext = true →
     parse_numeric_range range_str = Some nums →
     Forall (λ s : section, PyStr.contains PyStr.nl s.1 = false) sections →
     Forall (λ s : section, readable_number s.1) sections →
     filter_sections sections range_str ext
     = Some (None,
             filter (λ s : section, label_selected nums s.1 = true) sections))
  ∧ (∀ nums label,
       label_selected nums label = true
       ↔ trailing_digits label ≠ []
         ∧ decimal_value (trailing_digits label) ∈ nums)
  ∧ (∀ (word : str) (i : Z),
       (0 ≤ i)%Z →
       label_number (word ++ py " " ++ PyStr.of_int i) = Some i)
  ∧ (∀ (word : str) (i : Z),
       PyStr.contains PyStr.nl word = false →
       (0 ≤ i < 10 ^ PyStr.int_max_str_digits)%Z →
       readable_number (word ++ py " " ++ PyStr.of_int i))
  ∧ (∀ t1 t2 t3 : str,
       filter_sections
         [(py "page 1", t1); (py "page 2", t2); (py "page 10", t3)]
         (py "2,10") (py ".pdf")
       = Some (None, [(py "page 2", t2); (py "page 10", t3)])).
Proof.
  split; [exact filter_sections_numbered_label|]. split; [|split; [|split]].
  2: exact label_number_position.
  2: exact readable_position.
  - intros nums label. unfold label_selected, label_number.
    destruct (trailing_digits label) as [|c ds].
    + split; [done|]. by intros [? _].
    + rewrite bool_decide_eq_true. split; [done|]. by intros [_ ?].
  - intros t1 t2 t3.
    rewrite (filter_sections_numbered_label _ _ _ {[ 2; 10 ]}%Z);
      [|by vm_compute|by vm_compute|by repeat constructor
       |repeat constructor; by vm_compute].
    by vm_compute.
Qed.

Lemma filter_sections_numbered_witness :
  numbered_label (py ".pptx") = true
  ∧ parse_numeric_range (py "3") = Some ({[ 3 ]} : gset Z)%Z
  ∧ Forall (λ s : section, PyStr.contains PyStr.nl s.1 = false)
      [(py "slide 3", py "x"); (py "notes", py "y")]
  ∧ Forall (λ s : section, readable_number s.1)
      [(py "slide 3", py "x"); (py "notes", py "y")]
  ∧ filter_sections [(py "slide 3", py "x"); (py "notes", py "y")]
      (py "3") (py ".pptx")
    = Some (None,
            filter (λ s : section, label_selected {[ 3%Z ]} s.1 = true)
              [(py "slide 3", py "x"); (py "notes", py "y")]).
Proof.
  assert (numbered_label (py ".pptx") = true) as H1 by by vm_compute.
  assert (parse_numeric_range (py "3") = Some ({[ 3 ]} : gset Z)%Z) as H2
    by by vm_compute.
  assert (Forall (λ s : section, PyStr.contains PyStr.nl s.1 = false)
            [(py "slide 3", py "x"); (py "notes", py "y")]) as H3
    by by repeat constructor.
  assert (Forall (λ s : section, readable_number s.1)
            [(py "slide 3", py "x"); (py "notes", py "y")]) as H4
    by (repeat constructor; by vm_compute).
  split; [exact H1|]. split; [exact H2|]. split; [exact H3|].
  split; [exact H4|].
  exact (proj1 filter_sections_numbered _ _ _ _ H1 H2 H3 H4).
Defined.

(** ** docread *)

Lemma truncation_notice_text :
  truncation_notice
  = [PyStr.nl; PyStr.nl]
      ++ py "... output truncated at 40000 chars. Use range to narrow results.".
Proof. by vm_compute. Qed.

Lemma truncate_output_long (rendered : str) :
  (MAX_OUTPUT_CHARS < Z.of_nat (length rendered))%Z →
  truncate_output rendered
  = take (Z.to_nat MAX_OUTPUT_CHARS) rendered ++ truncation_notice
  ∧ Z.of_nat (length (take (Z.to_nat MAX_OUTPUT_CHARS) rendered))
    = MAX_OUTPUT_CHARS.
Proof.
  intros Hlong. unfold truncate_output.
  rewrite bool_decide_eq_true_2 by done. split; [done|].
  rewrite length_take. unfold MAX_OUTPUT_CHARS in *. lia.
Qed.

Lemma truncate_output_short (rendered : str) :
  (Z.of_nat (length rendered) ≤ MAX_OUTPUT_CHARS)%Z →
  truncate_output rendered = rendered.
Proof.
  intros Hshort. unfold truncate_output.
  by rewrite bool_decide_eq_false_2 by lia.
Qed.

(** C2.  Whenever [docread] renders sections (the checks, the extraction
    and the range filter went through and left at least one section), a
    rendered output of more than 40000 characters is returned as its first
    40000 characters followed by the fixed notice, which names the cap and
    points to the range parameter; a rendered output of at most 40000
    characters is returned as it is. *)
Theorem docread_output_cap (w : world) (filepath : str) (range : option str)
    (warning : option str) (sections : list section) :
  docread_sections w filepath range = Ok (warning, sections) →
  sections ≠ [] →
  let rendered := render warning sections in
  ((40000 < Z.of_nat (length rendered))%Z →
     docread w filepath range
     = Ok (take (Z.to_nat 40000) rendered
             ++ [PyStr.nl; PyStr.nl]
             ++ py "... output truncated at 40000 chars. Use range to narrow results.")
     ∧ Z.of_nat (length (take (Z.to_nat 40000) rendered)) = 40000%Z)
  ∧ ((Z.of_nat (length rendered) ≤ 40000)%Z →
       docread w filepath range = Ok rendered).
Proof.
  intros Hsections Hne rendered. unfold docread. rewrite Hsections.
  destruct sections as [|s sections]; [done|]. fold rendered. split.
  - intros Hlong. destruct (truncate_output_long rendered Hlong) as [-> Hlen].
    by rewrite truncation_notice_text.
  - intros Hshort. by rewrite truncate_output_short.
Qed.

Lemma docread_output_cap_witness :
  docread_sections long_document_world (py "a.docx") None
  = Ok (None, [(py "document", long_text)])
  ∧ [(py "document", long_text)] ≠ []
  ∧ (40000 < Z.of_nat (length (render None [(py "document", long_text)])))%Z
  ∧ docread long_document_world (py "a.docx") None
    = Ok (take (Z.to_nat 40000) (render None [(py "document", long_text)])
            ++ [PyStr.nl; PyStr.nl]
            ++ py "... output truncated at 40000 chars. Use range to narrow results.").
Proof.
  assert (docread_sections long_document_world (py "a.docx") None
          = Ok (None, [(py "document", long_text)])) as H1 by reflexivity.
  assert ([(py "document", long_text)] ≠ []) as H2 by done.
  assert (40000 < Z.of_nat (length (render None [(py "document", long_text)])))%Z
    as H3 by (vm_compute; reflexivity).
  split; [exact H1|]. split; [exact H2|]. split; [exact H3|].
  exact (proj1 (proj1 (docread_output_cap _ _ _ _ _ H1 H2) H3)).
Defined.

(** ** docgrep: the cap *)

Section WalkFacts.
Context (w : world) (root : path) (regex_search : str → bool).
Context (allowed_exts : gset str) (max_results : Z).

Local Abbreviation cap := (cap_reached max_results).
Local Abbreviation lines_loop := (scan_lines regex_search max_results).
Local Abbreviation sections_loop := (scan_sections regex_search max_results).
Local Abbreviation files_loop :=
  (walk w root regex_search allowed_exts max_results).



Lemma walk_capped st entries :
  cap st = true → files_loop st entries = st.
Proof. intros H. destruct entries; [done|]. simpl. by rewrite H. Qed.




(** The results grow by the first lines, as many as there is room for,
    of what the loop would add without a cap. *)
Local Abbreviation room := (room max_results).

Lemma cap_room st : cap st = bool_decide (room st = 0).
Proof. unfold cap_reached, room. apply bool_decide_ext. lia. Qed.

Lemma take_room_app st (added more : list str) :
  take (room st) (added ++ more)
  = take (room st) added
    ++ take (room (GrepState (results st ++ take (room st) added) []))
         more.
Proof.
  rewrite take_app. f_equal. f_equal. unfold room. simpl.
  rewrite length_app, length_take. lia.
Qed.

Lemma scan_lines_results rel label st lines :
  results (lines_loop rel label st lines)
  = results st
    ++ take (room st)
         (match_line rel label
            <$> filter (λ line, regex_search line = true) lines).
Proof.
  revert st. induction lines as [|line lines IH]; intros st.
  { simpl. by rewrite take_nil, app_nil_r. }
  simpl. rewrite cap_room. case_bool_decide as Hroom.
  { by rewrite Hroom, take_0, app_nil_r. }
  rewrite filter_cons. destruct (regex_search line) eqn:Hline.
  - rewrite decide_True by done. rewrite IH. simpl.
    destruct (room st) as [|k] eqn:Hk; [done|]. simpl.
    rewrite <- (assoc_L (++)). simpl. do 3 f_equal.
    unfold room in *. simpl. rewrite length_app. simpl. lia.
  - rewrite decide_False by done. by rewrite IH.
Qed.

Lemma room_ext st st' : results st = results st' → room st = room st'.
Proof. unfold room. by intros ->. Qed.

Lemma scan_sections_results rel st sections :
  results (sections_loop rel st sections)
  = results st ++ take (room st) (file_matches regex_search rel sections).
Proof.
  revert st. induction sections as [|[label text] sections IH]; intros st.
  { simpl. by rewrite take_nil, app_nil_r. }
  cbn [scan_sections]. rewrite cap_room. case_bool_decide as Hroom.
  { by rewrite Hroom, take_0, app_nil_r. }
  rewrite IH, scan_lines_results. unfold file_matches.
  rewrite bind_cons, take_room_app, <- (assoc_L (++)). do 3 f_equal.
  apply room_ext. by rewrite scan_lines_results.
Qed.

Lemma walk_results st entries :
  results (files_loop st entries)
  = results st
    ++ take (room st)
         (entries ≫= entry_output w root regex_search allowed_exts).
Proof.
  revert st. induction entries as [|rel entries IH]; intros st.
  { simpl. by rewrite take_nil, app_nil_r. }
  cbn [walk]. rewrite cap_room. case_bool_decide as Hroom.
  { by rewrite Hroom, take_0, app_nil_r. }
  rewrite bind_cons. unfold entry_output at 1, eligible.
  destruct (is_file w (root ++ rel)); simpl; [|apply IH].
  case_bool_decide; simpl; [|apply IH].
  destruct (hidden rel); simpl; [apply IH|].
  destruct (extract_text w (root ++ rel)) as [message|sections].
  - rewrite IH. simpl.
    destruct (room st) as [|k] eqn:Hk; [done|]. simpl.
    rewrite <- (assoc_L (++)). simpl. do 3 f_equal.
    unfold room in *. simpl. rewrite length_app. simpl. lia.
  - rewrite IH, scan_sections_results, take_room_app, <- (assoc_L (++)).
    do 3 f_equal. apply room_ext. by rewrite scan_sections_results.
Qed.

(** While the cap is out of reach the loops run to their end. *)
Lemma scan_lines_uncapped rel label st lines :
  (Z.of_nat (length (results st)
             + length (filter (λ line, regex_search line = true) lines))
   < max_results)%Z →
  lines_loop rel label st lines
  = GrepState
      (results st
         ++ (match_line rel label
               <$> filter (λ line, regex_search line = true) lines))
      (trace st ++ (Search rel label <$> lines)).
Proof.
  revert st. induction lines as [|line lines IH]; intros [rs tr] Hroom.
  { simpl. by rewrite !app_nil_r. }
  cbn [scan_lines]. rewrite filter_cons in Hroom |- *.
  cbn [results] in Hroom.
  unfold cap_reached. cbn [results]. rewrite bool_decide_eq_false_2 by lia.
  destruct (regex_search line) eqn:Hline.
  - rewrite decide_True in Hroom |- * by done. rewrite IH.
    + simpl. by rewrite <- !(assoc_L (++)).
    + simpl in *. rewrite length_app. simpl. lia.
  - rewrite decide_False in Hroom |- * by done. rewrite IH.
    + simpl. by rewrite <- !(assoc_L (++)).
    + simpl in *. lia.
Qed.

Lemma scan_sections_uncapped rel st sections :
  (Z.of_nat (length (results st)
             + length (file_matches regex_search rel sections))
   < max_results)%Z →
  sections_loop rel st sections
  = GrepState (results st ++ file_matches regex_search rel sections)
      (trace st ++ file_events rel sections).
Proof.
  revert st.
  induction sections as [|[label text] sections IH]; intros [rs tr] Hroom.
  { simpl. by rewrite !app_nil_r. }
  cbn [scan_sections]. unfold file_matches, file_events in *.
  rewrite !bind_cons in *. rewrite length_app in Hroom.
  cbn [results] in Hroom.
  assert (length (section_matches regex_search rel (label, text))
          = length (filter (λ line, regex_search line = true)
                      (splitlines text))) as Hlen
    by apply length_fmap.
  unfold cap_reached. cbn [results].
  rewrite bool_decide_eq_false_2 by lia.
  rewrite scan_lines_uncapped by (cbn [results]; lia).
  rewrite IH.
  - cbn [results trace]. by rewrite <- !(assoc_L (++)).
  - cbn [results]. rewrite length_app, length_fmap. lia.
Qed.

Lemma walk_uncapped st entries :
  (Z.of_nat (length (results st)
             + length (entries
                         ≫= entry_output w root regex_search allowed_exts))
   < max_results)%Z →
  files_loop st entries
  = GrepState
      (results st
         ++ (entries ≫= entry_output w root regex_search allowed_exts))
      (trace st ++ (entries ≫= entry_events w root allowed_exts)).
Proof.
  revert st. induction entries as [|rel entries IH]; intros [rs tr] Hroom.
  { simpl. by rewrite !app_nil_r. }
  cbn [walk]. rewrite !bind_cons in *. rewrite length_app in Hroom.
  cbn [results] in Hroom.
  unfold cap_reached. cbn [results]. rewrite bool_decide_eq_false_2 by lia.
  unfold entry_output at 1, entry_events at 1.
  unfold entry_output at 1 in Hroom. unfold eligible in *.
  destruct (is_file w (root ++ rel)); cbn [negb andb] in *;
    [|apply IH; cbn [results length] in *; lia].
  case_bool_decide; cbn [negb andb] in *;
    [|apply IH; cbn [results length] in *; lia].
  destruct (hidden rel); cbn [negb andb] in *;
    [apply IH; cbn [results length] in *; lia|].
  destruct (extract_text w (root ++ rel)) as [message|sections].
  - rewrite IH.
    + cbn [results trace emit record]. by rewrite <- !(assoc_L (++)).
    + cbn [results trace emit record length] in *.
      rewrite length_app. cbn [length]. lia.
  - rewrite scan_sections_uncapped by (cbn [results record]; lia).
    rewrite IH.
    + cbn [results trace record]. by rewrite <- !(assoc_L (++)).
    + cbn [results record]. rewrite length_app. lia.
Qed.

End WalkFacts.

(** ** docgrep: hidden entries *)

Section HiddenFacts.
Context (w : world) (root : path) (regex_search : str → bool).
Context (allowed_exts : gset str) (max_results : Z).

Local Abbreviation lines_loop := (scan_lines regex_search max_results).
Local Abbreviation sections_loop := (scan_sections regex_search max_results).
Local Abbreviation files_loop :=
  (walk w root regex_search allowed_exts max_results).

Lemma hidden_iff rel :
  hidden rel = true ↔ ∃ part rest, part ∈ rel ∧ part = "."%char :: rest.
Proof.
  unfold hidden. rewrite existsb_exists. split.
  - intros (part & Hin%list_elem_of_In & Hdot).
    destruct part as [|c rest]; [done|].
    change (py ".") with ["."%char] in Hdot. cbn [PyStr.startswith] in Hdot.
    rewrite andb_true_r in Hdot. apply Ascii.eqb_eq in Hdot as <-.
    by exists ("."%char :: rest), rest.
  - intros (part & rest & Hin & ->). exists ("."%char :: rest).
    split; [by apply list_elem_of_In|done].
Qed.

Lemma eligible_not_hidden rel :
  eligible w root allowed_exts rel = true → hidden rel = false.
Proof.
  unfold eligible. intros [_ H]%andb_true_iff. by destruct (hidden rel).
Qed.

(** Hidden entries can be struck from the listing. *)
Lemma walk_filter_hidden st entries :
  files_loop st entries
  = files_loop st (filter (λ rel, hidden rel = false) entries).
Proof.
  revert st. induction entries as [|rel entries IH]; intros st; [done|].
  rewrite filter_cons. destruct (hidden rel) eqn:Hh.
  - rewrite decide_False by done. cbn [walk]. rewrite Hh.
    destruct (cap_reached max_results st) eqn:Hcap.
    { by rewrite walk_capped. }
    repeat (case_match; try apply IH).
  - rewrite decide_True by done. cbn [walk]. rewrite Hh.
    repeat (case_match; try apply IH); done.
Qed.

Lemma scan_lines_trace rel label st lines ev :
  ev ∈ trace (lines_loop rel label st lines) →
  ev ∈ trace st ∨ event_path ev = rel.
Proof.
  revert st. induction lines as [|line lines IH]; intros st; [by left|].
  cbn [scan_lines]. destruct (cap_reached max_results st); [by left|].
  destruct (regex_search line); intros [Hev|Hev]%IH; try by right.
  all: cbn [trace emit record] in Hev;
    apply elem_of_app in Hev as [Hev|Hev%list_elem_of_singleton];
    [by left|subst; by right].
Qed.

Lemma scan_sections_trace rel st sections ev :
  ev ∈ trace (sections_loop rel st sections) →
  ev ∈ trace st ∨ event_path ev = rel.
Proof.
  revert st. induction sections as [|[label text] sections IH]; intros st;
    [by left|].
  cbn [scan_sections]. destruct (cap_reached max_results st); [by left|].
  intros [Hev|Hev]%IH; [|by right]. by apply scan_lines_trace in Hev.
Qed.

(** Every event of the walk is about an eligible entry of the listing. *)
Lemma walk_trace st entries ev :
  ev ∈ trace (files_loop st entries) →
  ev ∈ trace st
  ∨ (event_path ev ∈ entries
     ∧ eligible w root allowed_exts (event_path ev) = true).
Proof.
  revert st. induction entries as [|rel entries IH]; intros st; [by left|].
  cbn [walk]. destruct (cap_reached max_results st); [by left|].
  assert (∀ st', (ev ∈ trace st' → ev ∈ trace st
                    ∨ (event_path ev = rel
                       ∧ eligible w root allowed_exts rel = true)) →
            ev ∈ trace (files_loop st' entries) →
            ev ∈ trace st
            ∨ (event_path ev ∈ rel :: entries
               ∧ eligible w root allowed_exts (event_path ev) = true))
    as Hstep.
  { intros st' Hst' [Hev|[Hin Hel]]%IH.
    - destruct (Hst' Hev) as [?|[<- ?]]; [by left|right]. split; [left|done].
    - right. split; [by right|done]. }
  unfold eligible in *.
  destruct (is_file w (root ++ rel)); cbn [negb andb] in *;
    [|apply Hstep; by left].
  case_bool_decide; cbn [negb andb] in *; [|apply Hstep; by left].
  destruct (hidden rel); cbn [negb] in *; [apply Hstep; by left|].
  destruct (extract_text w (root ++ rel)) as [message|sections];
    apply Hstep.
  - cbn [trace emit record]. rewrite !elem_of_app, !list_elem_of_singleton.
    intros [[?| ->]| ->]; [by left|by right..].
  - intros [Hev|Hev]%scan_sections_trace; [|by right].
    cbn [trace record] in Hev.
    apply elem_of_app in Hev as [?| ->%list_elem_of_singleton];
      [by left|by right].
Qed.

Lemma entry_output_result_of rel r :
  r ∈ entry_output w root regex_search allowed_exts rel →
  eligible w root allowed_exts rel = true ∧ result_of rel r.
Proof.
  unfold entry_output. destruct (eligible _ _ _ rel); [|by intros ?%elem_of_nil].
  split; [done|].
  destruct (extract_text w (root ++ rel)) as [message|sections].
  - apply list_elem_of_singleton in H as ->. left. by exists message.
  - unfold file_matches in H. apply list_elem_of_bind in H as ([label text] & H & _).
    unfold section_matches in H. apply list_elem_of_fmap in H as (line & -> & _).
    right. by exists label, line.
Qed.

(** Every result line of the walk reports on an eligible entry. *)
Lemma walk_results_of st entries r :
  r ∈ results (files_loop st entries) →
  r ∈ results st
  ∨ ∃ rel, rel ∈ entries ∧ eligible w root allowed_exts rel = true
           ∧ result_of rel r.
Proof.
  rewrite walk_results. intros [?|Hr]%elem_of_app; [by left|right].
  apply elem_of_take in Hr as (i & Hr & _).
  apply list_elem_of_lookup_2, list_elem_of_bind in Hr as (rel & Hr & Hin).
  apply entry_output_result_of in Hr as [??]. by exists rel.
Qed.

End HiddenFacts.

(** ** docgrep: the claims *)



(** C7.  [docgrep] never extracts, searches or reports an entry of which
    a path component relative to the search root starts with a dot:
    every event of the walk and every result line is about an entry of
    the listing that is not hidden, and striking the hidden entries from
    the listing changes neither the results nor the trace. *)
Theorem docgrep_skips_hidden (w : world) (directory : str)
    (regex_search : str → bool) (file_types : option (list str))
    (max_results : Z) :
  let root := resolve w directory in
  let allowed := allowed_extensions file_types in
  let final := docgrep_walk w directory regex_search file_types max_results in
  (∀ rel, hidden rel = true
          ↔ ∃ part rest, part ∈ rel ∧ part = "."%char :: rest)
  ∧ (∀ ev, ev ∈ trace final →
           event_path ev ∈ sorted_rglob w root
           ∧ hidden (event_path ev) = false)
  ∧ (∀ r, r ∈ results final →
          ∃ rel, rel ∈ sorted_rglob w root ∧ hidden rel = false
                 ∧ result_of rel r)
  ∧ final
    = walk w root regex_search allowed max_results (GrepState [] [])
        (filter (λ rel, hidden rel = false) (sorted_rglob w root)).
Proof.
  intros root allowed final. split; [exact hidden_iff|]. split; [|split].
  - intros ev [[]%elem_of_nil|[Hin Hel]]%walk_trace.
    split; [done|]. by eapply eligible_not_hidden.
  - intros r [[]%elem_of_nil|(rel & Hin & Hel & Hr)]%walk_results_of.
    exists rel. split; [done|]. split; [|done].
    by eapply eligible_not_hidden.
  - apply walk_filter_hidden.
Qed.

Section RecoveryFacts.
Context (w : world) (root : path) (regex_search : str → bool).
Context (allowed_exts : gset str) (max_results : Z).

Lemma extracted_app tr1 tr2 :
  extracted (tr1 ++ tr2) = extracted tr1 ++ extracted tr2.
Proof. apply omap_app. Qed.

Lemma extracted_file_events rel sections :
  extracted (file_events rel sections) = [].
Proof.
  unfold file_events. induction sections as [|[label text] sections IH];
    [done|].
  rewrite bind_cons, extracted_app, IH, app_nil_r.
  unfold section_events. by induction (splitlines _).
Qed.

Lemma extracted_entry_events entries :
  Forall (λ rel, eligible w root allowed_exts rel = true) entries →
  extracted (entries ≫= entry_events w root allowed_exts) = entries.
Proof.
  induction 1 as [|rel entries Hrel _ IH]; [done|].
  rewrite bind_cons, extracted_app, IH. unfold entry_events. rewrite Hrel.
  destruct (extract_text w (root ++ rel)) as [message|sections]; [done|].
  change (extracted (Extract rel :: file_events rel sections))
    with (rel :: extracted (file_events rel sections)).
  by rewrite extracted_file_events.
Qed.

Lemma walk_error_step st rel message entries :
  cap_reached max_results st = false →
  eligible w root allowed_exts rel = true →
  extract_text w (root ++ rel) = inl message →
  walk w root regex_search allowed_exts max_results st (rel :: entries)
  = walk w root regex_search allowed_exts max_results
      (GrepState (results st ++ [path_str rel ++ py ":error:" ++ message])
         (trace st ++ [Extract rel; LogError rel message]))
      entries.
Proof.
  intros Hcap Hel Hex. cbn [walk]. rewrite Hcap, Hex.
  unfold eligible in Hel.
  apply andb_true_iff in Hel as [[-> ->]%andb_true_iff ->%negb_true_iff].
  cbn [negb]. unfold emit, record. cbn [results trace].
  by rewrite <- (assoc_L (++)).
Qed.

End RecoveryFacts.

(** C3.  A file whose extraction fails adds exactly one result line,
    "{relative path}:error:{message}", and the walk goes on with the next
    entry.  When one file of a listing fails, the others decode and the
    cap is out of reach, every file of the listing is extracted, every
    line of the files that decode is searched, and the results are the
    matches of the files before, the one error line, and the matches of
    the files after. *)
Theorem docgrep_recovers_per_file (w : world) (root : path)
    (regex_search : str → bool) (allowed_exts : gset str) (max_results : Z) :
  (∀ st rel message entries,
     cap_reached max_results st = false →
     eligible w root allowed_exts rel = true →
     extract_text w (root ++ rel) = inl message →
     walk w root regex_search allowed_exts max_results st (rel :: entries)
     = walk w root regex_search allowed_exts max_results
         (GrepState (results st ++ [path_str rel ++ py ":error:" ++ message])
            (trace st ++ [Extract rel; LogError rel message]))
         entries)
  ∧ (∀ before bad after message,
       forallb (scannable w root allowed_exts) (before ++ after) = true →
       eligible w root allowed_exts bad = true →
       extract_text w (root ++ bad) = inl message →
       (Z.of_nat (length ((before ++ bad :: after)
                            ≫= entry_output w root regex_search allowed_exts))
        < max_results)%Z →
       let final :=
         walk w root regex_search allowed_exts max_results (GrepState [] [])
           (before ++ bad :: after) in
       results final
       = (before ≫= entry_output w root regex_search allowed_exts)
           ++ (path_str bad ++ py ":error:" ++ message)
           :: (after ≫= entry_output w root regex_search allowed_exts)
       ∧ extracted (trace final) = before ++ bad :: after
       ∧ ∀ rel sections,
           rel ∈ before ++ after →
           extract_text w (root ++ rel) = inr sections →
           entry_output w root regex_search allowed_exts rel
           = file_matches regex_search rel sections
           ∧ ∀ ev, ev ∈ file_events rel sections → ev ∈ trace final).
Proof.
  split; [intros; by apply walk_error_step|].
  intros before bad after message Hothers Hbad Hex Hroom final.
  assert (Forall (λ rel, eligible w root allowed_exts rel = true)
            (before ++ bad :: after)) as Hel.
  { rewrite forallb_app in Hothers.
    apply andb_true_iff in Hothers as [Hb Ha].
    rewrite forallb_forall in Hb, Ha.
    apply Forall_app. split; [|constructor; [done|]]; apply Forall_forall;
      intros rel Hrel%list_elem_of_In.
    - by apply Hb, andb_true_iff in Hrel as [? _].
    - by apply Ha, andb_true_iff in Hrel as [? _]. }
  assert (final
          = GrepState
              ((before ++ bad :: after)
                 ≫= entry_output w root regex_search allowed_exts)
              ((before ++ bad :: after) ≫= entry_events w root allowed_exts))
    as Hfinal.
  { unfold final. by rewrite walk_uncapped. }
  rewrite Hfinal. cbn [results trace]. split; [|split].
  - rewrite bind_app, bind_cons. do 2 f_equal.
    unfold entry_output. by rewrite Hbad, Hex.
  - by apply extracted_entry_events.
  - intros rel sections Hin Hsections.
    assert (eligible w root allowed_exts rel = true) as Hrel.
    { rewrite Forall_forall in Hel. apply Hel.
      rewrite elem_of_app in Hin |- *. rewrite elem_of_cons. tauto. }
    split; [unfold entry_output; by rewrite Hrel, Hsections|].
    intros ev Hev. apply list_elem_of_bind. exists rel. split.
    + unfold entry_events. rewrite Hrel, Hsections. by right.
    + rewrite elem_of_app in Hin |- *. rewrite elem_of_cons. tauto.
Qed.

Lemma docgrep_recovers_per_file_witness :
  forallb (scannable sample_world [py "srv"] SUPPORTED_EXTENSIONS)
    (take 3 ten_files ++ drop 4 ten_files) = true
  ∧ eligible sample_world [py "srv"] SUPPORTED_EXTENSIONS [py "f3.pdf"] = true
  ∧ extract_text sample_world ([py "srv"] ++ [py "f3.pdf"])
    = inl (py "cannot open")
  ∧ (Z.of_nat
       (length ((take 3 ten_files ++ [py "f3.pdf"] :: drop 4 ten_files)
                  ≫= entry_output sample_world [py "srv"]
                       (PyStr.contains "m") SUPPORTED_EXTENSIONS))
     < 100)%Z
  ∧ extracted
      (trace (walk sample_world [py "srv"] (PyStr.contains "m")
                SUPPORTED_EXTENSIONS 100 (GrepState [] [])
                (take 3 ten_files ++ [py "f3.pdf"] :: drop 4 ten_files)))
    = take 3 ten_files ++ [py "f3.pdf"] :: drop 4 ten_files
  ∧ cap_reached 100 (GrepState [] []) = false
  ∧ walk sample_world [py "srv"] (PyStr.contains "m") SUPPORTED_EXTENSIONS
      100 (GrepState [] []) ([py "f3.pdf"] :: drop 4 ten_files)
    = walk sample_world [py "srv"] (PyStr.contains "m") SUPPORTED_EXTENSIONS
        100
        (GrepState [path_str [py "f3.pdf"] ++ py ":error:" ++ py "cannot open"]
           [Extract [py "f3.pdf"]; LogError [py "f3.pdf"] (py "cannot open")])
        (drop 4 ten_files).
Proof.
  assert (cap_reached 100 (GrepState [] []) = false) as H0 by reflexivity.
  assert (forallb (scannable sample_world [py "srv"] SUPPORTED_EXTENSIONS)
            (take 3 ten_files ++ drop 4 ten_files) = true) as H1
    by (vm_compute; reflexivity).
  assert (eligible sample_world [py "srv"] SUPPORTED_EXTENSIONS [py "f3.pdf"]
          = true) as H2 by (vm_compute; reflexivity).
  assert (extract_text sample_world ([py "srv"] ++ [py "f3.pdf"])
          = inl (py "cannot open")) as H3 by (vm_compute; reflexivity).
  assert (Z.of_nat
            (length ((take 3 ten_files ++ [py "f3.pdf"] :: drop 4 ten_files)
                       ≫= entry_output sample_world [py "srv"]
                            (PyStr.contains "m") SUPPORTED_EXTENSIONS))
          < 100)%Z as H4 by (vm_compute; reflexivity).
  split; [exact H1|]. split; [exact H2|]. split; [exact H3|].
  split; [exact H4|]. split; [|split; [exact H0|]].
  - exact (proj1 (proj2 (proj2 (docgrep_recovers_per_file sample_world
                                  [py "srv"] (PyStr.contains "m")
                                  SUPPORTED_EXTENSIONS 100)
                           _ _ _ _ H1 H2 H3 H4))).
  - exact (proj1 (docgrep_recovers_per_file sample_world [py "srv"]
                    (PyStr.contains "m") SUPPORTED_EXTENSIONS 100)
             (GrepState [] []) _ _ (drop 4 ten_files) H0 H2 H3).
Defined.

Lemma docgrep_skips_hidden_witness :
  Extract [py "f0.pdf"]
    ∈ trace (docgrep_walk sample_world (py "/srv") (PyStr.contains "m") None 1)
  ∧ [py "f0.pdf"] ∈ sorted_rglob sample_world (resolve sample_world (py "/srv"))
  ∧ hidden [py "f0.pdf"] = false.
Proof.
  assert (Extract [py "f0.pdf"]
            ∈ trace (docgrep_walk sample_world (py "/srv")
                       (PyStr.contains "m") None 1)) as H.
  { vm_compute. left. }
  split; [exact H|].
  exact (proj1 (proj2 (docgrep_skips_hidden sample_world (py "/srv")
                         (PyStr.contains "m") None 1)) _ H).
Defined.

(** ** The sample worlds at work *)

(** Lines 2 and 4 of a text document, and a sheet chosen by its name. *)
Example docread_sample :
  docread office_world (py "notes.DOCX") (Some (py "4,2"))
  = Ok (py "=== document lines 2-4 ===" ++ [PyStr.nl] ++ py "two"
          ++ [PyStr.nl] ++ py "four" ++ [PyStr.nl])
  ∧ docread office_world (py "book.xlsx") (Some (py "Costs:2"))
    = Ok (py "=== sheet 'Costs' rows 2-2 ===" ++ [PyStr.nl] ++ py "c2"
            ++ [PyStr.nl])
  ∧ docread office_world (py "book.xlsx") (Some (py "9"))
    = Ok (py "No text content found.")
  ∧ docread office_world (py "book.xlsx") (Some (py "1:x"))
    = Raised None
  ∧ docread office_world (py "notes.txt") None
    = Raised (Some (py "Unsupported file type: .txt. Supported: .docx, .epub, .odp, .ods, .odt, .pdf, .pptx, .rtf, .xlsx")).
Proof. repeat split; by vm_compute. Qed.

(** With a cap of three the walk stops inside the second file; the hidden
    directory, listed first, is passed over. *)
Example docgrep_sample_capped :
  docgrep sample_world (py "/srv") (py "m") false None 3
  = Ok (PyStr.join [PyStr.nl]
          [py "f0.pdf:page 1:alpha match"; py "f0.pdf:page 1:gamma match";
           py "f1.pdf:page 1:alpha match"])
  ∧ trace (docgrep_walk sample_world (py "/srv") (PyStr.contains "m") None 3)
    = [Extract [py "f0.pdf"];
       Search [py "f0.pdf"] (py "page 1") (py "alpha match");
       Search [py "f0.pdf"] (py "page 1") (py "beta");
       Search [py "f0.pdf"] (py "page 1") (py "gamma match");
       Extract [py "f1.pdf"];
       Search [py "f1.pdf"] (py "page 1") (py "alpha match")].
Proof. split; by vm_compute. Qed.

(** Without room for a single result nothing is extracted. *)
Example docgrep_sample_no_room :
  docgrep sample_world (py "/srv") (py "m") false None 0
  = Ok (py "No matches found.")
  ∧ docgrep sample_world (py "/srv") (py "m") false None (-1)
    = Ok (py "No matches found.")
  ∧ trace (docgrep_walk sample_world (py "/srv") (PyStr.contains "m") None 0)
    = [].
Proof. repeat split; by vm_compute. Qed.

(** The file that cannot be decoded is reported between its neighbours. *)
Example docgrep_sample_error_line :
  take 3 (drop 5
    (results (docgrep_walk sample_world (py "/srv") (PyStr.contains "m")
                None 100)))
  = [py "f2.pdf:page 1:gamma match"; py "f3.pdf:error:cannot open";
     py "f4.pdf:page 1:alpha match"].
Proof. by vm_compute. Qed.

(** A newline inside a label hides the digits after it from the regular
    expression, and a newline at the end of a label does not hide the
    digits before it. *)
Example extract_section_number_newline :
  extract_section_number (py "part" ++ [PyStr.nl] ++ py "5") = Some None
  ∧ extract_section_number (py "part 5" ++ [PyStr.nl]) = Some (Some 5%Z).
Proof. split; by vm_compute. Qed.

Example int_examples :
  PyStr.int (py " 42 ") = Some 42%Z
  ∧ PyStr.int (py "-7") = Some (-7)%Z
  ∧ PyStr.int (py "1_000") = Some 1000%Z
  ∧ PyStr.int (py "007") = Some 7%Z
  ∧ PyStr.int [] = None
  ∧ PyStr.int (py "4x") = None
  ∧ PyStr.int (py "- 4") = None
  ∧ PyStr.int ("028"%char :: py "5") = None
  ∧ PyStr.strip ("028"%char :: py "5") = py "5".
Proof. repeat split; by vm_compute. Qed.

Example splitlines_examples :
  splitlines (py "a" ++ [PyStr.nl] ++ py "b" ++ [PyStr.nl]) = [py "a"; py "b"]
  ∧ splitlines (py "a" ++ ["013"%char; PyStr.nl] ++ py "b") = [py "a"; py "b"]
  ∧ splitlines [] = []
  ∧ PyStr.split PyStr.nl (py "a" ++ [PyStr.nl]) = [py "a"; []].
Proof. repeat split; by vm_compute. Qed.

(** * Further properties *)

(** ** What [strip] and [split] keep *)

Section KeepFacts.
Import PyStr.

Lemma contains_true_iff c s : contains c s = true ↔ c ∈ s.
Proof.
  unfold contains. rewrite existsb_exists. split.
  - intros (a & Hin%list_elem_of_In & ->%Ascii.eqb_eq). done.
  - intros Hin. exists c. split; [by apply list_elem_of_In|apply Ascii.eqb_refl].
Qed.

Lemma contains_false_iff c s : contains c s = false ↔ c ∉ s.
Proof.
  rewrite <- contains_true_iff. by destruct (contains c s).
Qed.

Lemma drop_while_subseteq p s : drop_while p s ⊆ s.
Proof.
  induction s as [|c s IH]; [done|]. simpl.
  destruct (p c); [|done]. intros x Hx. right. by apply IH.
Qed.

Lemma strip_of_subseteq p s : strip_of p s ⊆ s.
Proof.
  unfold strip_of, rstrip_of, lstrip_of. intros c.
  rewrite elem_of_reverse. intros Hc%drop_while_subseteq.
  rewrite elem_of_reverse in Hc. by apply drop_while_subseteq in Hc.
Qed.

Lemma contains_strip_of c p s :
  contains c s = false → contains c (strip_of p s) = false.
Proof.
  rewrite !contains_false_iff. intros Hc Hin. by apply Hc, (strip_of_subseteq p).
Qed.

Lemma take_while_subseteq p s : take_while p s ⊆ s.
Proof.
  induction s as [|c s IH]; [done|]. simpl.
  destruct (p c); [|by intros x ?%elem_of_nil].
  intros x [->|Hx]%elem_of_cons; [left|right; by apply IH].
Qed.

Lemma take_while_Forall p s : Forall (λ c, p c = true) (take_while p s).
Proof.
  induction s as [|c s IH]; simpl; [constructor|].
  destruct (p c) eqn:Hc; by constructor.
Qed.

Lemma split_nonempty sep s : split sep s ≠ [].
Proof.
  destruct s as [|c s]; [done|]. simpl.
  destruct (Ascii.eqb c sep); [done|]. by destruct (split sep s).
Qed.

(** Every piece of a split is made of characters of the string. *)
Lemma split_subseteq sep s t : t ∈ split sep s → t ⊆ s.
Proof.
  revert t. induction s as [|c s IH]; intros t.
  { intros ->%list_elem_of_singleton. done. }
  simpl. destruct (Ascii.eqb c sep).
  - intros [->|Ht]%elem_of_cons; [by intros x ?%elem_of_nil|].
    intros x Hx. right. by apply (IH t).
  - destruct (split sep s) as [|w ws] eqn:E.
    + intros ->%list_elem_of_singleton. intros x ->%list_elem_of_singleton. left.
    + intros [->|Ht]%elem_of_cons.
      * intros x [->|Hx]%elem_of_cons; [left|right].
        apply (IH w); [left|done].
      * intros x Hx. right. apply (IH t); [by right|done].
Qed.

(** Joining what was split gives the string back. *)
Lemma join_split sep s : join [sep] (split sep s) = s.
Proof.
  induction s as [|c s IH]; [done|]. simpl.
  pose proof (split_nonempty sep s) as Hne.
  destruct (Ascii.eqb_spec c sep) as [->|Hc].
  - destruct (split sep s) as [|w ws]; [done|].
    change (join [sep] ([] :: w :: ws)) with (sep :: join [sep] (w :: ws)).
    by rewrite IH.
  - destruct (split sep s) as [|w ws]; [done|].
    rewrite <- IH. by destruct ws.
Qed.

End KeepFacts.

Lemma join_elem_of sep (parts : list str) part c :
  part ∈ parts → c ∈ part → c ∈ PyStr.join sep parts.
Proof.
  induction parts as [|p parts IH]; [by intros ?%elem_of_nil|].
  intros [->|Hin]%elem_of_cons Hc.
  - destruct parts; [done|]. cbn [PyStr.join]. apply elem_of_app. by left.
  - destruct parts as [|q parts]; [by apply elem_of_nil in Hin|].
    change (PyStr.join sep (p :: q :: parts))
      with (p ++ sep ++ PyStr.join sep (q :: parts)).
    rewrite !elem_of_app. right. right. by apply IH.
Qed.

(** ** More on [int] and on range parsing *)

Section IntFacts.
Import PyStr.

Lemma is_digit_val c : is_digit c = true → (0 ≤ digit_val c ≤ 9)%Z.
Proof. by destruct c as [[] [] [] [] [] [] [] []]. Qed.

Lemma int_digits_nonneg st acc s n :
  (0 ≤ acc)%Z → int_digits st acc s = Some n → (0 ≤ n)%Z.
Proof.
  revert st acc. induction s as [|c s IH]; intros st acc Hacc.
  - destruct st; intros [= <-]; done.
  - cbn [int_digits]. destruct (is_digit c) eqn:Hc.
    + apply IH. pose proof (is_digit_val c Hc). lia.
    + destruct (Ascii.eqb c "_"); [|done].
      destruct st; try done. by apply IH.
Qed.

Lemma int_literal_Some ds n :
  int_literal ds = Some n → int_digits IntStart 0 ds = Some n.
Proof. unfold int_literal. by case_bool_decide. Qed.

(** The three shapes of an integer literal. *)
Lemma int_cases s :
  (∃ ds, strip_of is_int_space s = "+"%char :: ds
         ∧ int s = int_literal ds)
  ∨ (∃ ds, strip_of is_int_space s = "-"%char :: ds
           ∧ int s = Z.opp <$> int_literal ds)
  ∨ int s = int_literal (strip_of is_int_space s).
Proof.
  unfold int. destruct (strip_of is_int_space s) as [|c ds]; [by right; right|].
  destruct c as [[] [] [] [] [] [] [] []]; eauto.
Qed.

(** Without a minus sign no negative number is read. *)
Lemma int_no_minus_nonneg s n :
  contains "-" s = false → int s = Some n → (0 ≤ n)%Z.
Proof.
  intros Hminus%(contains_strip_of _ is_int_space).
  destruct (int_cases s) as [(ds & _ & ->)|[(ds & E & _)| ->]].
  - intros H%int_literal_Some. by apply int_digits_nonneg in H.
  - rewrite E in Hminus. simpl in Hminus. done.
  - intros H%int_literal_Some. by apply int_digits_nonneg in H.
Qed.

Lemma drop_while_nil p s :
  drop_while p s = [] → Forall (λ c, p c = true) s.
Proof.
  induction s as [|c s IH]; [constructor|]. simpl.
  destruct (p c) eqn:Hc; [|done]. intros H. constructor; auto.
Qed.

Lemma drop_while_head p s d r : drop_while p s = d :: r → p d = false.
Proof.
  induction s as [|a s IH]; [done|]. simpl.
  destruct (p a) eqn:Ha; [done|]. by intros [= <- _].
Qed.

Lemma strip_of_nil p s : strip_of p s = [] → Forall (λ c, p c = true) s.
Proof.
  unfold strip_of, rstrip_of, lstrip_of. intros H.
  apply (f_equal reverse) in H. rewrite reverse_involutive in H.
  change (reverse []) with (@nil ascii) in H.
  apply drop_while_nil in H. rewrite Forall_reverse in H.
  destruct (drop_while p s) as [|d r] eqn:E; [by apply drop_while_nil|].
  apply drop_while_head in E. apply Forall_cons in H as [H _]. congruence.
Qed.

Lemma is_space_cases c :
  is_space c = true →
  is_digit c = false ∧ c ≠ "+"%char ∧ c ≠ "-"%char ∧ c ≠ "_"%char.
Proof. by destruct c as [[] [] [] [] [] [] [] []]. Qed.

(** A string of white space is no integer literal. *)
Lemma int_blank s : strip s = [] → int s = None.
Proof.
  intros Hblank%strip_of_nil. rewrite Forall_forall in Hblank.
  assert (∀ c t, strip_of is_int_space s = c :: t → is_space c = true) as Hhead.
  { intros c t E. apply Hblank, (strip_of_subseteq is_int_space). rewrite E. left. }
  destruct (int_cases s) as [(ds & E & _)|[(ds & E & _)| ->]].
  - by apply Hhead in E.
  - by apply Hhead in E.
  - destruct (strip_of is_int_space s) as [|c t].
    { unfold int_literal. by case_bool_decide. }
    destruct (is_space_cases c (Hhead c t eq_refl)) as (Hd & _ & _ & Hu).
    unfold int_literal. case_bool_decide; [|done].
    cbn [int_digits]. rewrite Hd.
    by apply Ascii.eqb_neq in Hu as ->.
Qed.

End IntFacts.

(** The limit of [int] at work: 4300 digits are read and 4301 are
    refused, leading zeros counted, in a range, at the end of a label and
    by the numbered policy. *)
Example int_digit_limit :
  PyStr.int (repeat "1"%char (Z.to_nat 4300)) ≠ None
  ∧ PyStr.int (repeat "1"%char (Z.to_nat 4301)) = None
  ∧ PyStr.int (repeat "0"%char (Z.to_nat 4301)) = None
  ∧ parse_numeric_range (repeat "1"%char (Z.to_nat 4301) ++ py "-3") = None
  ∧ extract_section_number (py "page " ++ repeat "1"%char (Z.to_nat 4301))
    = None
  ∧ filter_sections [(repeat "1"%char (Z.to_nat 4301), py "x")] (py "1")
      (py ".pdf")
    = None.
Proof. repeat split; by vm_compute. Qed.

Lemma strip_digits ds :
  Forall (λ c, PyStr.is_digit c = true) ds → PyStr.strip ds = ds.
Proof.
  intros Hd. apply strip_of_id; intros c Hc; apply is_digit_cases;
    eapply digits_head_last; eauto.
Qed.

(** A numeral that is not negative, of a number that [int] reads, is a
    token that adds its number. *)
Lemma numeric_part_numeral n :
  (0 ≤ n < 10 ^ PyStr.int_max_str_digits)%Z →
  numeric_part (PyStr.of_int n) = Some {[ n ]}.
Proof.
  intros Hn. destruct (of_int_digits n ltac:(lia)) as [Hne Hd].
  unfold numeric_part. rewrite (strip_digits _ Hd).
  rewrite (digits_contains _ "-" Hd) by done.
  rewrite int_of_int; [done|]. apply decimal_digits_limit. lia.
Qed.

Lemma numeric_part_nonneg part added j :
  numeric_part part = Some added → j ∈ added → (0 ≤ j)%Z.
Proof.
  unfold numeric_part. set (t := PyStr.strip part).
  destruct (PyStr.contains "-" t) eqn:Hminus.
  - unfold PyStr.split1.
    set (start := PyStr.take_while _ t).
    set (stop := drop 1 _).
    destruct (PyStr.int start) as [a|] eqn:Ha; [|done]. simpl.
    destruct (PyStr.int stop) as [b|]; [|done]. simpl.
    intros [= <-]. rewrite elem_of_list_to_set. unfold PyStr.range.
    rewrite elem_of_seqZ. intros [Hj _].
    assert (0 ≤ a)%Z; [|lia].
    apply (int_no_minus_nonneg start); [|done].
    apply contains_false_Forall.
    eapply Forall_impl; [apply take_while_Forall|].
    intros c Hc ->. by rewrite Ascii.eqb_refl in Hc.
  - destruct (PyStr.int t) as [n|] eqn:Hn; [|done]. simpl.
    intros [= <-] ->%elem_of_singleton.
    by apply (int_no_minus_nonneg t).
Qed.

Lemma mapM_numeric_part_nonneg parts added j :
  mapM numeric_part parts = Some added → j ∈ ⋃ added → (0 ≤ j)%Z.
Proof.
  revert added. induction parts as [|part parts IH]; intros added.
  { intros [= <-]. simpl. by intros ?%not_elem_of_empty. }
  simpl. destruct (numeric_part part) as [first|] eqn:Hpart; [|done]. simpl.
  destruct (mapM numeric_part parts) as [more|]; [|done]. simpl.
  intros [= <-]. simpl. intros [Hj|Hj]%elem_of_union.
  - by eapply numeric_part_nonneg.
  - by eapply IH.
Qed.

(** X1.  A parsed numeric range holds no negative number: a token is
    split at its first minus sign, so the number before it has no sign,
    and a range counts upwards from it. *)
Theorem parse_numeric_range_nonneg (s : str) (nums : gset Z) (j : Z) :
  parse_numeric_range s = Some nums → j ∈ nums → (0 ≤ j)%Z.
Proof.
  rewrite parse_numeric_range_union.
  destruct (mapM numeric_part _) as [added|] eqn:E; [|done].
  intros [= <-]. by eapply mapM_numeric_part_nonneg.
Qed.

Lemma parse_numeric_range_nonneg_witness :
  parse_numeric_range (py "0-2,7") = Some ({[ 0; 1; 2; 7 ]} : gset Z)%Z
  ∧ (2 ∈ ({[ 0; 1; 2; 7 ]} : gset Z))%Z
  ∧ (0 ≤ 2)%Z.
Proof.
  assert (parse_numeric_range (py "0-2,7") = Some ({[ 0; 1; 2; 7 ]} : gset Z)%Z)
    as H1 by by vm_compute.
  assert (2 ∈ ({[ 0; 1; 2; 7 ]} : gset Z))%Z as H2
    by (rewrite !elem_of_union, !elem_of_singleton; tauto).
  split; [exact H1|]. split; [exact H2|].
  exact (parse_numeric_range_nonneg _ _ _ H1 H2).
Defined.

Lemma mapM_numerals (l : list Z) :
  Forall (λ n, 0 ≤ n < 10 ^ PyStr.int_max_str_digits)%Z l →
  mapM numeric_part (PyStr.of_int <$> l) = Some ((λ n, {[ n ]}) <$> l).
Proof.
  induction 1 as [|n l Hn _ IH]; [done|].
  change (mapM numeric_part (PyStr.of_int <$> n :: l))
    with (y ← numeric_part (PyStr.of_int n);
          k ← mapM numeric_part (PyStr.of_int <$> l); Some (y :: k)).
  by rewrite (numeric_part_numeral n Hn), IH.
Qed.

Lemma union_list_singletons (l : list Z) :
  ⋃ ((λ n, {[ n ]}) <$> l) = (list_to_set l : gset Z).
Proof.
  induction l as [|n l IH]; [done|].
  change (⋃ ((λ n, {[ n ]}) <$> n :: l))
    with (({[ n ]} : gset Z) ∪ ⋃ ((λ n, {[ n ]}) <$> l)).
  by rewrite IH.
Qed.

(** X2.  Writing non-negative integers below [10^4300] (numerals of at
    most 4300 digits, the most that [int] reads) in decimal, joined by
    commas, and parsing the result gives back the set of these integers. *)
Theorem parse_numeric_range_numerals (l : list Z) :
  l ≠ [] → Forall (λ n, 0 ≤ n < 10 ^ PyStr.int_max_str_digits)%Z l →
  parse_numeric_range (PyStr.join (py ",") (PyStr.of_int <$> l))
  = Some (list_to_set l).
Proof.
  intros Hne Hl. rewrite parse_numeric_range_union.
  rewrite (split_join "," (PyStr.of_int <$> l)).
  - rewrite (mapM_numerals l Hl).
    change (Some (⋃ ((λ n, {[ n ]}) <$> l)) = Some (list_to_set l : gset Z)).
    by rewrite union_list_singletons.
  - by destruct l.
  - apply Forall_fmap. eapply Forall_impl; [exact Hl|].
    intros n [Hn _]. simpl. destruct (of_int_digits n Hn) as [_ Hd].
    by apply digits_contains.
Qed.

Lemma parse_numeric_range_numerals_witness :
  [12; 0; 7]%Z ≠ []
  ∧ Forall (λ n, 0 ≤ n < 10 ^ PyStr.int_max_str_digits)%Z [12; 0; 7]%Z
  ∧ parse_numeric_range (py "12,0,7") = Some (list_to_set [12; 0; 7]%Z).
Proof.
  assert (Forall (λ n, 0 ≤ n < 10 ^ PyStr.int_max_str_digits)%Z [12; 0; 7]%Z)
    as H by (repeat constructor; (lia || by vm_compute)).
  split; [done|]. split; [exact H|].
  exact (parse_numeric_range_numerals [12; 0; 7]%Z ltac:(done) H).
Defined.

(** X3.  A range with a blank token, so the empty string, a doubled,
    leading or trailing comma, or a token of white space, raises. *)
Theorem parse_numeric_range_blank_token (s token : str) :
  token ∈ PyStr.split "," s → PyStr.strip token = [] →
  parse_numeric_range s = None.
Proof.
  intros Hin Hblank. rewrite parse_numeric_range_union.
  assert (numeric_part token = None) as Htoken.
  { unfold numeric_part. rewrite Hblank. simpl.
    change (PyStr.int []) with (@None Z). done. }
  induction (PyStr.split "," s) as [|part parts IH]; [by apply elem_of_nil in Hin|].
  simpl. apply elem_of_cons in Hin as [<-|Hin]; [by rewrite Htoken|].
  destruct (numeric_part part); [|done]. simpl.
  specialize (IH Hin). by destruct (mapM numeric_part parts).
Qed.

Lemma parse_numeric_range_blank_token_witness :
  py " " ∈ PyStr.split "," (py "1, ,3") ∧ PyStr.strip (py " ") = []
  ∧ parse_numeric_range (py "1, ,3") = None
  ∧ parse_numeric_range [] = None.
Proof.
  assert (py " " ∈ PyStr.split "," (py "1, ,3")) as H1
    by (vm_compute; right; left).
  assert (PyStr.strip (py " ") = []) as H2 by reflexivity.
  split; [exact H1|]. split; [exact H2|]. split.
  - exact (parse_numeric_range_blank_token _ _ H1 H2).
  - apply (parse_numeric_range_blank_token [] []); [left|reflexivity].
Defined.

(** ** More on the section filter *)

Section NumberFacts.
Import PyStr LabelRegex.

Lemma digits_end_digits s g :
  digits_end s = Some g → g ≠ [] ∧ Forall (λ c, is_digit c = true) g.
Proof.
  revert g. induction s as [|c s IH]; intros g; [done|].
  cbn [digits_end]. destruct (is_digit c) eqn:Hc; [|done].
  destruct (digits_end s) as [g'|].
  - intros [= <-]. destruct (IH g' eq_refl) as [_ Hd].
    split; [done|]. by constructor.
  - destruct (at_end s); [|done]. intros [= <-].
    split; [done|]. by repeat constructor.
Qed.

Lemma search_digits s g :
  search s = Some g → g ≠ [] ∧ Forall (λ c, is_digit c = true) g.
Proof.
  induction s as [|c s IH]; [done|]. cbn [search].
  destruct (digits_end (c :: s)) as [g'|] eqn:E.
  - intros [= <-]. by apply digits_end_digits in E.
  - destruct (Ascii.eqb c nl); [done|]. exact IH.
Qed.

Lemma decimal_value_nonneg ds :
  Forall (λ c, is_digit c = true) ds → (0 ≤ decimal_value ds)%Z.
Proof.
  intros Hd. unfold decimal_value.
  assert (∀ acc, (0 ≤ acc)%Z →
            (0 ≤ foldl (λ acc c, 10 * acc + digit_val c) acc ds)%Z) as H;
    [|by apply H].
  induction Hd as [|c ds Hc _ IH]; intros acc Hacc; [done|].
  simpl. apply IH. pose proof (is_digit_val c Hc). lia.
Qed.

Lemma extract_section_number_value label :
  extract_section_number label
  = match search label with
    | Some g =>
        if bool_decide (Z.of_nat (length g) ≤ int_max_str_digits)%Z
        then Some (Some (decimal_value g))
        else None
    | None => Some None
    end.
Proof.
  unfold extract_section_number.
  destruct (search label) as [g|] eqn:E; [|done].
  destruct (search_digits _ _ E) as [Hne Hd].
  rewrite int_digit_string by done. case_bool_decide as Hlen.
  - rewrite (int_literal_digits _ Hd Hlen), (int_digits_value IntStart)
      by (done || by right).
    done.
  - rewrite int_literal_long; [done|done|lia].
Qed.

Lemma extract_section_number_readable label :
  readable_number label →
  extract_section_number label = Some (decimal_value <$> search label).
Proof.
  rewrite extract_section_number_value. unfold readable_number.
  destruct (search label) as [g|]; [|done]. intros Hlen.
  by rewrite bool_decide_eq_true_2.
Qed.

Lemma extract_section_number_None label :
  extract_section_number label = None ↔ ¬ readable_number label.
Proof.
  rewrite extract_section_number_value. unfold readable_number.
  destruct (search label) as [g|].
  - case_bool_decide as Hlen; split; [done|by intros ?|done|done].
  - split; [done|]. by intros H.
Qed.

End NumberFacts.

(** X4.  [extract_section_number] raises in one case only: the digits
    that the regular expression captures are more than 4300, which [int]
    refuses.  Otherwise it returns: [None] when the expression does not
    match, else the decimal value of the captured digits, a run that is
    not empty, and that value is not negative. *)
Theorem extract_section_number_outcome (label : str) :
  match LabelRegex.search label with
  | None => extract_section_number label = Some None
  | Some g =>
      g ≠ [] ∧ Forall (λ c, PyStr.is_digit c = true) g
      ∧ (0 ≤ decimal_value g)%Z
      ∧ extract_section_number label
        = if bool_decide (Z.of_nat (length g) ≤ PyStr.int_max_str_digits)%Z
          then Some (Some (decimal_value g))
          else None
  end
  ∧ (extract_section_number label = None ↔ ¬ readable_number label).
Proof.
  split; [|apply extract_section_number_None].
  rewrite extract_section_number_value.
  destruct (LabelRegex.search label) as [g|] eqn:E; [|done].
  destruct (search_digits _ _ E) as [Hne Hd].
  split; [done|]. split; [done|]. split; [|done].
  by apply decimal_value_nonneg.
Qed.

Lemma number_selected_alt nums label :
  readable_number label →
  number_selected nums label
  = match LabelRegex.search label with
    | Some g => bool_decide (decimal_value g ∈ nums)
    | None => false
    end.
Proof.
  intros Hr. unfold number_selected.
  rewrite (extract_section_number_readable _ Hr).
  by destruct (LabelRegex.search label).
Qed.

(** The numbered policy is a filter on the labels, and raises when [int]
    refuses the digits of one of them. *)
Lemma filter_numbered_total nums sections :
  filter_numbered nums sections
  = if decide (Forall (λ s : section, readable_number s.1) sections)
    then Some (filter (λ s : section, number_selected nums s.1 = true)
                 sections)
    else None.
Proof.
  induction sections as [|[label text] sections IH]; [done|].
  cbn [filter_numbered]. rewrite IH.
  destruct (decide (readable_number label)) as [Hr|Hr].
  - rewrite (extract_section_number_readable _ Hr). cbn [mbind option_bind].
    destruct (decide (Forall _ sections)) as [Hall|Hall].
    + rewrite decide_True by (by constructor).
      cbn [mbind option_bind]. rewrite filter_cons. cbn [fst].
      rewrite (number_selected_alt _ _ Hr).
      destruct (LabelRegex.search label) as [g|]; simpl.
      * by destruct (bool_decide (decimal_value g ∈ nums)).
      * done.
    + rewrite decide_False; [done|]. by intros [_ ?]%Forall_cons.
  - rewrite (proj2 (extract_section_number_None label) Hr).
    destruct (decide (Forall _ (_ :: sections))) as [H|H]; [|done].
    by apply Forall_cons in H as [? _].
Qed.

Lemma filter_sections_numbered_total sections range_str ext :
  line_addressed ext = false → sheet_addressed ext = false →
  filter_sections sections range_str ext
  = nums ← parse_numeric_range range_str;
    if decide (Forall (λ s : section, readable_number s.1) sections)
    then Some (None,
               filter (λ s : section, number_selected nums s.1 = true)
                 sections)
    else None.
Proof.
  intros Hline Hsheet. unfold filter_sections. rewrite Hline, Hsheet.
  destruct (parse_numeric_range range_str) as [nums|]; [|done]. simpl.
  rewrite filter_numbered_total. by case_decide.
Qed.

Lemma filter_sections_line_total sections range_str ext :
  line_addressed ext = true →
  filter_sections sections range_str ext
  = nums ← parse_numeric_range range_str;
    Some (None, omap (line_section nums) sections).
Proof.
  intros Hline. unfold filter_sections. rewrite Hline.
  destruct (parse_numeric_range range_str) as [nums|]; [|done]. simpl.
  by rewrite filter_lines_spec.
Qed.

Lemma filter_sections_sheet_total sections range_str ext :
  sheet_addressed ext = true →
  filter_sections sections range_str ext
  = sel ← parse_sheet_selector range_str;
    match row_range sel with
    | None => Some (None, chosen_sheets sel sections)
    | Some rows =>
        if decide (rows = ∅ ∧ chosen_sheets sel sections ≠ []) then None
        else Some (None, row_section rows <$> chosen_sheets sel sections)
    end.
Proof.
  intros Hsheet.
  destruct (parse_sheet_selector range_str) as [sel|] eqn:E.
  - by rewrite (filter_sections_sheet_addressed _ _ _ sel Hsheet E).
  - unfold filter_sections. by rewrite (sheet_not_line ext Hsheet), Hsheet, E.
Qed.

(** X5.  [filter_sections] raises for three reasons only.  Under the
    line policy it raises exactly when the range does not parse, whatever
    the sections are.  Under the numbered policy it raises exactly when
    the range does not parse or some label ends in more than 4300 digits,
    which [int] refuses.  Under the sheet policy it raises exactly when
    the selector does not parse, or its row range is empty and a sheet is
    chosen ([min] of an empty set). *)
Theorem filter_sections_raises :
  (∀ sections range_str ext,
     line_addressed ext = true →
     filter_sections sections range_str ext = None
     ↔ parse_numeric_range range_str = None)
  ∧ (∀ sections range_str ext,
       line_addressed ext = false → sheet_addressed ext = false →
       filter_sections sections range_str ext = None
       ↔ parse_numeric_range range_str = None
         ∨ ∃ s : section, s ∈ sections ∧ ¬ readable_number s.1)
  ∧ (∀ sections range_str ext,
       sheet_addressed ext = true →
       filter_sections sections range_str ext = None
       ↔ parse_sheet_selector range_str = None
         ∨ ∃ sel, parse_sheet_selector range_str = Some sel
                  ∧ row_range sel = Some ∅
                  ∧ chosen_sheets sel sections ≠ []).
Proof.
  split; [|split].
  - intros sections range_str ext Hline.
    rewrite (filter_sections_line_total _ _ _ Hline).
    by destruct (parse_numeric_range range_str).
  - intros sections range_str ext Hline Hsheet.
    rewrite (filter_sections_numbered_total _ _ _ Hline Hsheet).
    destruct (parse_numeric_range range_str) as [nums|]; [|by split; [left|]].
    cbn [mbind option_bind]. case_decide as Hall.
    + split; [done|]. intros [?|(s & Hin & Hs)]; [done|].
      rewrite Forall_forall in Hall. by apply Hall in Hin.
    + split; [|done]. intros _. right.
      apply not_Forall_Exists in Hall; [|apply _].
      apply Exists_exists in Hall as (s & Hin & Hs). by exists s.
  - intros sections range_str ext Hsheet.
    rewrite (filter_sections_sheet_total _ _ _ Hsheet).
    destruct (parse_sheet_selector range_str) as [sel|]; simpl.
    + destruct (row_range sel) as [rows|] eqn:Hrows.
      * case_decide as Hd.
        -- split; [|done]. intros _. right. exists sel.
           destruct Hd as [-> ?]. done.
        -- split; [done|]. intros [?|(sel' & [= <-] & Hr & Hc)]; [done|].
           rewrite Hrows in Hr. injection Hr as ->. by destruct Hd.
      * split; [done|]. intros [?|(sel' & [= <-] & Hr & _)]; [done|].
        by rewrite Hrows in Hr.
    + split; [by left|done].
Qed.

Lemma filter_sections_raises_witness :
  line_addressed (py ".docx") = true
  ∧ parse_numeric_range (py "1-x") = None
  ∧ filter_sections [(py "document", py "a")] (py "1-x") (py ".docx") = None
  ∧ sheet_addressed (py ".xlsx") = true
  ∧ filter_sections [(py "sheet 'A'", py "a")] (py "A:5-3") (py ".xlsx")
    = None.
Proof.
  assert (line_addressed (py ".docx") = true) as H1 by by vm_compute.
  assert (parse_numeric_range (py "1-x") = None) as H2 by by vm_compute.
  assert (sheet_addressed (py ".xlsx") = true) as H3 by by vm_compute.
  split; [exact H1|]. split; [exact H2|]. split.
  { exact (proj2 (proj1 filter_sections_raises _ _ _ H1) H2). }
  split; [exact H3|].
  apply (proj2 (proj2 filter_sections_raises) _ _ _ H3). right.
  exists (SheetSelector {[ py "A" ]} ∅ (Some ∅)).
  split; [by vm_compute|]. split; [done|]. by vm_compute.
Defined.

Lemma length_omap_le {A B} (f : A → option B) (l : list A) :
  length (omap f l) ≤ length l.
Proof.
  induction l as [|x l IH]; [done|].
  change (omap f (x :: l))
    with (match f x with Some y => y :: omap f l | None => omap f l end).
  destruct (f x); simpl; lia.
Qed.

Lemma chosen_sheets_length sel sections :
  length (chosen_sheets sel sections) ≤ length sections.
Proof.
  unfold chosen_sheets. rewrite length_fmap.
  etrans; [apply length_filter|].
  rewrite length_zip_with, length_seqZ. lia.
Qed.

(** X6.  Whenever [filter_sections] returns, the warning is [None] and
    there are no more sections than were given. *)
Theorem filter_sections_shrinks (sections : list section)
    (range_str ext : str) (warning : option str) (out : list section) :
  filter_sections sections range_str ext = Some (warning, out) →
  warning = None ∧ length out ≤ length sections.
Proof.
  destruct (sheet_addressed ext) eqn:Hsheet.
  - rewrite (filter_sections_sheet_total _ _ _ Hsheet).
    destruct (parse_sheet_selector range_str) as [sel|]; [|done]. simpl.
    pose proof (chosen_sheets_length sel sections).
    destruct (row_range sel) as [rows|].
    + case_decide; [done|]. intros [= <- <-].
      by rewrite length_fmap.
    + by intros [= <- <-].
  - destruct (line_addressed ext) eqn:Hline.
    + rewrite (filter_sections_line_total _ _ _ Hline).
      destruct (parse_numeric_range range_str) as [nums|]; [|done]. simpl.
      intros [= <- <-]. split; [done|apply length_omap_le].
    + rewrite (filter_sections_numbered_total _ _ _ Hline Hsheet).
      destruct (parse_numeric_range range_str) as [nums|]; [|done]. simpl.
      case_decide; [|done].
      intros [= <- <-]. split; [done|apply length_filter].
Qed.

Lemma filter_sections_shrinks_witness :
  filter_sections [(py "page 1", py "a"); (py "page 2", py "b")]
    (py "2-9") (py ".pdf")
  = Some (None, [(py "page 2", py "b")])
  ∧ (@None str = None ∧ length [(py "page 2", py "b")] ≤ 2).
Proof.
  assert (filter_sections [(py "page 1", py "a"); (py "page 2", py "b")]
            (py "2-9") (py ".pdf")
          = Some (None, [(py "page 2", py "b")])) as H by by vm_compute.
  split; [exact H|].
  exact (filter_sections_shrinks _ _ _ _ _ H).
Defined.

(** X7.  Under the numbered policy filtering composes: filtering by one
    range and then by another keeps the sections whose number is in both
    sets, so filtering twice by the same range changes nothing more.  The
    labels are such that [int] reads the digits that end them (at most
    4300 digits). *)
Theorem filter_sections_numbered_compose (sections : list section)
    (range1 range2 ext : str) (nums1 nums2 : gset Z) :
  line_addressed ext = false → sheet_addressed ext = false →
  parse_numeric_range range1 = Some nums1 →
  parse_numeric_range range2 = Some nums2 →
  Forall (λ s : section, readable_number s.1) sections →
  ∃ out1,
    filter_sections sections range1 ext = Some (None, out1)
    ∧ filter_sections out1 range2 ext
      = Some (None,
              filter (λ s : section, number_selected (nums1 ∩ nums2) s.1 = true)
                sections)
    ∧ filter_sections out1 range1 ext = Some (None, out1).
Proof.
  intros Hline Hsheet H1 H2 Hall.
  set (out1 := filter (λ s : section, number_selected nums1 s.1 = true)
                 sections).
  assert (Forall (λ s : section, readable_number s.1) out1) as Hout.
  { apply Forall_forall. intros s [_ Hs]%list_elem_of_filter.
    rewrite Forall_forall in Hall. by apply Hall. }
  exists out1.
  rewrite !(filter_sections_numbered_total _ _ _ Hline Hsheet), H1, H2.
  cbn [mbind option_bind]. rewrite !decide_True by done. unfold out1.
  split; [done|].
  assert (∀ nums : gset Z,
            filter (λ s : section, number_selected nums s.1 = true)
              (filter (λ s : section, number_selected nums1 s.1 = true) sections)
            = filter (λ s : section,
                        number_selected (nums1 ∩ nums) s.1 = true) sections)
    as Hboth.
  { intros nums. rewrite list_filter_filter. apply list_filter_iff.
    intros s. unfold number_selected.
    destruct (extract_section_number s.1) as [[n|]|];
      [|split; [by intros []|done]..].
    rewrite !bool_decide_eq_true, elem_of_intersection.
    split; [by intros []|by intros []]. }
  split; [by rewrite Hboth|].
  rewrite Hboth. by rewrite (idemp_L (∩)).
Qed.

Lemma filter_sections_numbered_compose_witness :
  ∃ out1,
    filter_sections
      [(py "page 1", py "a"); (py "page 2", py "b"); (py "page 3", py "c")]
      (py "1-2") (py ".pdf") = Some (None, out1)
    ∧ filter_sections out1 (py "2-3") (py ".pdf")
      = Some (None,
              filter (λ s : section,
                        number_selected (list_to_set [1; 2] ∩ list_to_set [2; 3])%Z
                          s.1 = true)
                [(py "page 1", py "a"); (py "page 2", py "b");
                 (py "page 3", py "c")])
    ∧ filter_sections out1 (py "1-2") (py ".pdf") = Some (None, out1).
Proof.
  apply filter_sections_numbered_compose;
    [reflexivity|reflexivity|by vm_compute|by vm_compute
    |repeat constructor; by vm_compute].
Defined.


(** ** Contiguous ranges *)

Lemma window_filter {A} (a b k : Z) (lines : list A) :
  (a ≤ b)%Z →
  (filter (λ p : Z * A, (a ≤ p.1 ≤ b)%Z)
     (zip (seqZ k (Z.of_nat (length lines))) lines)).*2
  = take (Z.to_nat (b - Z.max a k + 1))
      (drop (Z.to_nat (Z.max a k - k)) lines).
Proof.
  intros Hab. revert k. induction lines as [|x lines IH]; intros k.
  { by rewrite drop_nil, take_nil. }
  rewrite seqZ_cons by (simpl; lia).
  replace (Z.pred (Z.of_nat (length (x :: lines))))
    with (Z.of_nat (length lines)) by (simpl; lia).
  change (zip (k :: ?s) (x :: lines)) with ((k, x) :: zip s lines).
  rewrite filter_cons. cbn [fst].
  case_decide as Hk; [rewrite fmap_cons; cbn [snd]|]; rewrite (IH (Z.succ k)).
  - replace (Z.max a k) with k by lia.
    replace (Z.max a (Z.succ k)) with (Z.succ k) by lia.
    replace (Z.to_nat (k - k)) with 0 by lia.
    replace (Z.to_nat (Z.succ k - Z.succ k)) with 0 by lia.
    replace (Z.to_nat (b - k + 1)) with (S (Z.to_nat (b - Z.succ k + 1)))
      by lia.
    done.
  - destruct (decide (k < a)%Z) as [Hlt|Hge].
    + replace (Z.max a k) with a by lia.
      replace (Z.max a (Z.succ k)) with a by lia.
      replace (Z.to_nat (a - k)) with (S (Z.to_nat (a - Z.succ k))) by lia.
      done.
    + replace (Z.to_nat (b - Z.max a k + 1)) with 0 by lia.
      replace (Z.to_nat (b - Z.max a (Z.succ k) + 1)) with 0 by lia.
      done.
Qed.

Lemma lines_in_range_window (a b : Z) (lines : list str) :
  (1 ≤ a ≤ b)%Z →
  lines_in_range (list_to_set (PyStr.range a (b + 1))) lines
  = take (Z.to_nat (b - a + 1)) (drop (Z.to_nat (a - 1)) lines).
Proof.
  intros Hab. unfold lines_in_range, PyStr.range.
  pose proof (window_filter a b 1 lines ltac:(lia)) as Hw.
  replace (Z.max a 1) with a in Hw by lia. rewrite <- Hw.
  f_equal. apply list_filter_iff. intros [j line]. cbn [fst].
  rewrite elem_of_list_to_set, elem_of_seqZ. lia.
Qed.

Lemma requested_window (a b : Z) :
  (a ≤ b)%Z →
  requested_min (list_to_set (PyStr.range a (b + 1))) = a
  ∧ requested_max (list_to_set (PyStr.range a (b + 1))) = b.
Proof.
  intros Hab. set (nums := list_to_set (PyStr.range a (b + 1)) : gset Z).
  assert (∀ j, j ∈ nums ↔ (a ≤ j ≤ b)%Z) as Hin.
  { intros j. unfold nums, PyStr.range.
    rewrite elem_of_list_to_set, elem_of_seqZ. lia. }
  destruct (py_min_max_spec nums) as (lo & hi & Hlo & Hhi & Il & Ih & Hb).
  { intros He. assert (a ∈ nums) as Ha by (apply Hin; lia).
    rewrite He in Ha. by apply not_elem_of_empty in Ha. }
  unfold requested_min, requested_max. rewrite Hlo, Hhi. simpl.
  apply Hin in Il, Ih.
  assert (a ∈ nums) as Ha by (apply Hin; lia).
  assert (b ∈ nums) as Hb' by (apply Hin; lia).
  apply Hb in Ha, Hb'. lia.
Qed.

(** The window of lines a to b of a list of lines. *)
Lemma line_window_sections (label text ext : str) (a b : Z) :
  line_addressed ext = true → (1 ≤ a ≤ b)%Z →
  (b < 10 ^ PyStr.int_max_str_digits)%Z →
  filter_sections [(label, text)]
    (PyStr.of_int a ++ py "-" ++ PyStr.of_int b) ext
  = Some (None,
          if bool_decide (a ≤ Z.of_nat (length (PyStr.split PyStr.nl text)))%Z
          then [(relabel label "lines" a b,
                 PyStr.join [PyStr.nl]
                   (take (Z.to_nat (b - a + 1))
                      (drop (Z.to_nat (a - 1)) (PyStr.split PyStr.nl text))))]
          else []).
Proof.
  intros Hext Hab Hb.
  set (lines := PyStr.split PyStr.nl text).
  set (window := take (Z.to_nat (b - a + 1)) (drop (Z.to_nat (a - 1)) lines)).
  rewrite (filter_sections_line_addressed _ _ _ _ Hext (parse_window a b Hab Hb)).
  f_equal. f_equal. cbn [omap list_omap]. unfold line_section. cbn [fst snd].
  fold lines. rewrite lines_in_range_window by done. fold window.
  destruct (requested_window a b) as [-> ->]; [lia|].
  case_bool_decide as Hlen.
  + destruct window as [|l0 ls] eqn:Ew; [|done].
    exfalso. apply (f_equal length) in Ew. unfold window in Ew.
    rewrite length_take, length_drop in Ew. simpl in Ew. lia.
  + assert (window = []) as ->; [|done].
    unfold window. rewrite drop_ge by lia. apply take_nil.
Qed.

(** X8.  Under the line policy the range "a-b" with [1 <= a <= b], and
    [b] below [10^4300] so that [int] reads it, cuts the window of lines a
    to b out of every section that has a line a, under the label
    "{label} lines a-b"; a section with fewer than a lines is dropped.
    For a = 1 and b at least the number of lines the text comes back
    unchanged. *)
Theorem filter_sections_line_window (label text ext : str) (a b : Z) :
  line_addressed ext = true → (1 ≤ a ≤ b)%Z →
  (b < 10 ^ PyStr.int_max_str_digits)%Z →
  let lines := PyStr.split PyStr.nl text in
  let window := take (Z.to_nat (b - a + 1)) (drop (Z.to_nat (a - 1)) lines) in
  filter_sections [(label, text)]
    (PyStr.of_int a ++ py "-" ++ PyStr.of_int b) ext
  = Some (None,
          if bool_decide (a ≤ Z.of_nat (length lines))%Z
          then [(relabel label "lines" a b, PyStr.join [PyStr.nl] window)]
          else [])
  ∧ (a = 1%Z → (Z.of_nat (length lines) ≤ b)%Z →
     PyStr.join [PyStr.nl] window = text).
Proof.
  intros Hext Hab Hb lines window. split.
  - by apply line_window_sections.
  - intros -> Hlen. unfold window.
    change (Z.to_nat (1 - 1)) with 0. rewrite drop_0, take_ge by lia.
    apply join_split.
Qed.

Lemma filter_sections_line_window_witness :
  filter_sections [(py "document", (py "a" ++ [PyStr.nl] ++ py "b" ++ [PyStr.nl] ++ py "c"))] (PyStr.of_int 2 ++ py "-" ++ PyStr.of_int 9) (py ".odt")
  = Some (None, [(py "document lines 2-9", (py "b" ++ [PyStr.nl] ++ py "c"))]).
Proof.
  exact (proj1 (filter_sections_line_window (py "document") ((py "a" ++ [PyStr.nl] ++ py "b" ++ [PyStr.nl] ++ py "c")) (py ".odt") 2 9 eq_refl ltac:(lia) ltac:(by vm_compute))).
Defined.

(** ** More on the sheet selector *)

Lemma parse_sheet_parts_app sel parts1 parts2 :
  parse_sheet_parts sel (parts1 ++ parts2)
  = sel' ← parse_sheet_parts sel parts1; parse_sheet_parts sel' parts2.
Proof.
  revert sel. induction parts1 as [|part parts1 IH]; intros sel; [done|].
  cbn [app parse_sheet_parts].
  destruct (sheet_part sel part) as [sel'|]; [|done]. apply IH.
Qed.

(** A token without a colon never fails and leaves the row range alone. *)
Lemma sheet_part_plain sel part :
  PyStr.contains ":" (PyStr.strip_of is_quote (PyStr.strip part)) = false →
  ∃ sel', sheet_part sel part = Some sel' ∧ row_range sel' = row_range sel.
Proof.
  intros Hcolon. unfold sheet_part. rewrite Hcolon. cbn.
  destruct (PyStr.int _); [by eexists|].
  destruct (negb _); [by eexists|].
  destruct (parse_numeric_range _); by eexists.
Qed.

(** A token with a colon sets the row range to what follows the colon,
    and fails when that does not parse. *)
Lemma sheet_part_rows sel part :
  PyStr.contains ":" (PyStr.strip_of is_quote (PyStr.strip part)) = true →
  match parse_numeric_range
          (PyStr.split1 ":" (PyStr.strip_of is_quote (PyStr.strip part))).2 with
  | Some rows =>
      ∃ sel', sheet_part sel part = Some sel' ∧ row_range sel' = Some rows
  | None => sheet_part sel part = None
  end.
Proof.
  intros Hcolon. unfold sheet_part. rewrite Hcolon.
  destruct (PyStr.split1 _ _) as [sheet row_part]. cbn [snd].
  destruct (parse_numeric_range row_part) as [rows|]; [|done]. cbn.
  destruct (PyStr.int _); [by eexists|].
  destruct (negb _); [by eexists|].
  destruct (parse_numeric_range _); by eexists.
Qed.

Lemma parse_sheet_parts_plain sel parts :
  Forall (λ part,
            PyStr.contains ":" (PyStr.strip_of is_quote (PyStr.strip part))
            = false) parts →
  ∃ sel', parse_sheet_parts sel parts = Some sel'
          ∧ row_range sel' = row_range sel.
Proof.
  intros Hall. revert sel.
  induction Hall as [|part parts Hpart _ IH]; intros sel; [by eexists|].
  cbn [parse_sheet_parts].
  destruct (sheet_part_plain sel part Hpart) as (sel1 & -> & E1).
  destruct (IH sel1) as (sel2 & E & E2). exists sel2.
  split; [exact E|congruence].
Qed.

Lemma plain_tokens range_str :
  PyStr.contains ":" range_str = false →
  Forall (λ part,
            PyStr.contains ":" (PyStr.strip_of is_quote (PyStr.strip part))
            = false) (PyStr.split "," range_str).
Proof.
  intros Hcolon. apply Forall_forall. intros part Hpart.
  apply contains_strip_of, contains_strip_of.
  apply contains_false_iff. intros Hin.
  apply contains_false_iff in Hcolon. apply Hcolon.
  by apply (split_subseteq _ _ _ Hpart).
Qed.

Lemma chosen_sheets_sublist sel sections :
  chosen_sheets sel sections `sublist_of` sections.
Proof.
  unfold chosen_sheets.
  assert (sections = (zip (seqZ 1 (Z.of_nat (length sections))) sections).*2)
    as E.
  { symmetry. apply snd_zip. rewrite length_seqZ. lia. }
  rewrite E at 3. apply fmap_sublist, sublist_filter.
Qed.

(** X9.  A sheet selector without a colon never raises and sets no row
    range: on a spreadsheet [filter_sections] then returns some of the
    sheets, each with its label and text unchanged, in document order. *)
Theorem filter_sections_sheets_without_rows (sections : list section)
    (range_str ext : str) :
  sheet_addressed ext = true →
  PyStr.contains ":" range_str = false →
  ∃ sel out,
    parse_sheet_selector range_str = Some sel ∧ row_range sel = None
    ∧ filter_sections sections range_str ext = Some (None, out)
    ∧ out = chosen_sheets sel sections
    ∧ out `sublist_of` sections.
Proof.
  intros Hext Hcolon.
  destruct (parse_sheet_parts_plain (SheetSelector ∅ ∅ None)
              (PyStr.split "," range_str) (plain_tokens _ Hcolon))
    as (sel & Hsel & Hrows).
  exists sel, (chosen_sheets sel sections).
  split; [exact Hsel|]. split; [exact Hrows|]. split.
  - rewrite (filter_sections_sheet_addressed _ _ _ sel Hext Hsel).
    cbn in Hrows. by rewrite Hrows.
  - split; [done|apply chosen_sheets_sublist].
Qed.

Lemma filter_sections_sheets_without_rows_witness :
  ∃ sel out,
    parse_sheet_selector (py "Costs,-,1-x") = Some sel ∧ row_range sel = None
    ∧ filter_sections [(py "sheet 'Costs'", py "a"); (py "sheet '-'", py "b")]
        (py "Costs,-,1-x") (py ".ods") = Some (None, out)
    ∧ out = chosen_sheets sel
              [(py "sheet 'Costs'", py "a"); (py "sheet '-'", py "b")]
    ∧ out `sublist_of`
        [(py "sheet 'Costs'", py "a"); (py "sheet '-'", py "b")].
Proof.
  apply filter_sections_sheets_without_rows; reflexivity.
Defined.

(** X10.  A selector that [int()] reads as the number n (after the
    whitespace and the quotes around it are stripped) chooses by position
    only: the sheet at position n when there is one, no sheet otherwise,
    whatever the sheets are called.  A sheet whose name is a numeral can
    not be chosen by that name. *)
Theorem integer_selector_is_position (sections : list section)
    (range_str ext : str) (n : Z) :
  sheet_addressed ext = true →
  PyStr.contains "," range_str = false →
  PyStr.contains ":" range_str = false →
  PyStr.int (PyStr.strip_of is_quote (PyStr.strip range_str)) = Some n →
  filter_sections sections range_str ext
  = Some (None,
          if bool_decide (1 ≤ n)%Z
          then take 1 (drop (Z.to_nat (n - 1)) sections) else []).
Proof.
  intros Hext Hcomma Hcolon Hint.
  assert (parse_sheet_selector range_str
          = Some (SheetSelector ∅ (∅ ∪ {[ n ]}) None)) as Hsel.
  { unfold parse_sheet_selector. rewrite (split_no_sep _ _ Hcomma).
    assert (PyStr.contains ":"
              (PyStr.strip_of is_quote (PyStr.strip range_str)) = false) as Hc.
    { apply contains_strip_of. by apply contains_strip_of. }
    cbn [parse_sheet_parts]. unfold sheet_part.
    rewrite Hc. cbn. by rewrite Hint. }
  rewrite (filter_sections_sheet_addressed _ _ _ _ Hext Hsel).
  cbn [row_range]. f_equal. f_equal. unfold chosen_sheets. cbn [indices names].
  pose proof (window_filter n n 1 sections ltac:(lia)) as Hw.
  rewrite (list_filter_iff _ (λ p : Z * section, (n ≤ p.1 ≤ n)%Z)).
  2:{ intros [i s]. cbn [fst snd].
      rewrite elem_of_union, elem_of_singleton, !elem_of_empty. lia. }
  rewrite Hw. case_bool_decide as Hn.
  - replace (Z.max n 1) with n by lia.
    by replace (Z.to_nat (n - n + 1)) with 1 by lia.
  - replace (Z.to_nat (n - Z.max n 1 + 1)) with 0 by lia. done.
Qed.

Lemma integer_selector_is_position_witness :
  filter_sections [(py "sheet '2'", py "a"); (py "sheet 'Costs'", py "b")]
    (py " '2' ") (py ".xlsx")
  = Some (None, [(py "sheet 'Costs'", py "b")]).
Proof.
  apply (integer_selector_is_position
           [(py "sheet '2'", py "a"); (py "sheet 'Costs'", py "b")]
           (py " '2' ") (py ".xlsx") 2); reflexivity.
Defined.

(** X11.  The row range of a sheet selector is that of the last token with
    a colon: with tokens [before ++ part :: after], where [part] has a
    colon and no token of [after] has one, the parse succeeds only when
    what follows the first colon of [part] parses, and then that set is the
    row range, which [filter_sections] applies to every chosen sheet,
    also to those that other tokens name. *)
Theorem sheet_selector_last_rows (range_str : str)
    (before after : list str) (part : str) (sel : sheet_selector) :
  PyStr.split "," range_str = before ++ part :: after →
  PyStr.contains ":" (PyStr.strip_of is_quote (PyStr.strip part)) = true →
  Forall (λ p, PyStr.contains ":" (PyStr.strip_of is_quote (PyStr.strip p))
               = false) after →
  parse_sheet_selector range_str = Some sel →
  ∃ rows,
    parse_numeric_range
      (PyStr.split1 ":" (PyStr.strip_of is_quote (PyStr.strip part))).2
    = Some rows
    ∧ row_range sel = Some rows
    ∧ ∀ sections ext,
        sheet_addressed ext = true → rows ≠ ∅ →
        filter_sections sections range_str ext
        = Some (None, row_section rows <$> chosen_sheets sel sections).
Proof.
  intros Hsplit Hcolon Hafter Hsel. pose proof Hsel as Hparse.
  unfold parse_sheet_selector in Hsel.
  rewrite Hsplit, parse_sheet_parts_app in Hsel.
  destruct (parse_sheet_parts _ before) as [sel0|]; [|done].
  cbn [mbind option_bind parse_sheet_parts] in Hsel.
  pose proof (sheet_part_rows sel0 part Hcolon) as Hpart.
  destruct (parse_numeric_range _) as [rows|].
  2:{ by rewrite Hpart in Hsel. }
  destruct Hpart as (sel1 & E1 & Hrows1). rewrite E1 in Hsel.
  cbn [mbind option_bind] in Hsel.
  destruct (parse_sheet_parts_plain sel1 after Hafter) as (sel2 & E2 & Hrows2).
  rewrite E2 in Hsel. injection Hsel as <-.
  exists rows. split; [done|]. split; [congruence|].
  intros sections ext Hext Hne.
  rewrite (filter_sections_sheet_addressed _ _ _ sel2 Hext Hparse).
  rewrite Hrows2, Hrows1. rewrite decide_False; [done|]. by intros [? _].
Qed.

Lemma sheet_selector_last_rows_witness :
  ∃ rows,
    parse_numeric_range
      (PyStr.split1 ":" (PyStr.strip_of is_quote (PyStr.strip (py "B:2")))).2
    = Some rows
    ∧ row_range (SheetSelector {[ py "A"; py "B"; py "C" ]} ∅ (Some {[ 2%Z ]}))
      = Some rows
    ∧ ∀ sections ext,
        sheet_addressed ext = true → rows ≠ ∅ →
        filter_sections sections (py "A:1,B:2,C") ext
        = Some (None,
                row_section rows <$>
                  chosen_sheets
                    (SheetSelector {[ py "A"; py "B"; py "C" ]} ∅
                       (Some {[ 2%Z ]})) sections).
Proof.
  apply (sheet_selector_last_rows (py "A:1,B:2,C") [py "A:1"] [py "C"]
           (py "B:2")).
  - reflexivity.
  - reflexivity.
  - by repeat constructor.
  - by vm_compute.
Defined.


(** * The tools *)

(** ** Dispatch on the extension *)

Lemma supported_cases ext :
  ext ∈ SUPPORTED_EXTENSIONS
  ↔ ext ∈ [ py ".pdf"; py ".docx"; py ".pptx"; py ".xlsx"; py ".odt";
            py ".ods"; py ".odp"; py ".rtf"; py ".epub" ].
Proof. unfold SUPPORTED_EXTENSIONS. apply elem_of_list_to_set. Qed.

Lemma assoc_Some ext table f :
  assoc ext table = Some f → (ext, f) ∈ table.
Proof.
  induction table as [|[key g] table IH]; [done|]. cbn [assoc].
  case_decide as Hkey.
  - intros [= <-]. subst key. left.
  - intros H. right. by apply IH.
Qed.

Lemma assoc_is_Some ext table :
  is_Some (assoc ext table) ↔ ext ∈ table.*1.
Proof.
  induction table as [|[key g] table IH].
  { split; [by intros [? ?]|by intros ?%elem_of_nil]. }
  cbn [assoc]. rewrite fmap_cons, elem_of_cons. cbn [fst].
  case_decide as Hkey.
  - split; [intros _; by left|by eexists].
  - rewrite IH. split; [by right|]. by intros [?|?].
Qed.

Lemma extractor_supported ext :
  is_Some (extractor_of ext) ↔ ext ∈ SUPPORTED_EXTENSIONS.
Proof.
  unfold extractor_of. by rewrite assoc_is_Some, supported_cases.
Qed.

(** X12.  The dispatch table of [extract_text] has exactly the supported
    extensions as its keys.  So [extract_text] raises its own error
    "Unsupported file type: ..." exactly for a path whose lower-cased
    suffix is not supported, and is the outcome of one decoder
    otherwise; the suffix is compared in lower case. *)
Theorem extract_text_dispatch (w : world) (p : path) :
  let ext := PyStr.lower (path_suffix p) in
  (∀ e, e ∈ SUPPORTED_EXTENSIONS ↔ ∃ f, extractor_of e = Some f)
  ∧ (ext ∉ SUPPORTED_EXTENSIONS →
       extract_text w p = inl (py "Unsupported file type: " ++ ext))
  ∧ (ext ∈ SUPPORTED_EXTENSIONS →
       ∃ f, extractor_of ext = Some f ∧ extract_text w p = decode w f p).
Proof.
  intros ext. split; [|split].
  - intros e. by rewrite <- extractor_supported.
  - intros Hext. unfold extract_text. fold ext.
    destruct (extractor_of ext) as [f|] eqn:E; [|done].
    exfalso. by apply Hext, extractor_supported.
  - intros [f E]%extractor_supported. exists f. split; [done|].
    unfold extract_text. fold ext. by rewrite E.
Qed.

(** ** docread: the outcomes *)

Lemma join_nonempty sep (s : str) (parts : list str) :
  s ≠ [] → PyStr.join sep (s :: parts) ≠ [].
Proof.
  intros Hs. destruct s as [|c s]; [done|]. by destruct parts.
Qed.

Lemma render_nonempty warning (s : section) sections :
  render warning (s :: sections) ≠ [].
Proof.
  unfold render. destruct warning as [[|c wn]|]; by apply join_nonempty.
Qed.

Lemma truncation_notice_length : length truncation_notice = 67.
Proof. by vm_compute. Qed.

Lemma truncate_output_bound rendered :
  rendered ≠ [] →
  truncate_output rendered ≠ []
  ∧ (Z.of_nat (length (truncate_output rendered)) ≤ 40067)%Z
  ∧ ((Z.of_nat (length (truncate_output rendered)) ≤ 40000)%Z
     → truncate_output rendered = rendered).
Proof.
  intros Hne. unfold truncate_output, MAX_OUTPUT_CHARS.
  case_bool_decide as Hlong.
  - rewrite length_app, length_take, truncation_notice_length.
    split; [|split; [lia|lia]].
    intros [_ H]%app_eq_nil. by apply (f_equal length) in H.
  - split; [done|]. split; [lia|done].
Qed.

Lemma render_head (s : section) (sections : list section) :
  head (render None (s :: sections)) = Some "="%char.
Proof. unfold render. cbn [app map]. by destruct sections. Qed.

Lemma truncate_output_head rendered c :
  head rendered = Some c → head (truncate_output rendered) = Some c.
Proof.
  unfold truncate_output. case_bool_decide as Hlong; [|done].
  destruct rendered as [|d rendered]; [done|]. intros [= ->].
  by change (Z.to_nat MAX_OUTPUT_CHARS) with (S (Z.to_nat 39999)).
Qed.

Lemma docread_sections_warning w filepath range warning sections :
  docread_sections w filepath range = Ok (warning, sections) →
  warning = None
  ∧ is_file w (resolve w filepath) = true
  ∧ PyStr.lower (path_suffix (resolve w filepath)) ∈ SUPPORTED_EXTENSIONS.
Proof.
  unfold docread_sections.
  destruct (is_file w (resolve w filepath)); cbn [negb]; [|done].
  case_bool_decide as Hext; cbn [negb]; [|done].
  destruct (extract_text w _) as [message|found]; [done|].
  destruct range as [[|c r]|]; [by intros [= <- <-]| |by intros [= <- <-]].
  destruct (filter_sections found (c :: r) _) as [[wn out]|] eqn:Hf; [|done].
  intros [= <- <-]. split; [|done].
  destruct (sheet_addressed (PyStr.lower (path_suffix (resolve w filepath))))
    eqn:Hsheet.
  - rewrite (filter_sections_sheet_total _ _ _ Hsheet) in Hf.
    destruct (parse_sheet_selector (c :: r)) as [sel|]; [|done].
    cbn [mbind option_bind] in Hf.
    destruct (row_range sel); [case_decide; [done|]|]; by injection Hf as <- _.
  - destruct (line_addressed (PyStr.lower (path_suffix (resolve w filepath))))
      eqn:Hline.
    + rewrite (filter_sections_line_total _ _ _ Hline) in Hf.
      destruct (parse_numeric_range (c :: r)); [|done].
      by injection Hf as <- _.
    + rewrite (filter_sections_numbered_total _ _ _ Hline Hsheet) in Hf.
      destruct (parse_numeric_range (c :: r)); [|done].
      cbn [mbind option_bind] in Hf. case_decide; [|done].
      by injection Hf as <- _.
Qed.

(** X13.  Whenever [docread] returns, the file is a regular file with a
    supported suffix, and the text returned is not empty and has at most
    40067 characters (40000 and the notice).  The answer "No text content
    found." is not ambiguous: it is returned exactly when no section is
    left after the range filter; any other answer starts with "=".  An
    empty range is no range. *)
Theorem docread_returns (w : world) (filepath : str) (range : option str) :
  (∀ out, docread w filepath range = Ok out →
     is_file w (resolve w filepath) = true
     ∧ PyStr.lower (path_suffix (resolve w filepath)) ∈ SUPPORTED_EXTENSIONS
     ∧ out ≠ [] ∧ (Z.of_nat (length out) ≤ 40067)%Z
     ∧ ∃ sections,
         docread_sections w filepath range = Ok (None, sections)
         ∧ (out = py "No text content found." ↔ sections = [])
         ∧ (sections ≠ [] → head out = Some "="%char))
  ∧ docread w filepath (Some []) = docread w filepath None.
Proof.
  split; [|done]. intros out. unfold docread.
  destruct (docread_sections w filepath range) as [[warning sections]|]
    eqn:Hs; [|done].
  destruct (docread_sections_warning _ _ _ _ _ Hs) as (-> & Hfile & Hext).
  destruct sections as [|s sections]; intros [= <-].
  - split; [done|]. split; [done|]. split; [done|]. split; [cbn; lia|].
    by exists [].
  - destruct (truncate_output_bound (render None (s :: sections))
                (render_nonempty _ _ _)) as (Hne & Hlen & _).
    pose proof (truncate_output_head _ _ (render_head s sections)) as Hhead.
    split; [done|]. split; [done|]. split; [done|]. split; [done|].
    exists (s :: sections). split; [done|]. split; [|done].
    split; [|done]. intros E. by rewrite E in Hhead.
Qed.

(** ** docgrep: the outcomes *)

Lemma result_of_nonempty rel r : result_of rel r → r ≠ [].
Proof.
  intros [(message & ->)|(label & line & ->)] H;
    apply app_eq_nil in H as [_ H]; done.
Qed.

Lemma elem_of_entry_output w root regex_search allowed_exts rel r :
  r ∈ entry_output w root regex_search allowed_exts rel
  ↔ eligible w root allowed_exts rel = true
    ∧ ((∃ message, extract_text w (root ++ rel) = inl message
                   ∧ r = error_line rel message)
       ∨ (∃ sections label text line,
            extract_text w (root ++ rel) = inr sections
            ∧ (label, text) ∈ sections ∧ line ∈ splitlines text
            ∧ regex_search line = true
            ∧ r = match_line rel label line)).
Proof.
  unfold entry_output. destruct (eligible w root allowed_exts rel).
  2:{ split; [by intros ?%elem_of_nil|by intros [? _]]. }
  destruct (extract_text w (root ++ rel)) as [message|sections].
  - rewrite list_elem_of_singleton. split.
    + intros ->. split; [done|]. left. by exists message.
    + intros [_ [(m & [= <-] & ->)|(? & ? & ? & ? & ? & _)]]; done.
  - unfold file_matches. rewrite list_elem_of_bind. split.
    + intros ([label text] & Hr & Hin). unfold section_matches in Hr.
      apply list_elem_of_fmap in Hr as (line & -> & Hline).
      apply list_elem_of_filter in Hline as [Hm Hline].
      split; [done|]. right. by exists sections, label, text, line.
    + intros [_ [(m & ? & _)|(ss & label & text & line & [= <-] & Hin & Hline
                               & Hm & ->)]]; [done|].
      exists (label, text). split; [|done]. unfold section_matches.
      apply list_elem_of_fmap. exists line. split; [done|].
      by apply list_elem_of_filter.
Qed.

Lemma docgrep_walk_results w directory regex_search file_types max_results :
  results (docgrep_walk w directory regex_search file_types max_results)
  = take (Z.to_nat max_results)
      (sorted_rglob w (resolve w directory)
         ≫= entry_output w (resolve w directory) regex_search
              (allowed_extensions file_types)).
Proof.
  unfold docgrep_walk. rewrite walk_results. simpl.
  unfold room. simpl. by rewrite Nat.sub_0_r.
Qed.

Lemma result_of_colon rel r : result_of rel r → ":"%char ∈ r.
Proof.
  intros [(message & ->)|(label & line & ->)];
    rewrite !elem_of_app; right; left; left.
Qed.

(** X14.  Whenever [docgrep] returns, the root is a directory, the
    pattern has compiled, and the text returned is not empty.  The
    answer "No matches found." is not ambiguous: it is returned exactly
    when no result line was accumulated; any other answer is the result
    lines joined by newlines and holds a colon. *)
Theorem docgrep_returns (w : world) (directory pattern : str)
    (case_sensitive : bool) (file_types : option (list str))
    (max_results : Z) (out : str) :
  docgrep w directory pattern case_sensitive file_types max_results = Ok out →
  is_dir w (resolve w directory) = true
  ∧ out ≠ []
  ∧ ∃ regex_search,
      re_compile w pattern (negb case_sensitive) = inr regex_search
      ∧ let found :=
          results (docgrep_walk w directory regex_search file_types
                     max_results) in
        (out = py "No matches found." ↔ found = [])
        ∧ (found ≠ [] →
           out = PyStr.join [PyStr.nl] found ∧ ":"%char ∈ out).
Proof.
  unfold docgrep.
  destruct (is_dir w (resolve w directory)); cbn [negb]; [|done].
  destruct (re_compile w pattern (negb case_sensitive))
    as [e|regex_search] eqn:Hre; [done|].
  destruct (results _) as [|r rs] eqn:Hres.
  { intros [= <-]. split; [done|]. split; [done|]. exists regex_search.
    split; [done|]. cbn zeta. rewrite Hres. by split. }
  intros Hout.
  assert (out = PyStr.join [PyStr.nl] (r :: rs)) as -> by congruence.
  clear Hout.
  assert (":"%char ∈ r) as Hr.
  { assert (r ∈ results (docgrep_walk w directory regex_search file_types
                           max_results)) as Hin by (rewrite Hres; left).
    apply walk_results_of in Hin as [[]%elem_of_nil|(rel & _ & _ & Hin)].
    by eapply result_of_colon. }
  assert (":"%char ∈ PyStr.join [PyStr.nl] (r :: rs)) as Hcolon.
  { apply (join_elem_of _ _ r); [left|done]. }
  split; [done|]. split.
  { intros E. rewrite E in Hcolon. by apply elem_of_nil in Hcolon. }
  exists regex_search. split; [done|]. cbn zeta. rewrite Hres.
  split; [|done]. split; [|done].
  intros E. rewrite E in Hcolon. exfalso. revert Hcolon.
  rewrite <- contains_true_iff. by vm_compute.
Qed.

Lemma docgrep_returns_witness :
  docgrep sample_world (py "/srv") (py "m") false None 1
  = Ok (py "f0.pdf:page 1:alpha match")
  ∧ is_dir sample_world (resolve sample_world (py "/srv")) = true
  ∧ py "f0.pdf:page 1:alpha match" ≠ [].
Proof.
  assert (docgrep sample_world (py "/srv") (py "m") false None 1
          = Ok (py "f0.pdf:page 1:alpha match")) as H by by vm_compute.
  split; [exact H|].
  destruct (docgrep_returns _ _ _ _ _ _ _ H) as (Hdir & Hne & _).
  by split.
Defined.

(** X15.  Every result line of [docgrep] is true to the tree: it is the
    error line of a listed regular file of an allowed type, not hidden,
    whose decoder failed, or the line "path:label:stripped line" of a line
    that the pattern matches in a section of such a file.  When the
    results stay below [max_results], all such lines are there. *)
Theorem docgrep_sound_complete (w : world) (directory : str)
    (regex_search : str → bool) (file_types : option (list str))
    (max_results : Z) :
  let root := resolve w directory in
  let allowed := allowed_extensions file_types in
  let final := docgrep_walk w directory regex_search file_types max_results in
  let reported (r : str) :=
    ∃ rel, rel ∈ sorted_rglob w root
      ∧ is_file w (root ++ rel) = true
      ∧ PyStr.lower (path_suffix (root ++ rel)) ∈ allowed
      ∧ hidden rel = false
      ∧ ((∃ message, extract_text w (root ++ rel) = inl message
                     ∧ r = path_str rel ++ py ":error:" ++ message)
         ∨ (∃ sections label text line,
              extract_text w (root ++ rel) = inr sections
              ∧ (label, text) ∈ sections ∧ line ∈ splitlines text
              ∧ regex_search line = true
              ∧ r = path_str rel ++ py ":" ++ label ++ py ":"
                      ++ PyStr.strip line)) in
  (∀ r, r ∈ results final → reported r)
  ∧ ((Z.of_nat (length (results final)) < max_results)%Z →
     ∀ r, reported r → r ∈ results final).
Proof.
  intros root allowed final reported.
  assert (∀ r, reported r
               ↔ r ∈ sorted_rglob w root
                       ≫= entry_output w root regex_search allowed) as Hrep.
  { intros r. rewrite list_elem_of_bind. unfold reported.
    split.
    - intros (rel & Hin & Hfile & Hext & Hhid & Hr). exists rel.
      split; [|done]. apply elem_of_entry_output. split; [|exact Hr].
      unfold eligible. rewrite Hfile, Hhid.
      by rewrite bool_decide_eq_true_2.
    - intros (rel & [Hel Hr]%elem_of_entry_output & Hin). exists rel.
      unfold eligible in Hel.
      apply andb_true_iff in Hel as [[Hfile Hext%bool_decide_eq_true]%andb_true_iff
                                       Hhid%negb_true_iff].
      done. }
  pose proof (docgrep_walk_results w directory regex_search file_types
                max_results) as Hres.
  fold root allowed final in Hres. split.
  - intros r Hr. apply Hrep. rewrite Hres in Hr.
    apply elem_of_take in Hr as (i & Hr & _).
    by apply list_elem_of_lookup_2 in Hr.
  - intros Hroom r Hr%Hrep. rewrite Hres in Hroom |- *.
    rewrite length_take in Hroom. rewrite take_ge; [done|]. lia.
Qed.

(** X16.  Raising [max_results] only adds result lines at the end: the
    results under a cap are the first lines of the results under any
    greater cap. *)
Theorem docgrep_results_prefix (w : world) (directory : str)
    (regex_search : str → bool) (file_types : option (list str))
    (m n : Z) :
  (m ≤ n)%Z →
  results (docgrep_walk w directory regex_search file_types m)
  = take (Z.to_nat m)
      (results (docgrep_walk w directory regex_search file_types n)).
Proof.
  intros Hmn. rewrite !docgrep_walk_results, take_take.
  f_equal. lia.
Qed.

Lemma docgrep_results_prefix_witness :
  results (docgrep_walk sample_world (py "/srv") (PyStr.contains "m") None 2)
  = take (Z.to_nat 2)
      (results (docgrep_walk sample_world (py "/srv") (PyStr.contains "m")
                  None 5)).
Proof.
  apply docgrep_results_prefix. lia.
Defined.

(** ** docgrep: the file types *)

Lemma supported_dot ext :
  ext ∈ SUPPORTED_EXTENSIONS → PyStr.startswith (py ".") ext = true.
Proof.
  rewrite supported_cases, !elem_of_cons.
  intros H. repeat (destruct H as [->|H]; [done|]). by apply elem_of_nil in H.
Qed.

Lemma dotted_not_supported t :
  PyStr.startswith (py ".") t = true → py "." ++ t ∉ SUPPORTED_EXTENSIONS.
Proof.
  intros Ht. rewrite supported_cases, !elem_of_cons.
  intros H.
  repeat (destruct H as [E|H];
          [injection E as E; subst t; done|]).
  by apply elem_of_nil in H.
Qed.

(** X17.  The types that [docgrep] searches.  Without [file_types], or
    with an empty list, all supported extensions; otherwise the supported
    extensions that the list names, with their dot or without it, letter
    for letter (the names are not put in lower case). *)
Theorem allowed_extensions_spec (file_types : option (list str)) (ext : str) :
  ext ∈ allowed_extensions file_types
  ↔ ext ∈ SUPPORTED_EXTENSIONS
    ∧ match file_types with
      | None | Some [] => True
      | Some types => ∃ t, t ∈ types ∧ (t = ext ∨ py "." ++ t = ext)
      end.
Proof.
  destruct file_types as [[|t0 ts]|];
    [split; [by intros ?|by intros [? _]]|
    |split; [by intros ?|by intros [? _]]].
  unfold allowed_extensions.
  rewrite elem_of_intersection, elem_of_list_to_set.
  change (map ?f ?l) with (f <$> l). rewrite list_elem_of_fmap.
  split.
  - intros [(t & Ht & Hin) Hs]. split; [done|]. exists t. split; [done|].
    destruct (PyStr.startswith (py ".") t); [by left|by right].
  - intros [Hs (t & Hin & Ht)]. split; [|done]. exists t. split; [|done].
    destruct Ht as [->| <-].
    + by rewrite (supported_dot _ Hs).
    + destruct (PyStr.startswith (py ".") t) eqn:Hdot; [|done].
      by apply dotted_not_supported in Hdot.
Qed.

Lemma walk_nothing_eligible w root regex_search allowed_exts max_results
    entries :
  Forall (λ rel, eligible w root allowed_exts rel = false) entries →
  walk w root regex_search allowed_exts max_results (GrepState [] []) entries
  = GrepState [] [].
Proof.
  induction 1 as [|rel entries Hrel _ IH]; [done|].
  cbn [walk]. destruct (cap_reached _ _); [done|].
  unfold eligible in Hrel.
  destruct (is_file w (root ++ rel)); cbn [negb]; [|exact IH].
  case_bool_decide; cbn [negb]; [|exact IH].
  destruct (hidden rel); [exact IH|done].
Qed.

(** X18.  When [file_types] names no supported extension, with its dot
    or without it (a name in upper case such as "PDF" names none),
    [docgrep] opens no file and answers "No matches found.". *)
Theorem docgrep_unsupported_types (w : world) (directory pattern : str)
    (case_sensitive : bool) (types : list str) (max_results : Z)
    (regex_search : str → bool) :
  types ≠ [] →
  (∀ t, t ∈ types →
        (t ∉ SUPPORTED_EXTENSIONS) ∧ (py "." ++ t ∉ SUPPORTED_EXTENSIONS)) →
  is_dir w (resolve w directory) = true →
  re_compile w pattern (negb case_sensitive) = inr regex_search →
  docgrep w directory pattern case_sensitive (Some types) max_results
  = Ok (py "No matches found.")
  ∧ docgrep_walk w directory regex_search (Some types) max_results
    = GrepState [] [].
Proof.
  intros Hne Htypes Hdir Hre.
  assert (docgrep_walk w directory regex_search (Some types) max_results
          = GrepState [] []) as Hwalk.
  { unfold docgrep_walk. apply walk_nothing_eligible, Forall_forall.
    intros rel _. unfold eligible.
    rewrite bool_decide_eq_false_2; [by rewrite andb_false_r|].
    intros [Hs Ht]%allowed_extensions_spec.
    destruct types as [|t0 ts]; [done|].
    destruct Ht as (t & Hin & Ht). destruct (Htypes t Hin) as [H1 H2].
    destruct Ht as [Ht|Ht]; rewrite <- Ht in Hs; done. }
  split; [|exact Hwalk].
  unfold docgrep. by rewrite Hdir, Hre, Hwalk.
Qed.

Lemma docgrep_unsupported_types_witness :
  docgrep sample_world (py "/srv") (py "m") false
    (Some [py "PDF"; py "txt"]) 100
  = Ok (py "No matches found.")
  ∧ docgrep_walk sample_world (py "/srv") (PyStr.contains "m")
      (Some [py "PDF"; py "txt"]) 100
    = GrepState [] [].
Proof.
  apply docgrep_unsupported_types.
  - done.
  - intros t Ht.
    apply elem_of_cons in Ht as [->|Ht];
      [|apply list_elem_of_singleton in Ht as ->];
      split; apply (bool_decide_eq_false_1 _); by vm_compute.
  - reflexivity.
  - reflexivity.
Defined.

(** ** The names that a selector can hold *)

Lemma split_pieces_no_sep sep s t :
  t ∈ PyStr.split sep s → PyStr.contains sep t = false.
Proof.
  revert t. induction s as [|c s IH]; intros t.
  { by intros ->%list_elem_of_singleton. }
  cbn [PyStr.split]. destruct (Ascii.eqb c sep) eqn:Hc.
  - intros [->|Ht]%elem_of_cons; [done|by apply IH].
  - pose proof (split_nonempty sep s) as Hne.
    destruct (PyStr.split sep s) as [|w ws]; [done|].
    intros [->|Ht]%elem_of_cons.
    + cbn. rewrite (Ascii.eqb_sym sep c), Hc. apply IH. left.
    + apply IH. by right.
Qed.

Lemma split1_fst_no_sep sep s :
  PyStr.contains sep (PyStr.split1 sep s).1 = false
  ∧ (PyStr.split1 sep s).1 ⊆ s.
Proof.
  split; [|apply take_while_subseteq]. cbn [PyStr.split1 fst].
  apply contains_false_iff. intros Hin.
  pose proof (take_while_Forall (λ c, negb (Ascii.eqb c sep)) s) as Hall.
  rewrite Forall_forall in Hall. apply Hall in Hin.
  by rewrite Ascii.eqb_refl in Hin.
Qed.

Lemma sheet_part_names sel part sel' :
  PyStr.contains "," part = false →
  (∀ name, name ∈ names sel → plain_name name) →
  sheet_part sel part = Some sel' →
  ∀ name, name ∈ names sel' → plain_name name.
Proof.
  intros Hcomma Hsel. unfold sheet_part.
  set (token := PyStr.strip_of is_quote (PyStr.strip part)).
  assert (PyStr.contains "," token = false) as Htoken.
  { apply contains_strip_of. by apply contains_strip_of. }
  assert (∀ sheet rows,
            plain_name sheet →
            match PyStr.int sheet with
            | Some n =>
                Some (SheetSelector (names sel) (indices sel ∪ {[ n ]}) rows)
            | None =>
                if negb (PyStr.contains "-" sheet)
                then Some (SheetSelector (names sel ∪ {[ sheet ]})
                             (indices sel) rows)
                else match parse_numeric_range sheet with
                     | Some nums =>
                         Some (SheetSelector (names sel) (indices sel ∪ nums)
                                 rows)
                     | None =>
                         Some (SheetSelector (names sel ∪ {[ sheet ]})
                                 (indices sel) rows)
                     end
            end = Some sel' →
            ∀ name, name ∈ names sel' → plain_name name) as Hadd.
  { intros sheet rows Hsheet Hres name.
    assert (name ∈ names sel ∪ {[ sheet ]} → plain_name name) as Hnew.
    { intros [?| ->%elem_of_singleton]%elem_of_union; [by apply Hsel|done]. }
    destruct (PyStr.int sheet).
    { injection Hres as <-. apply Hsel. }
    destruct (negb _).
    { injection Hres as <-. apply Hnew. }
    destruct (parse_numeric_range sheet); injection Hres as <-;
      [apply Hsel|apply Hnew]. }
  destruct (PyStr.contains ":" token) eqn:Hcolon.
  - destruct (split1_fst_no_sep ":" token) as [Hno Hsub].
    destruct (PyStr.split1 ":" token) as [sheet row_part]. cbn [fst] in *.
    destruct (parse_numeric_range row_part) as [rows|]; [|done].
    cbn [mbind option_bind]. apply Hadd. split; [|done].
    apply contains_false_iff. intros Hin%Hsub.
    by apply contains_false_iff in Htoken.
  - cbn [mbind option_bind]. by apply Hadd.
Qed.

Lemma parse_sheet_parts_names sel parts sel' :
  Forall (λ part, PyStr.contains "," part = false) parts →
  (∀ name, name ∈ names sel → plain_name name) →
  parse_sheet_parts sel parts = Some sel' →
  ∀ name, name ∈ names sel' → plain_name name.
Proof.
  intros Hparts. revert sel.
  induction Hparts as [|part parts Hpart _ IH]; intros sel Hsel.
  { by intros [= <-]. }
  cbn [parse_sheet_parts].
  destruct (sheet_part sel part) as [sel1|] eqn:E; [|done].
  cbn [mbind option_bind]. apply IH.
  by apply (sheet_part_names sel part).
Qed.

(** X19.  A sheet selector never holds a name with a comma or a colon in
    it.  So a sheet whose name has a comma or a colon is chosen by its
    position only, never by its name. *)
Theorem sheet_names_plain (range_str : str) (sel : sheet_selector) :
  parse_sheet_selector range_str = Some sel →
  (∀ name, name ∈ names sel →
     PyStr.contains "," name = false ∧ PyStr.contains ":" name = false)
  ∧ (∀ i label,
       PyStr.contains "," (sheet_name label) = true
       ∨ PyStr.contains ":" (sheet_name label) = true →
       sheet_selected sel i label = true → i ∈ indices sel).
Proof.
  intros Hsel.
  assert (∀ name, name ∈ names sel → plain_name name) as Hnames.
  { apply (parse_sheet_parts_names (SheetSelector ∅ ∅ None)
             (PyStr.split "," range_str)); [| |exact Hsel].
    - apply Forall_forall. intros part. apply split_pieces_no_sep.
    - intros name []%elem_of_empty. }
  split; [exact Hnames|].
  intros i label Hmark [Hi|Hname]%sheet_selected_iff; [done|].
  destruct (Hnames _ Hname) as [H1 H2]. rewrite H1, H2 in Hmark.
  by destruct Hmark.
Qed.

Lemma sheet_names_plain_witness :
  (∀ name, name ∈ names (SheetSelector {[ py "Q1" ]} {[ 2%Z ]} (Some {[ 5%Z ]})) →
     PyStr.contains "," name = false ∧ PyStr.contains ":" name = false)
  ∧ (∀ i label,
       PyStr.contains "," (sheet_name label) = true
       ∨ PyStr.contains ":" (sheet_name label) = true →
       sheet_selected (SheetSelector {[ py "Q1" ]} {[ 2%Z ]} (Some {[ 5%Z ]}))
         i label = true →
       i ∈ indices (SheetSelector {[ py "Q1" ]} {[ 2%Z ]} (Some {[ 5%Z ]}))).
Proof.
  apply (sheet_names_plain (py "Q1:5,2")). by vm_compute.
Defined.

(** * The decoders *)

(** ** Text and white space *)

Lemma has_text_iff s :
  has_text s = true ↔ ∃ c, c ∈ s ∧ PyStr.is_space c = false.
Proof.
  unfold has_text. split.
  - destruct (PyStr.strip s) as [|d r] eqn:E; [done|]. intros _.
    unfold PyStr.strip, PyStr.strip_of, PyStr.rstrip_of in E.
    apply (f_equal reverse) in E. rewrite reverse_involutive in E.
    destruct (reverse (d :: r)) as [|e t] eqn:Er.
    { apply (f_equal reverse) in Er. rewrite reverse_involutive in Er.
      done. }
    exists e. split.
    + apply (strip_of_subseteq PyStr.is_space).
      unfold PyStr.strip_of, PyStr.rstrip_of.
      rewrite elem_of_reverse, E. left.
    + by apply drop_while_head in E.
  - intros (c & Hin & Hc).
    destruct (PyStr.strip s) as [|d r] eqn:E; [|done].
    apply strip_of_nil in E. rewrite Forall_forall in E.
    rewrite (E c Hin) in Hc. done.
Qed.

Lemma strip_head_last s c :
  head (PyStr.strip s) = Some c ∨ last (PyStr.strip s) = Some c →
  PyStr.is_space c = false.
Proof.
  unfold PyStr.strip, PyStr.strip_of, PyStr.rstrip_of, PyStr.lstrip_of.
  set (l := PyStr.drop_while PyStr.is_space s).
  intros [H|H].
  - rewrite head_reverse in H.
    destruct (PyStr.drop_while PyStr.is_space (reverse l)) as [|d r] eqn:E;
      [done|].
    assert (c ∈ d :: r) as Hin by by apply last_Some_elem_of.
    assert (d :: r `suffix_of` reverse l) as Hsuf.
    { rewrite <- E. clear. induction (reverse l) as [|a t IH]; [done|].
      simpl. destruct (PyStr.is_space a); [|done].
      by apply suffix_cons_r. }
    destruct (decide (r = [])) as [->|Hr].
    { apply list_elem_of_singleton in Hin as ->. by apply drop_while_head in E. }
    (* the last of the remainder is the last of [reverse l], the head of [l] *)
    destruct Hsuf as [pre Hpre].
    assert (last (reverse l) = Some c) as Hl.
    { rewrite Hpre, last_app, H. done. }
    rewrite last_reverse in Hl. unfold l in Hl.
    destruct (PyStr.drop_while PyStr.is_space s) as [|a t] eqn:El; [done|].
    injection Hl as <-. by apply drop_while_head in El.
  - rewrite last_reverse in H.
    destruct (PyStr.drop_while PyStr.is_space (reverse l)) as [|d r] eqn:E;
      [done|].
    injection H as <-. by apply drop_while_head in E.
Qed.

Lemma strip_idemp s : PyStr.strip (PyStr.strip s) = PyStr.strip s.
Proof.
  apply strip_of_id; intros c Hc; apply (strip_head_last s); auto.
Qed.

Lemma has_text_strip s : has_text (PyStr.strip s) = has_text s.
Proof. unfold has_text. by rewrite strip_idemp. Qed.

Lemma has_text_join sep (parts : list str) part :
  part ∈ parts → has_text part = true →
  has_text (PyStr.join sep parts) = true.
Proof.
  intros Hin (c & Hc & Hs)%has_text_iff. apply has_text_iff.
  exists c. split; [|done]. by eapply join_elem_of.
Qed.

Lemma has_text_lines sep (line : str) (lines : list str) :
  Forall (λ l, has_text l = true) (line :: lines) →
  has_text (PyStr.join sep (line :: lines)) = true.
Proof.
  intros [H _]%Forall_cons. apply (has_text_join _ _ line); [left|done].
Qed.

Lemma has_text_nonempty s : has_text s = true → s ≠ [].
Proof. by intros H ->. Qed.

Lemma text_lines_Forall paragraphs :
  Forall (λ l, has_text l = true) (text_lines paragraphs).
Proof. apply Forall_forall. by intros l [? _]%list_elem_of_filter. Qed.

Lemma table_lines_Forall rows :
  Forall (λ l, has_text l = true) (table_lines rows).
Proof. apply Forall_forall. by intros l [? _]%list_elem_of_filter. Qed.

(** ** Pages, slides and chapters *)

Section Positions.
Context {A : Type} (word : string) (text : A → option str).
Hypothesis word_line : PyStr.contains PyStr.nl (py word) = false.

Local Abbreviation entry :=
  (λ p : Z * A, (λ t, (numbered word p.1, t)) <$> text p.2).

Lemma numbered_no_newline i :
  (0 ≤ i)%Z → PyStr.contains PyStr.nl (numbered word i) = false.
Proof.
  intros Hi. unfold numbered. rewrite !contains_app, word_line.
  destruct (of_int_digits i Hi) as [_ Hd].
  by rewrite (digits_contains _ _ Hd).
Qed.

Lemma numbered_selected (i k : Z) :
  (0 ≤ i)%Z →
  label_selected {[ k ]} (numbered word i) = bool_decide (i = k).
Proof.
  intros Hi. unfold label_selected, numbered.
  rewrite (label_number_position _ _ Hi).
  apply bool_decide_ext. by rewrite elem_of_singleton.
Qed.

Lemma positions_no_newline (i : Z) (items : list A) :
  (0 ≤ i)%Z →
  Forall (λ s : section, PyStr.contains PyStr.nl s.1 = false)
    (omap entry (zip (seqZ i (Z.of_nat (length items))) items)).
Proof.
  revert i. induction items as [|x items IH]; intros i Hi; [constructor|].
  rewrite seqZ_cons by (simpl; lia).
  replace (Z.pred (Z.of_nat (length (x :: items))))
    with (Z.of_nat (length items)) by (simpl; lia).
  change (zip (i :: ?s) (x :: items)) with ((i, x) :: zip s items).
  change (omap entry ((i, x) :: ?l))
    with (match entry (i, x) with Some y => y :: omap entry l
                             | None => omap entry l end).
  cbn [fst snd]. specialize (IH (Z.succ i) ltac:(lia)).
  destruct (text x); cbn [fmap option_fmap option_map]; [|done].
  constructor; [|done]. by apply numbered_no_newline.
Qed.

Lemma positions_readable (i : Z) (items : list A) :
  (0 ≤ i)%Z →
  (i + Z.of_nat (length items) ≤ 10 ^ PyStr.int_max_str_digits)%Z →
  Forall (λ s : section, readable_number s.1)
    (omap entry (zip (seqZ i (Z.of_nat (length items))) items)).
Proof.
  revert i. induction items as [|x items IH]; intros i Hi Hn; [constructor|].
  rewrite seqZ_cons by (simpl; lia).
  replace (Z.pred (Z.of_nat (length (x :: items))))
    with (Z.of_nat (length items)) by (simpl; lia).
  change (zip (i :: ?s) (x :: items)) with ((i, x) :: zip s items).
  change (omap entry ((i, x) :: ?l))
    with (match entry (i, x) with Some y => y :: omap entry l
                             | None => omap entry l end).
  cbn [fst snd].
  specialize (IH (Z.succ i) ltac:(lia) ltac:(simpl in Hn; lia)).
  destruct (text x); cbn [fmap option_fmap option_map]; [|done].
  constructor; [|done]. apply (readable_position (py word) i word_line).
  simpl in Hn. lia.
Qed.

Lemma positions_selected (k i : Z) (items : list A) :
  (0 ≤ i)%Z →
  filter (λ s : section, label_selected {[ k ]} s.1 = true)
    (omap entry (zip (seqZ i (Z.of_nat (length items))) items))
  = if bool_decide (i ≤ k)%Z
    then match items !! Z.to_nat (k - i) with
         | Some item =>
             match text item with
             | Some t => [(numbered word k, t)]
             | None => []
             end
         | None => []
         end
    else [].
Proof.
  revert i. induction items as [|x items IH]; intros i Hi.
  { by case_bool_decide. }
  rewrite seqZ_cons by (simpl; lia).
  replace (Z.pred (Z.of_nat (length (x :: items))))
    with (Z.of_nat (length items)) by (simpl; lia).
  change (zip (i :: ?s) (x :: items)) with ((i, x) :: zip s items).
  change (omap entry ((i, x) :: ?l))
    with (match entry (i, x) with Some y => y :: omap entry l
                             | None => omap entry l end).
  cbn [fst snd]. specialize (IH (Z.succ i) ltac:(lia)).
  assert (filter (λ s : section, label_selected {[ k ]} s.1 = true)
            (omap entry (zip (seqZ (Z.succ i) (Z.of_nat (length items))) items))
          = if bool_decide (i < k)%Z
            then match (x :: items) !! Z.to_nat (k - i) with
                 | Some item =>
                     match text item with
                     | Some t => [(numbered word k, t)]
                     | None => []
                     end
                 | None => []
                 end
            else []) as Hrest.
  { rewrite IH. case_bool_decide as H1; case_bool_decide as H2; try lia;
      [|done].
    replace (Z.to_nat (k - i)) with (S (Z.to_nat (k - Z.succ i))) by lia.
    done. }
  clear IH.
  set (tail := omap entry (zip (seqZ (Z.succ i) (Z.of_nat (length items)))
                             items)) in *.
  destruct (text x) as [t|] eqn:Hx; cbn [fmap option_fmap option_map].
  - rewrite filter_cons. cbn [fst]. rewrite (numbered_selected _ _ Hi).
    destruct (decide (i = k)) as [->|Hik].
    + rewrite bool_decide_eq_true_2 by done. rewrite decide_True by done.
      rewrite bool_decide_eq_false_2 in Hrest by lia.
      rewrite bool_decide_eq_true_2 by lia.
      replace (Z.to_nat (k - k)) with 0 by lia. cbn [lookup list_lookup].
      rewrite Hx. f_equal. exact Hrest.
    + rewrite (bool_decide_eq_false_2 (i = k)) by done.
      rewrite decide_False by done.
      etrans; [exact Hrest|].
      case_bool_decide as H1; case_bool_decide as H2; try lia; done.
  - etrans; [exact Hrest|].
    case_bool_decide as H1; case_bool_decide as H2; try lia; try done.
    assert (i = k) as -> by lia.
    replace (Z.to_nat (k - k)) with 0 by lia. cbn. by rewrite Hx.
Qed.

Lemma parse_numeral k :
  (0 ≤ k < 10 ^ PyStr.int_max_str_digits)%Z →
  parse_numeric_range (PyStr.of_int k) = Some {[ k ]}.
Proof.
  intros Hk. unfold parse_numeric_range.
  destruct (of_int_digits k ltac:(lia)) as [_ Hd].
  rewrite split_no_sep by by apply digits_contains.
  cbn [parse_numeric_parts]. rewrite (numeric_part_numeral _ Hk).
  cbn. by rewrite (left_id_L ∅ (∪)).
Qed.

Lemma by_position_selected (items : list A) (k : Z) (ext : str) :
  numbered_label ext = true →
  (Z.of_nat (length items) < 10 ^ PyStr.int_max_str_digits)%Z →
  (1 ≤ k < 10 ^ PyStr.int_max_str_digits)%Z →
  filter_sections (by_position word text items) (PyStr.of_int k) ext
  = Some (None, at_position word text items k).
Proof.
  intros Hext Hn Hk. unfold by_position, at_position.
  rewrite (filter_sections_numbered_label _ _ _ {[ k ]} Hext).
  - rewrite positions_selected by lia.
    by rewrite bool_decide_eq_true_2 by lia.
  - apply parse_numeral. lia.
  - apply positions_no_newline. lia.
  - apply positions_readable; lia.
Qed.

End Positions.

Lemma pdf_pages_by_position (i : Z) (pages : list str) :
  pdf_pages i pages
  = omap (λ p : Z * str, (λ t, (numbered "page" p.1, t)) <$> page_text p.2)
      (zip (seqZ i (Z.of_nat (length pages))) pages).
Proof.
  revert i. induction pages as [|page pages IH]; intros i; [done|].
  rewrite seqZ_cons by (simpl; lia).
  replace (Z.pred (Z.of_nat (length (page :: pages))))
    with (Z.of_nat (length pages)) by (simpl; lia).
  change (zip (i :: ?s) (page :: pages)) with ((i, page) :: zip s pages).
  cbn [pdf_pages omap list_omap fst snd]. unfold page_text at 1.
  rewrite <- (IH (Z.succ i)). replace (i + 1)%Z with (Z.succ i) by lia.
  by destruct (PyStr.strip page).
Qed.

(** X20.  [extract_pdf] gives the pages that have text, each under
    "page i" with i its position among all pages of the file, and with its
    text stripped and not empty.  So the range "k" of [filter_sections]
    returns page k of the file when that page has text, and nothing
    otherwise, however many pages before it are blank (k and the number
    of pages below [10^4300], so that [int] reads every number). *)
Theorem extract_pdf_pages (pages : list str) :
  extract_pdf pages = by_position "page" page_text pages
  ∧ ((Z.of_nat (length pages) < 10 ^ PyStr.int_max_str_digits)%Z →
     ∀ k, (1 ≤ k < 10 ^ PyStr.int_max_str_digits)%Z →
       filter_sections (extract_pdf pages) (PyStr.of_int k) (py ".pdf")
       = Some (None, at_position "page" page_text pages k))
  ∧ Forall (λ s : section, s.2 ≠ [] ∧ PyStr.strip s.2 = s.2)
      (extract_pdf pages).
Proof.
  assert (extract_pdf pages = by_position "page" page_text pages) as E
    by apply pdf_pages_by_position.
  split; [exact E|]. split.
  - intros Hn k Hk. rewrite E. by apply by_position_selected.
  - clear E. unfold extract_pdf. generalize 1%Z.
    induction pages as [|page pages IH]; intros i; [constructor|].
    cbn [pdf_pages]. destruct (PyStr.strip page) as [|c t] eqn:Hp; [apply IH|].
    constructor; [|apply IH]. cbn [snd]. split; [done|].
    rewrite <- Hp. apply strip_idemp.
Qed.

Lemma lines_text_has_text lines t :
  Forall (λ l, has_text l = true) lines →
  lines_text lines = Some t → has_text t = true.
Proof.
  destruct lines as [|l lines]; [done|]. intros Hall H.
  assert (t = PyStr.join [PyStr.nl] (l :: lines)) as ->
    by (unfold lines_text in H; congruence).
  by apply has_text_lines.
Qed.

Lemma pptx_slides_by_position (i : Z) (slides : list (list pptx_shape)) :
  pptx_slides i slides
  = omap (λ p : Z * list pptx_shape,
            (λ t, (numbered "slide" p.1, t)) <$> slide_text p.2)
      (zip (seqZ i (Z.of_nat (length slides))) slides).
Proof.
  revert i. induction slides as [|shapes slides IH]; intros i; [done|].
  rewrite seqZ_cons by (simpl; lia).
  replace (Z.pred (Z.of_nat (length (shapes :: slides))))
    with (Z.of_nat (length slides)) by (simpl; lia).
  change (zip (i :: ?s) (shapes :: slides)) with ((i, shapes) :: zip s slides).
  cbn [pptx_slides omap list_omap fst snd]. unfold slide_text at 1.
  rewrite <- (IH (Z.succ i)). replace (i + 1)%Z with (Z.succ i) by lia.
  by destruct (shapes ≫= shape_lines).
Qed.

Lemma shape_lines_Forall (shapes : list pptx_shape) :
  Forall (λ l, has_text l = true) (shapes ≫= shape_lines).
Proof.
  apply Forall_forall. intros l (shape & Hl & _)%list_elem_of_bind.
  unfold shape_lines in Hl. apply elem_of_app in Hl as [Hl|Hl].
  - destruct (text_frame shape); [|by apply elem_of_nil in Hl].
    by apply list_elem_of_filter in Hl as [? _].
  - destruct (shape_table shape); [|by apply elem_of_nil in Hl].
    by apply list_elem_of_filter in Hl as [? _].
Qed.

Lemma by_position_Forall {A} word (text : A → option str) (P : str → Prop)
    (items : list A) :
  (∀ item t, item ∈ items → text item = Some t → P t) →
  Forall (λ s : section, P s.2) (by_position word text items).
Proof.
  intros HP. apply Forall_forall. intros [label t] Hin.
  apply list_elem_of_omap in Hin as ([i item] & Hin & Hs).
  cbn [fst snd] in Hs. destruct (text item) as [t'|] eqn:Ht; [|done].
  injection Hs as _ <-. apply (HP item); [|done].
  apply elem_of_zip_r in Hin. done.
Qed.

(** X21.  [extract_pptx] gives the slides that have text, each under
    "slide i" with i its position among all slides; the text is the lines
    with text of the slide's shapes, for each shape its paragraphs and then
    the rows of its table.  The range "k" of [filter_sections] returns
    slide k of the file when it has text, and nothing otherwise (k and
    the number of slides below [10^4300]). *)
Theorem extract_pptx_slides (slides : list (list pptx_shape)) :
  extract_pptx slides = by_position "slide" slide_text slides
  ∧ ((Z.of_nat (length slides) < 10 ^ PyStr.int_max_str_digits)%Z →
     ∀ k, (1 ≤ k < 10 ^ PyStr.int_max_str_digits)%Z →
       filter_sections (extract_pptx slides) (PyStr.of_int k) (py ".pptx")
       = Some (None, at_position "slide" slide_text slides k))
  ∧ Forall (λ s : section, has_text s.2 = true) (extract_pptx slides).
Proof.
  assert (extract_pptx slides = by_position "slide" slide_text slides) as E
    by apply pptx_slides_by_position.
  split; [exact E|]. split.
  - intros Hn k Hk. rewrite E. by apply by_position_selected.
  - rewrite E. apply (by_position_Forall _ _ (λ t, has_text t = true)).
    intros shapes t _. apply lines_text_has_text, shape_lines_Forall.
Qed.

Lemma odp_pages_by_position (i : Z) (pages : list (list str)) :
  odp_pages i pages
  = omap (λ p : Z * list str,
            (λ t, (numbered "slide" p.1, t)) <$> odp_text p.2)
      (zip (seqZ i (Z.of_nat (length pages))) pages).
Proof.
  revert i. induction pages as [|paragraphs pages IH]; intros i; [done|].
  rewrite seqZ_cons by (simpl; lia).
  replace (Z.pred (Z.of_nat (length (paragraphs :: pages))))
    with (Z.of_nat (length pages)) by (simpl; lia).
  change (zip (i :: ?s) (paragraphs :: pages))
    with ((i, paragraphs) :: zip s pages).
  cbn [odp_pages omap list_omap fst snd]. unfold odp_text at 1.
  rewrite <- (IH (Z.succ i)). replace (i + 1)%Z with (Z.succ i) by lia.
  by destruct (text_lines paragraphs).
Qed.

(** X22.  [extract_odp] gives the pages that have a paragraph with text,
    each under "slide i" with i its position among all pages of the
    presentation; the range "k" of [filter_sections] returns page k when
    it has text, and nothing otherwise (k and the number of pages below
    [10^4300]). *)
Theorem extract_odp_slides (pages : list (list str)) :
  extract_odp pages = by_position "slide" odp_text pages
  ∧ ((Z.of_nat (length pages) < 10 ^ PyStr.int_max_str_digits)%Z →
     ∀ k, (1 ≤ k < 10 ^ PyStr.int_max_str_digits)%Z →
       filter_sections (extract_odp pages) (PyStr.of_int k) (py ".odp")
       = Some (None, at_position "slide" odp_text pages k))
  ∧ Forall (λ s : section, has_text s.2 = true) (extract_odp pages).
Proof.
  assert (extract_odp pages = by_position "slide" odp_text pages) as E
    by apply odp_pages_by_position.
  split; [exact E|]. split.
  - intros Hn k Hk. rewrite E. by apply by_position_selected.
  - rewrite E. apply (by_position_Forall _ _ (λ t, has_text t = true)).
    intros paragraphs t _. apply lines_text_has_text, text_lines_Forall.
Qed.

Lemma epub_chapters_by_position package (i : Z) (ids : list (option str)) :
  epub_chapters package i ids
  = omap (λ p : Z * option str,
            (λ t, (numbered "chapter" p.1, t)) <$> chapter_text package p.2)
      (zip (seqZ i (Z.of_nat (length ids))) ids).
Proof.
  revert i. induction ids as [|idref ids IH]; intros i; [done|].
  rewrite seqZ_cons by (simpl; lia).
  replace (Z.pred (Z.of_nat (length (idref :: ids))))
    with (Z.of_nat (length ids)) by (simpl; lia).
  change (zip (i :: ?s) (idref :: ids)) with ((i, idref) :: zip s ids).
  cbn [epub_chapters omap list_omap fst snd]. unfold chapter_text at 1.
  rewrite <- (IH (Z.succ i)). replace (i + 1)%Z with (Z.succ i) by lia.
  destruct (manifest_get _ idref) as [[|c href]|]; [done| |done].
  destruct (archive package _) as [html|]; [|done].
  cbn [mbind option_bind]. by destruct (chapter_lines html).
Qed.

Lemma chapter_lines_Forall html :
  Forall (λ l, has_text l = true ∧ PyStr.strip l = l) (chapter_lines html).
Proof.
  unfold chapter_lines. apply Forall_fmap, Forall_forall.
  intros l [Hl _]%list_elem_of_filter. cbn.
  by rewrite has_text_strip, strip_idemp.
Qed.

(** X23.  [extract_epub] gives the chapters that have text, each under
    "chapter i" with i the position of its entry in the spine, counting
    the entries that are skipped (no manifest item, no href, no such
    member, no text).  The range "k" of [filter_sections] returns the
    chapter of spine entry k when it has text, and nothing otherwise (k
    and the length of the spine below [10^4300]). *)
Theorem extract_epub_chapters (package : epub_package) :
  extract_epub package
  = by_position "chapter" (chapter_text package) (spine_ids package)
  ∧ ((Z.of_nat (length (spine_ids package))
      < 10 ^ PyStr.int_max_str_digits)%Z →
     ∀ k, (1 ≤ k < 10 ^ PyStr.int_max_str_digits)%Z →
       filter_sections (extract_epub package) (PyStr.of_int k) (py ".epub")
       = Some (None,
               at_position "chapter" (chapter_text package)
                 (spine_ids package) k))
  ∧ Forall (λ s : section, has_text s.2 = true) (extract_epub package).
Proof.
  assert (extract_epub package
          = by_position "chapter" (chapter_text package) (spine_ids package))
    as E by apply epub_chapters_by_position.
  split; [exact E|]. split.
  - intros Hn k Hk. rewrite E. by apply by_position_selected.
  - rewrite E. apply (by_position_Forall _ _ (λ t, has_text t = true)).
    intros idref t _. unfold chapter_text.
    destruct (manifest_get _ idref) as [[|c href]|]; [done| |done].
    destruct (archive package _) as [html|]; [|done].
    cbn [mbind option_bind]. apply lines_text_has_text.
    eapply Forall_impl; [apply chapter_lines_Forall|]. by intros l [? _].
Qed.

(** ** Whole documents *)

Lemma whole_document_shape (parts : list str) :
  Forall (λ l, has_text l = true) parts →
  length (whole_document parts) ≤ 1
  ∧ Forall (λ s : section, s.1 = py "document" ∧ has_text s.2 = true)
      (whole_document parts).
Proof.
  intros Hall. destruct parts as [|part parts].
  { split; [simpl; lia|constructor]. }
  split; [simpl; lia|]. constructor; [|constructor].
  split; [done|]. by apply has_text_lines.
Qed.

Lemma whole_document_window (parts : list str) (ext : str) (a b : Z) :
  line_addressed ext = true →
  Forall (λ l, PyStr.contains PyStr.nl l = false) parts →
  (1 ≤ a ≤ b)%Z → (b < 10 ^ PyStr.int_max_str_digits)%Z →
  filter_sections (whole_document parts)
    (PyStr.of_int a ++ py "-" ++ PyStr.of_int b) ext
  = Some (None,
          if bool_decide (a ≤ Z.of_nat (length parts))%Z
          then [(relabel (py "document") "lines" a b,
                 PyStr.join [PyStr.nl]
                   (take (Z.to_nat (b - a + 1))
                      (drop (Z.to_nat (a - 1)) parts)))]
          else []).
Proof.
  intros Hext Hnl Hab Hb. destruct parts as [|part parts].
  - rewrite bool_decide_eq_false_2 by (simpl; lia).
    by rewrite (filter_sections_line_addressed _ _ _ _ Hext
                  (parse_window a b Hab Hb)).
  - cbn [whole_document].
    rewrite (line_window_sections _ _ _ _ _ Hext Hab Hb).
    by rewrite split_join.
Qed.

(** X24.  [extract_docx] gives at most one section, "document", whose
    text is not blank: the paragraphs with text, then the rows with text
    of the tables, one per line.  When none of them holds a newline, the
    lines that [filter_sections] counts are these paragraphs and rows:
    the range "a-b" returns those from the a-th to the b-th (b below
    [10^4300]). *)
Theorem extract_docx_lines (doc : docx_document) :
  length (extract_docx doc) ≤ 1
  ∧ Forall (λ s : section, s.1 = py "document" ∧ has_text s.2 = true)
      (extract_docx doc)
  ∧ (Forall (λ l, PyStr.contains PyStr.nl l = false) (docx_lines doc) →
     ∀ a b, (1 ≤ a ≤ b)%Z → (b < 10 ^ PyStr.int_max_str_digits)%Z →
       filter_sections (extract_docx doc)
         (PyStr.of_int a ++ py "-" ++ PyStr.of_int b) (py ".docx")
       = Some (None,
               if bool_decide (a ≤ Z.of_nat (length (docx_lines doc)))%Z
               then [(py "document lines " ++ PyStr.of_int a ++ py "-"
                        ++ PyStr.of_int b,
                      PyStr.join [PyStr.nl]
                        (take (Z.to_nat (b - a + 1))
                           (drop (Z.to_nat (a - 1)) (docx_lines doc))))]
               else [])).
Proof.
  assert (Forall (λ l, has_text l = true) (docx_lines doc)) as Hall.
  { apply Forall_app. split; [apply text_lines_Forall|].
    apply Forall_forall. intros l (rows & Hl & _)%list_elem_of_bind.
    by apply list_elem_of_filter in Hl as [? _]. }
  destruct (whole_document_shape _ Hall) as [H1 H2].
  split; [exact H1|]. split; [exact H2|].
  intros Hnl a b Hab Hb.
  exact (whole_document_window (docx_lines doc) (py ".docx") a b eq_refl Hnl
           Hab Hb).
Qed.

Lemma extract_docx_lines_witness :
  filter_sections
    (extract_docx
       (DocxDocument [py "Title"; py "  "; py "Body"]
          [[[py " a "; py "b"]; [py " "; []]; [py "c"; py "d"]]]))
    (PyStr.of_int 2 ++ py "-" ++ PyStr.of_int 3) (py ".docx")
  = Some (None, [(py "document lines 2-3", (py "Body" ++ [PyStr.nl] ++ py "a" ++ [tab] ++ py "b"))]).
Proof.
  apply (proj2 (proj2 (extract_docx_lines
           (DocxDocument [py "Title"; py "  "; py "Body"]
              [[[py " a "; py "b"]; [py " "; []]; [py "c"; py "d"]]]))));
    [by repeat constructor|lia|by vm_compute].
Defined.

(** X25.  [extract_odt] gives at most one section, "document", whose text
    is not blank: the paragraphs with text, one per line.  When none of
    them holds a newline, the range "a-b" of [filter_sections] returns the
    a-th to the b-th of these paragraphs (b below [10^4300]). *)
Theorem extract_odt_lines (paragraphs : list str) :
  length (extract_odt paragraphs) ≤ 1
  ∧ Forall (λ s : section, s.1 = py "document" ∧ has_text s.2 = true)
      (extract_odt paragraphs)
  ∧ (Forall (λ l, PyStr.contains PyStr.nl l = false) (text_lines paragraphs) →
     ∀ a b, (1 ≤ a ≤ b)%Z → (b < 10 ^ PyStr.int_max_str_digits)%Z →
       filter_sections (extract_odt paragraphs)
         (PyStr.of_int a ++ py "-" ++ PyStr.of_int b) (py ".odt")
       = Some (None,
               if bool_decide (a ≤ Z.of_nat (length (text_lines paragraphs)))%Z
               then [(py "document lines " ++ PyStr.of_int a ++ py "-"
                        ++ PyStr.of_int b,
                      PyStr.join [PyStr.nl]
                        (take (Z.to_nat (b - a + 1))
                           (drop (Z.to_nat (a - 1)) (text_lines paragraphs))))]
               else [])).
Proof.
  destruct (whole_document_shape _ (text_lines_Forall paragraphs)) as [H1 H2].
  split; [exact H1|]. split; [exact H2|].
  intros Hnl a b Hab Hb.
  exact (whole_document_window (text_lines paragraphs) (py ".odt") a b
           eq_refl Hnl Hab Hb).
Qed.

Lemma extract_odt_lines_witness :
  filter_sections (extract_odt [py "one"; py " "; py "two"; py "three"])
    (PyStr.of_int 2 ++ py "-" ++ PyStr.of_int 9) (py ".odt")
  = Some (None, [(py "document lines 2-9", (py "two" ++ [PyStr.nl] ++ py "three"))]).
Proof.
  apply (proj2 (proj2 (extract_odt_lines
           [py "one"; py " "; py "two"; py "three"])));
    [by repeat constructor|lia|by vm_compute].
Defined.

Lemma splitlines_from_no_break (n : nat) (cur s : str) :
  length s ≤ n →
  Forall (λ c, is_linebreak c = false) cur →
  Forall (Forall (λ c, is_linebreak c = false)) (splitlines_from cur s).
Proof.
  revert cur s. induction n as [|n IH]; intros cur s Hlen Hcur.
  { destruct s; [|simpl in Hlen; lia]. simpl.
    destruct cur; [constructor|]. repeat constructor.
    by apply Forall_reverse. }
  destruct s as [|c s].
  { simpl. destruct cur; [constructor|]. repeat constructor.
    by apply Forall_reverse. }
  cbn [splitlines_from]. simpl in Hlen.
  destruct (is_linebreak c) eqn:Hc.
  - constructor; [by apply Forall_reverse|].
    destruct s as [|d s]; [constructor|].
    destruct (_ && _); apply IH; simpl in *; try lia; constructor.
  - apply IH; [lia|]. by constructor.
Qed.

Lemma splitlines_no_newline s :
  Forall (λ l, PyStr.contains PyStr.nl l = false) (splitlines s).
Proof.
  eapply Forall_impl;
    [apply (splitlines_from_no_break (length s) [] s); [lia|constructor]|].
  intros l Hl. apply contains_false_iff. intros Hin.
  rewrite Forall_forall in Hl. by apply Hl in Hin.
Qed.

(** X26.  [extract_rtf] gives at most one section, "document", whose text
    is not blank: the lines with text of the converted text, one per
    line.  These are the lines that [filter_sections] counts: the range
    "a-b" returns the a-th to the b-th line with text (b below
    [10^4300]). *)
Theorem extract_rtf_lines (converted : str) :
  let lines := filter (λ l, has_text l = true) (splitlines converted) in
  extract_rtf converted = whole_document lines
  ∧ length (extract_rtf converted) ≤ 1
  ∧ Forall (λ s : section, s.1 = py "document" ∧ has_text s.2 = true)
      (extract_rtf converted)
  ∧ (∀ a b, (1 ≤ a ≤ b)%Z → (b < 10 ^ PyStr.int_max_str_digits)%Z →
       filter_sections (extract_rtf converted)
         (PyStr.of_int a ++ py "-" ++ PyStr.of_int b) (py ".rtf")
       = Some (None,
               if bool_decide (a ≤ Z.of_nat (length lines))%Z
               then [(py "document lines " ++ PyStr.of_int a ++ py "-"
                        ++ PyStr.of_int b,
                      PyStr.join [PyStr.nl]
                        (take (Z.to_nat (b - a + 1))
                           (drop (Z.to_nat (a - 1)) lines)))]
               else [])).
Proof.
  intros lines.
  assert (Forall (λ l, has_text l = true) lines) as Hall.
  { apply Forall_forall. by intros l [? _]%list_elem_of_filter. }
  assert (extract_rtf converted = whole_document lines) as E.
  { unfold extract_rtf. fold lines. destruct lines as [|l ls]; [done|].
    pose proof (has_text_nonempty _ (has_text_lines [PyStr.nl] l ls Hall)).
    cbn [whole_document]. by destruct (PyStr.join _ _). }
  destruct (whole_document_shape _ Hall) as [H1 H2].
  split; [exact E|]. rewrite E. split; [exact H1|]. split; [exact H2|].
  intros a b Hab Hb.
  apply (whole_document_window lines (py ".rtf") a b eq_refl); [|done|done].
  apply Forall_forall. intros l [_ Hl]%list_elem_of_filter.
  pose proof (splitlines_no_newline converted) as Hnl.
  rewrite Forall_forall in Hnl. by apply Hnl.
Qed.

Lemma extract_rtf_lines_witness :
  filter_sections (extract_rtf ((py "one" ++ [PyStr.nl] ++ [] ++ [PyStr.nl] ++ py "two" ++ [PyStr.nl] ++ py "three")))
    (PyStr.of_int 2 ++ py "-" ++ PyStr.of_int 2) (py ".rtf")
  = Some (None, [(py "document lines 2-2", py "two")]).
Proof.
  apply (proj2 (proj2 (proj2 (extract_rtf_lines ((py "one" ++ [PyStr.nl] ++ [] ++ [PyStr.nl] ++ py "two" ++ [PyStr.nl] ++ py "three"))))));
    [lia|by vm_compute].
Defined.

(** ** Sheets *)

Lemma filter_zip_snd {A} (P : A → Prop) `{!∀ x, Decision (P x)} (i : Z)
    (l : list A) :
  (filter (λ p : Z * A, P p.2) (zip (seqZ i (Z.of_nat (length l))) l)).*2
  = filter P l.
Proof.
  revert i. induction l as [|x l IH]; intros i; [done|].
  rewrite seqZ_cons by (simpl; lia).
  replace (Z.pred (Z.of_nat (length (x :: l))))
    with (Z.of_nat (length l)) by (simpl; lia).
  change (zip (i :: ?s) (x :: l)) with ((i, x) :: zip s l).
  rewrite !filter_cons. cbn [snd].
  destruct (decide (P x)); [rewrite fmap_cons; cbn [snd]|];
    by rewrite (IH (Z.succ i)).
Qed.

Lemma chosen_by_name (name : str) (sections : list section) :
  chosen_sheets (SheetSelector (∅ ∪ {[ name ]}) ∅ None) sections
  = filter (λ s : section, sheet_name s.1 = name) sections.
Proof.
  unfold chosen_sheets. cbn [indices names].
  rewrite <- (filter_zip_snd (λ s : section, sheet_name s.1 = name) 1).
  f_equal. apply list_filter_iff. intros [i s]. cbn [fst snd].
  rewrite elem_of_union, elem_of_singleton, !elem_of_empty.
  split; [by intros [[]|[[]|?]]|by intros ?; right; right].
Qed.

(** A selector that is one name. *)
Lemma parse_sheet_name (name : str) :
  PyStr.contains "," name = false → PyStr.contains ":" name = false →
  PyStr.strip_of is_quote (PyStr.strip name) = name →
  PyStr.int name = None →
  PyStr.contains "-" name = false ∨ parse_numeric_range name = None →
  parse_sheet_selector name = Some (SheetSelector (∅ ∪ {[ name ]}) ∅ None).
Proof.
  intros Hcomma Hcolon Hstrip Hint Hdash.
  unfold parse_sheet_selector. rewrite (split_no_sep _ _ Hcomma).
  cbn [parse_sheet_parts]. unfold sheet_part. rewrite Hstrip, Hcolon.
  cbn. rewrite Hint.
  destruct (PyStr.contains "-" name) eqn:Hd; cbn [negb]; [|done].
  destruct Hdash as [?| ->]; done.
Qed.

Lemma xlsx_section_label sheet s :
  xlsx_section sheet = Some s → s.1 = sheet_label sheet.1.
Proof.
  unfold xlsx_section. destruct (filter _ _); [done|]. by intros [= <-].
Qed.

Lemma filter_omap_named {A} (f : A → option section) (name_of : A → str)
    (name : str) (l : list A) :
  (∀ x s, f x = Some s → s.1 = sheet_label (name_of x)) →
  filter (λ s : section, sheet_name s.1 = name) (omap f l)
  = omap f (filter (λ x, name_of x = name) l).
Proof.
  intros Hf. induction l as [|x l IH]; [done|].
  rewrite filter_cons.
  change (omap f (x :: l))
    with (match f x with Some y => y :: omap f l | None => omap f l end).
  destruct (f x) as [s|] eqn:Hx.
  - rewrite filter_cons, IH. pose proof (Hf x s Hx) as Hs.
    assert (sheet_name s.1 = name_of x) as E.
    { rewrite Hs. apply sheet_name_decorated. }
    rewrite E. destruct (decide (name_of x = name)); [|done].
    change (omap f (x :: ?k))
      with (match f x with Some y => y :: omap f k | None => omap f k end).
    by rewrite Hx.
  - rewrite IH. destruct (decide (name_of x = name)); [|done].
    change (omap f (x :: ?k))
      with (match f x with Some y => y :: omap f k | None => omap f k end).
    by rewrite Hx.
Qed.

(** X27.  [extract_xlsx] gives the sheets that have a row with text, in
    workbook order, each under "sheet '{name}'" with a text that is not
    blank; a sheet without text gives no section.  A sheet with text can
    be chosen by its name: for a name without comma and colon, without
    white space or quotes around it, that does not read as a number or a
    numeric range, [filter_sections] returns the sections of the sheets of
    that name, unchanged. *)
Theorem extract_xlsx_by_name (workbook : list xlsx_sheet) (name : str) :
  Forall (λ s : section, has_text s.2 = true) (extract_xlsx workbook)
  ∧ (∀ sheet, sheet ∈ workbook →
       xlsx_section sheet
       = (λ t, (sheet_label sheet.1, t)) <$> lines_text (xlsx_lines sheet.2))
  ∧ (PyStr.contains "," name = false → PyStr.contains ":" name = false →
     PyStr.strip_of is_quote (PyStr.strip name) = name →
     PyStr.int name = None →
     PyStr.contains "-" name = false ∨ parse_numeric_range name = None →
     filter_sections (extract_xlsx workbook) name (py ".xlsx")
     = Some (None,
             extract_xlsx (filter (λ sheet : xlsx_sheet, sheet.1 = name)
                             workbook))).
Proof.
  split; [|split].
  - apply Forall_forall. intros s Hs.
    apply list_elem_of_omap in Hs as (sheet & _ & Hs).
    unfold xlsx_section in Hs.
    destruct (filter _ _) as [|line lines] eqn:E; [done|].
    assert (s.2 = PyStr.join [PyStr.nl] (line :: lines)) as ->
      by (destruct s; cbn [snd]; congruence).
    apply has_text_lines.
    rewrite <- E. apply Forall_forall. by intros l [? _]%list_elem_of_filter.
  - intros sheet _. unfold xlsx_section, xlsx_lines, lines_text.
    by destruct (filter _ _).
  - intros Hcomma Hcolon Hstrip Hint Hdash.
    rewrite (filter_sections_sheet_addressed _ _ (py ".xlsx") _ eq_refl
               (parse_sheet_name name Hcomma Hcolon Hstrip Hint Hdash)).
    cbn [row_range]. rewrite chosen_by_name. unfold extract_xlsx.
    by rewrite (filter_omap_named xlsx_section fst name workbook
                  xlsx_section_label).
Qed.

Lemma extract_xlsx_by_name_witness :
  filter_sections
    (extract_xlsx
       [(py "Empty", [[None; Some (py " ")]]);
        (py "Q1-Q2", [[Some (py "a"); None; Some (py "1")]; [None]]);
        (py "Costs", [[Some (py "c")]])])
    (py "Q1-Q2") (py ".xlsx")
  = Some (None, [(py "sheet 'Q1-Q2'", py "a" ++ [tab; tab] ++ py "1")]).
Proof.
  apply (proj2 (proj2 (extract_xlsx_by_name
           [(py "Empty", [[None; Some (py " ")]]);
            (py "Q1-Q2", [[Some (py "a"); None; Some (py "1")]; [None]]);
            (py "Costs", [[Some (py "c")]])]
           (py "Q1-Q2"))));
    [reflexivity|reflexivity|reflexivity|reflexivity|right; reflexivity].
Defined.









(** ** Instances on small files *)

Lemma extract_pdf_pages_witness :
  filter_sections (extract_pdf [py " a "; py "  "; py "c"]) (PyStr.of_int 3)
    (py ".pdf")
  = Some (None, [(py "page 3", py "c")]).
Proof.
  apply (proj1 (proj2 (extract_pdf_pages [py " a "; py "  "; py "c"])));
    [by vm_compute|split; [lia|by vm_compute]].
Defined.

Lemma extract_pptx_slides_witness :
  filter_sections
    (extract_pptx
       [[PptxShape (Some [py " "]) None];
        [PptxShape (Some [py "Title"]) (Some [[py " a "; py "b"]]);
         PptxShape None None]])
    (PyStr.of_int 2) (py ".pptx")
  = Some (None,
          [(py "slide 2",
            py "Title" ++ [PyStr.nl] ++ py "a" ++ [tab] ++ py "b")]).
Proof.
  apply (proj1 (proj2 (extract_pptx_slides
           [[PptxShape (Some [py " "]) None];
            [PptxShape (Some [py "Title"]) (Some [[py " a "; py "b"]]);
             PptxShape None None]])));
    [by vm_compute|split; [lia|by vm_compute]].
Defined.

Lemma extract_odp_slides_witness :
  filter_sections (extract_odp [[]; [py "one"; py " "; py "two"]])
    (PyStr.of_int 2) (py ".odp")
  = Some (None, [(py "slide 2", py "one" ++ [PyStr.nl] ++ py "two")]).
Proof.
  apply (proj1 (proj2 (extract_odp_slides
                         [[]; [py "one"; py " "; py "two"]])));
    [by vm_compute|split; [lia|by vm_compute]].
Defined.

Lemma extract_epub_chapters_witness :
  filter_sections
    (extract_epub
       (EpubPackage (py "OEBPS/content.opf")
          [(Some (py "c1"), Some (py "one.html"));
           (Some (py "c2"), Some (py "/two.html"))]
          [Some (py "c0"); Some (py "c1"); Some (py "c2")]
          (λ name,
             if decide (name = py "OEBPS/one.html")
             then Some (py "<p> Hello </p>")
             else if decide (name = py "two.html")
                  then Some (py "<h1>Two</h1>" ++ [PyStr.nl] ++ py "<br/>")
                  else None)))
    (PyStr.of_int 3) (py ".epub")
  = Some (None, [(py "chapter 3", py "Two")]).
Proof.
  etrans;
    [apply (proj1 (proj2 (extract_epub_chapters _)));
       [by vm_compute|split; [lia|by vm_compute]]|].
  by vm_compute.
Defined.
